(** * Star-schema builder of the electric-product pipeline

    A shallow embedding of [src/models/star_schema_model.py] and of the
    loader and the joins of [src/dashboard/app.py]
    ([load_star_schema_data], [prepare_dashboard_data]), together with the
    properties of the surrogate keys, of the natural-key lookups, of the
    persisted artifacts, of the errors of a build and of the joined tables
    the dashboard draws from.

    pandas frames are modelled column-wise, as pandas stores them; a Python
    [dict] is a [gmap]; raising code returns in the [result] monad. *)

From Stdlib Require Import ZArith List String Ascii Lia.
From stdpp Require Import base option gmap strings list fin_maps sorting.

Local Open Scope string_scope.
Local Open Scope list_scope.

(* ===================================================================== *)
(** ** Cells                                                              *)
(* ===================================================================== *)

(** A calendar date.  The timestamps of this pipeline all sit at midnight
    (they come from [YYYY-MM-DD] texts and from a daily [date_range]), so a
    timestamp cell carries its date only. *)
Record date := mkDate { year : Z; month : Z; day : Z }.

(** One cell of a column.
    - [VInt]: an int64 cell;
    - [VFloat m e]: a float64 cell, written as the decimal [m * 10^e] that
      pandas prints for it; the builder moves such cells and never computes
      on them;
    - [VStr]: a Python [str] in an object column;
    - [VBool]: a bool cell;
    - [VTimestamp]: a [datetime64] cell;
    - [VNaN]: the missing value ([NaN], [NaT], [None]). *)
Inductive value :=
| VInt (z : Z)
| VFloat (m e : Z)
| VStr (s : string)
| VBool (b : bool)
| VTimestamp (d : date)
| VNaN.

Global Instance date_eq_dec : EqDecision date.
Proof. solve_decision. Defined.

Global Instance value_eq_dec : EqDecision value.
Proof. solve_decision. Defined.

Definition value_encode (v : value) : Z + Z * Z + string + bool + Z * Z * Z + unit :=
  match v with
  | VInt z => inl (inl (inl (inl (inl z))))
  | VFloat m e => inl (inl (inl (inl (inr (m, e)))))
  | VStr s => inl (inl (inl (inr s)))
  | VBool b => inl (inl (inr b))
  | VTimestamp d => inl (inr (year d, month d, day d))
  | VNaN => inr tt
  end.

Definition value_decode (c : Z + Z * Z + string + bool + Z * Z * Z + unit) : value :=
  match c with
  | inl (inl (inl (inl (inl z)))) => VInt z
  | inl (inl (inl (inl (inr (m, e))))) => VFloat m e
  | inl (inl (inl (inr s))) => VStr s
  | inl (inl (inr b)) => VBool b
  | inl (inr (y, m, d)) => VTimestamp (mkDate y m d)
  | inr _ => VNaN
  end.

(** Cells are hashable: they can be the keys of a [dict]. *)
Global Instance value_countable : Countable value.
Proof.
  refine (inj_countable' value_encode value_decode _).
  intros [| | | |[]|]; reflexivity.
Defined.

(** A column: the cells in index order. *)
Abbreviation Series := (list value).

(* ===================================================================== *)
(** ** Exceptions                                                         *)
(* ===================================================================== *)

(** The exceptions the modelled code can raise.  [OutOfModel] marks an
    input on which pandas does something this development does not
    describe (a date text in another layout than [YYYY-MM-DD], a float
    where an integer is converted, ...): no statement below speaks about
    such inputs. *)
Inductive error :=
| KeyError (key : string)
| ValueError (msg : string)
| OverflowError
| OutOfBoundsDatetime
| FileNotFoundError (path : string)
| EmptyDataError
| OutOfModel (what : string).

Inductive result (A : Type) :=
| Ok (a : A)
| Raise (e : error).
Arguments Ok {A} a.
Arguments Raise {A} e.

(** Did the call return? *)
Definition is_Ok {A} (r : result A) : bool :=
  match r with
  | Ok _ => true
  | Raise _ => false
  end.

(** Sequencing: an exception in [r] skips the rest ([x ← r; k]). *)
Global Instance result_bind : MBind result := λ A B k r,
  match r with
  | Ok a => k a
  | Raise e => Raise e
  end.

(** [[f(x) for x in xs]] when [f] can raise: stops at the first exception. *)
Fixpoint traverse {A B} (f : A → result B) (xs : list A) : result (list B) :=
  match xs with
  | [] => Ok []
  | x :: xs' => y ← f x ; ys ← traverse f xs' ; Ok (y :: ys)
  end.

(* ===================================================================== *)
(** ** Frames                                                             *)
(* ===================================================================== *)

(** A [DataFrame] with a [RangeIndex]: [df_len] is [len(df)], [df_cols] the
    labelled columns in column order. *)
Record DataFrame := mkDF {
  df_len : nat;
  df_cols : list (string * Series)
}.

(** [df.columns] *)
Definition columns (df : DataFrame) : list string := (df_cols df).*1.

(** Every column has one cell per index entry and no label is repeated
    (what [read_csv] and the constructors in the builder produce). *)
Definition wf_frame (df : DataFrame) : Prop :=
  Forall (λ c, length c.2 = df_len df) (df_cols df) ∧ NoDup (columns df).

Fixpoint assoc (c : string) (cols : list (string * Series)) : option Series :=
  match cols with
  | [] => None
  | (c', s) :: rest => if decide (c' = c) then Some s else assoc c rest
  end.

(** [df[c]] *)
Definition getitem (df : DataFrame) (c : string) : result Series :=
  match assoc c (df_cols df) with
  | Some s => Ok s
  | None => Raise (KeyError c)
  end.

(** [df[[c1, ..., cn]]]: the named columns in the order asked for. *)
Definition getitem_list (df : DataFrame) (cs : list string) : result DataFrame :=
  cols ← traverse (λ c, s ← getitem df c ; Ok (c, s)) cs ;
  Ok (mkDF (df_len df) cols).

Fixpoint replace_col (c : string) (s : Series) (cols : list (string * Series))
  : list (string * Series) :=
  match cols with
  | [] => [(c, s)]
  | (c', s') :: rest =>
      if decide (c' = c) then (c, s) :: rest else (c', s') :: replace_col c s rest
  end.

(** [df[c] = s] for a list-like [s]: an existing column is overwritten in
    place, a new one is appended; a wrong length is a [ValueError]. *)
Definition setitem (df : DataFrame) (c : string) (s : Series) : result DataFrame :=
  if decide (length s = df_len df)
  then Ok (mkDF (df_len df) (replace_col c s (df_cols df)))
  else Raise (ValueError "Length of values does not match length of index").

(** [df.copy()]: a fresh frame with the same content. *)
Definition copy (df : DataFrame) : DataFrame := df.

(** [range(lo, hi)] as a column of ints. *)
Definition py_range (lo hi : Z) : Series :=
  (λ i, VInt (lo + Z.of_nat i)) <$> seq 0 (Z.to_nat (hi - lo)).

(** [len(df)] *)
Definition len (df : DataFrame) : Z := Z.of_nat (df_len df).

(* ===================================================================== *)
(** ** Entity dimensions                                                  *)
(* ===================================================================== *)

Definition product_attrs : list string :=
  ["product_id"; "product_name"; "category"; "subcategory";
   "energy_rating"; "price"; "manufacturing_cost"; "warranty_years";
   "weight_kg"; "profit_margin"; "launch_date"].

Definition customer_attrs : list string :=
  ["customer_id"; "customer_name"; "country"; "segment";
   "acquisition_date"; "lifetime_value"; "acquisition_year"; "acquisition_month"].

Definition store_attrs : list string :=
  ["store_id"; "store_name"; "country"; "store_type";
   "opening_date"; "size_sqm"; "opening_year"].

Definition create_product_dimension (products_df : DataFrame) : result DataFrame :=
  (* Select relevant columns for product dimension *)
  product_dim ← getitem_list products_df product_attrs ;
  let product_dim := copy product_dim in
  (* Add surrogate key *)
  product_dim ← setitem product_dim "product_key" (py_range 1 (len product_dim + 1)) ;
  (* Reorder columns to put key first *)
  let cols := "product_key" :: filter (λ col, col ≠ "product_key") (columns product_dim) in
  getitem_list product_dim cols.

Definition create_customer_dimension (customers_df : DataFrame) : result DataFrame :=
  customer_dim ← getitem_list customers_df customer_attrs ;
  let customer_dim := copy customer_dim in
  customer_dim ← setitem customer_dim "customer_key" (py_range 1 (len customer_dim + 1)) ;
  let cols := "customer_key" :: filter (λ col, col ≠ "customer_key") (columns customer_dim) in
  getitem_list customer_dim cols.

Definition create_store_dimension (stores_df : DataFrame) : result DataFrame :=
  store_dim ← getitem_list stores_df store_attrs ;
  let store_dim := copy store_dim in
  store_dim ← setitem store_dim "store_key" (py_range 1 (len store_dim + 1)) ;
  let cols := "store_key" :: filter (λ col, col ≠ "store_key") (columns store_dim) in
  getitem_list store_dim cols.

(** The dense keys [1, ..., n]. *)
Definition dense_keys (n : nat) : Series := (λ i, VInt (Z.of_nat i)) <$> seq 1 n.

(** The columns [cs] of [df], labelled, in the order of [cs]. *)
Definition project (df : DataFrame) (cs : list string) : list (string * Series) :=
  (λ c, (c, default [] (assoc c (df_cols df)))) <$> cs.

(** The shape all three dimension builders share: select [attrs], append the
    key column, move it to the front. *)
Definition with_surrogate_key (key : string) (attrs : list string) (df : DataFrame)
  : result DataFrame :=
  dim ← getitem_list df attrs ;
  dim ← setitem dim key (py_range 1 (len dim + 1)) ;
  getitem_list dim (key :: filter (λ col, col ≠ key) (columns dim)).

(* ===================================================================== *)
(** ** Texts and integers                                                 *)
(* ===================================================================== *)

Definition digit_char (d : Z) : ascii := ascii_of_nat (48 + Z.to_nat d).

Definition digit_val (c : ascii) : option Z :=
  let n := Z.of_nat (nat_of_ascii c) in
  if ((48 <=? n) && (n <=? 57))%Z then Some (n - 48)%Z else None.

(** The decimal digits of [n >= 0] in front of [tail], most significant
    first; [fuel] bounds the number of digits. *)
Fixpoint digits_fuel (fuel : nat) (n : Z) (tail : string) : string :=
  match fuel with
  | O => tail
  | S fuel' =>
      let tail' := String (digit_char (n mod 10)) tail in
      if (n <? 10)%Z then tail' else digits_fuel fuel' (n / 10) tail'
  end.

Definition str_nat (n : Z) : string := digits_fuel (S (Z.to_nat (Z.log2 n))) n "".

(** [str(z)] of a Python int. *)
Definition str_int (z : Z) : string :=
  if (z <? 0)%Z then String "-" (str_nat (- z)) else str_nat z.

Fixpoint parse_digits (acc : Z) (s : string) : option Z :=
  match s with
  | EmptyString => Some acc
  | String c s' =>
      match digit_val c with
      | Some d => parse_digits (acc * 10 + d) s'
      | None => None
      end
  end.

(** [int(s)] on a text: an optional sign and at least one decimal digit.
    (Python also accepts blanks around the number and underscores between
    digits; the texts converted here are built from [str] of ints.) *)
Definition py_int (s : string) : option Z :=
  match s with
  | EmptyString => None
  | String "-" EmptyString | String "+" EmptyString => None
  | String "-" s' => Z.opp <$> parse_digits 0 s'
  | String "+" s' => parse_digits 0 s'
  | _ => parse_digits 0 s
  end.

Fixpoint zeros (n : nat) : string :=
  match n with
  | O => EmptyString
  | S n' => String "0" (zeros n')
  end.

(** [s.zfill(width)]: zeros on the left up to [width], after a leading
    sign if there is one. *)
Definition zfill (width : nat) (s : string) : string :=
  let pad := zeros (width - String.length s) in
  match s with
  | String "-" s' => String "-" (pad +:+ s')
  | String "+" s' => String "+" (pad +:+ s')
  | _ => pad +:+ s
  end.

Definition int64_min : Z := (- 2 ^ 63)%Z.
Definition int64_max : Z := (2 ^ 63 - 1)%Z.

(** One cell of [Series.astype(int)]. *)
Definition astype_int_cell (v : value) : result value :=
  match v with
  | VInt z => Ok (VInt z)
  | VBool b => Ok (VInt (if b then 1 else 0))
  | VStr s =>
      match py_int s with
      | Some z =>
          if ((int64_min <=? z) && (z <=? int64_max))%Z then Ok (VInt z)
          else Raise OverflowError
      | None => Raise (ValueError "invalid literal for int() with base 10")
      end
  | VNaN => Raise (ValueError "cannot convert float NaN to integer")
  | VFloat _ _ => Raise (OutOfModel "astype(int) of a float")
  | VTimestamp _ => Raise (OutOfModel "astype(int) of a timestamp")
  end.

(** [s.astype(int)] *)
Definition astype_int (s : Series) : result Series := traverse astype_int_cell s.

Definition iso_date (d : date) : string :=
  zfill 4 (str_int (year d)) +:+ "-" +:+ zfill 2 (str_int (month d))
  +:+ "-" +:+ zfill 2 (str_int (day d)).

(** One cell of [Series.astype(str)]. *)
Definition astype_str_cell (v : value) : result value :=
  match v with
  | VInt z => Ok (VStr (str_int z))
  | VStr s => Ok (VStr s)
  | VBool b => Ok (VStr (if b then "True" else "False"))
  | VNaN => Ok (VStr "nan")
  | VTimestamp d => Ok (VStr (iso_date d))
  | VFloat _ _ => Raise (OutOfModel "astype(str) of a float")
  end.

(** [s.astype(str)] *)
Definition astype_str (s : Series) : result Series := traverse astype_str_cell s.

(** [s.str.zfill(width)]: applies to the texts, anything else becomes
    missing.  (Older pandas pads without looking at a sign; at width 2 the
    two agree on every [str] of an int.) *)
Definition str_zfill (width : nat) (s : Series) : Series :=
  (λ v, match v with VStr t => VStr (zfill width t) | _ => VNaN end) <$> s.

(** One cell of [a + b] on object columns. *)
Definition add_cell (a b : value) : result value :=
  match a, b with
  | VStr s, VStr t => Ok (VStr (s +:+ t))
  | VNaN, _ | _, VNaN => Ok VNaN
  | _, _ => Raise (OutOfModel "+ on cells that are not texts")
  end.

(** [a + b] for two columns of one frame (same index). *)
Definition series_add (a b : Series) : result Series :=
  traverse (λ p, add_cell p.1 p.2) (zip a b).

(** [a + t] for a column and a text. *)
Definition series_add_str (a : Series) (t : string) : result Series :=
  traverse (λ v, add_cell v (VStr t)) a.

(* ===================================================================== *)
(** ** Calendar                                                           *)
(* ===================================================================== *)

Local Open Scope Z_scope.

Definition is_leap (y : Z) : bool :=
  (y mod 4 =? 0) && (negb (y mod 100 =? 0) || (y mod 400 =? 0)).

Definition days_in_month (y m : Z) : Z :=
  match m with
  | 1 | 3 | 5 | 7 | 8 | 10 | 12 => 31
  | 4 | 6 | 9 | 11 => 30
  | 2 => if is_leap y then 29 else 28
  | _ => 0
  end.

Definition valid_date (d : date) : bool :=
  (1 <=? month d) && (month d <=? 12) && (1 <=? day d)
  && (day d <=? days_in_month (year d) (month d)).

(** Calendar order. *)
Definition date_leb (a b : date) : bool :=
  (year a <? year b)
  || ((year a =? year b)
      && ((month a <? month b) || ((month a =? month b) && (day a <=? day b)))).

Definition days_before_year (y : Z) : Z :=
  (y - 1) * 365 + (y - 1) / 4 - (y - 1) / 100 + (y - 1) / 400.

Fixpoint days_before_month_nat (y : Z) (m : nat) : Z :=
  match m with
  | O => 0
  | S m' => days_before_month_nat y m' + days_in_month y (Z.of_nat m)
  end.

Definition days_before_month (y m : Z) : Z := days_before_month_nat y (Z.to_nat (m - 1)).

(** [date.toordinal()]: day 1 is 0001-01-01. *)
Definition toordinal (d : date) : Z :=
  days_before_year (year d) + days_before_month (year d) (month d) + day d.

(** [date.weekday()] / [dayofweek]: Monday is 0. *)
Definition dayofweek (d : date) : Z := (toordinal d + 6) mod 7.

Definition next_day (d : date) : date :=
  if day d <? days_in_month (year d) (month d) then mkDate (year d) (month d) (day d + 1)
  else if month d <? 12 then mkDate (year d) (month d + 1) 1
  else mkDate (year d + 1) 1 1.

Fixpoint days_from (n : nat) (d : date) : list date :=
  match n with
  | O => []
  | S n' => d :: days_from n' (next_day d)
  end.

(** [pd.date_range(start, end, freq='D')]: every day from [start] to [end],
    both included; empty when [end] is before [start]. *)
Definition date_range (start_date end_date : date) : list date :=
  days_from (Z.to_nat (toordinal end_date - toordinal start_date + 1)) start_date.

Definition quarter (d : date) : Z := (month d - 1) / 3 + 1.

Definition day_name (d : date) : string :=
  match dayofweek d with
  | 0 => "Monday" | 1 => "Tuesday" | 2 => "Wednesday" | 3 => "Thursday"
  | 4 => "Friday" | 5 => "Saturday" | _ => "Sunday"
  end.

Definition month_name (d : date) : string :=
  match month d with
  | 1 => "January" | 2 => "February" | 3 => "March" | 4 => "April"
  | 5 => "May" | 6 => "June" | 7 => "July" | 8 => "August"
  | 9 => "September" | 10 => "October" | 11 => "November" | _ => "December"
  end.

(** The days a nanosecond timestamp can hold at midnight. *)
Definition timestamp_min : date := mkDate 1677 9 22.
Definition timestamp_max : date := mkDate 2262 4 11.

Definition in_timestamp_bounds (d : date) : bool :=
  date_leb timestamp_min d && date_leb d timestamp_max.

(** A text in the layout [YYYY-MM-DD]. *)
Definition parse_iso_date (s : string) : option date :=
  match s with
  | String y1 (String y2 (String y3 (String y4 (String "-"
     (String m1 (String m2 (String "-" (String d1 (String d2 EmptyString))))))))) =>
      y ← parse_digits 0 (String y1 (String y2 (String y3 (String y4 EmptyString)))) ;
      m ← parse_digits 0 (String m1 (String m2 EmptyString)) ;
      d ← parse_digits 0 (String d1 (String d2 EmptyString)) ;
      Some (mkDate y m d)
  | _ => None
  end.

(** One cell of [pd.to_datetime(s)] (errors='raise'). *)
Definition to_datetime_cell (v : value) : result value :=
  match v with
  | VTimestamp d => Ok (VTimestamp d)
  | VNaN => Ok VNaN
  | VStr s =>
      match parse_iso_date s with
      | Some d =>
          if valid_date d then
            if in_timestamp_bounds d then Ok (VTimestamp d) else Raise OutOfBoundsDatetime
          else Raise (ValueError "day is out of range for month")
      | None => Raise (OutOfModel "date text in another layout than YYYY-MM-DD")
      end
  | _ => Raise (OutOfModel "to_datetime of a number")
  end.

(** [pd.to_datetime(s)] *)
Definition to_datetime (s : Series) : result Series := traverse to_datetime_cell s.

(** The text of [strftime('%Y%m%d')] for one date. *)
Definition strftime_Ymd (d : date) : string :=
  zfill 4 (str_int (year d)) +:+ zfill 2 (str_int (month d)) +:+ zfill 2 (str_int (day d)).

(** [s.dt.strftime('%Y%m%d')]: a missing timestamp stays missing. *)
Definition dt_strftime_Ymd (s : Series) : result Series :=
  traverse (λ v, match v with
                 | VTimestamp d => Ok (VStr (strftime_Ymd d))
                 | VNaN => Ok VNaN
                 | _ => Raise (OutOfModel ".dt on a column that holds no timestamps")
                 end) s.

Local Close Scope Z_scope.

(* ===================================================================== *)
(** ** Date dimension                                                     *)
(* ===================================================================== *)

(** [pd.DataFrame({...})] from equally long columns. *)
Definition DataFrame_of (cols : list (string * Series)) : result DataFrame :=
  match cols with
  | [] => Ok (mkDF 0 [])
  | (_, s) :: _ =>
      if forallb (λ c, Nat.eqb (length c.2) (length s)) cols
      then Ok (mkDF (length s) cols)
      else Raise (ValueError "All arrays must be of the same length")
  end.

Definition create_date_dimension : result DataFrame :=
  (* Generate dates from 2022-01-01 to 2023-12-31 *)
  let start_date := mkDate 2022 1 1 in
  let end_date := mkDate 2023 12 31 in
  let date_range := date_range start_date end_date in
  date_dim ← DataFrame_of
    [ ("date_id", py_range 1 (Z.of_nat (length date_range) + 1));
      ("date", VTimestamp <$> date_range);
      ("day", (λ d, VInt (day d)) <$> date_range);
      ("month", (λ d, VInt (month d)) <$> date_range);
      ("quarter", (λ d, VInt (quarter d)) <$> date_range);
      ("year", (λ d, VInt (year d)) <$> date_range);
      ("day_of_week", (λ d, VInt (dayofweek d)) <$> date_range);
      ("day_name", (λ d, VStr (day_name d)) <$> date_range);
      ("month_name", (λ d, VStr (month_name d)) <$> date_range);
      ("is_weekend", (λ d, VBool (bool_decide (dayofweek d ∈ [5; 6]%Z))) <$> date_range) ] ;
  (* Create date_key for joining (YYYYMMDD format) *)
  dates ← getitem date_dim "date" ;
  texts ← dt_strftime_Ymd dates ;
  keys ← astype_int texts ;
  date_dim ← setitem date_dim "date_key" keys ;
  Ok date_dim.

(* ===================================================================== *)
(** ** Fact tables                                                        *)
(* ===================================================================== *)

(** [dict(zip(ks, vs))]: pairs are inserted in order, so a repeated key
    keeps the value inserted last.  Keys are compared as cells; the natural
    ids of this pipeline are texts ([P0001], [C0001], [S001]). *)
Definition dict_zip (ks vs : Series) : gmap value value :=
  foldl (λ m kv, <[kv.1 := kv.2]> m) ∅ (zip ks vs).

(** [s.map(d)] for a dict [d]: a cell that is no key of [d] becomes NaN. *)
Definition series_map (s : Series) (d : gmap value value) : Series :=
  (λ v, default VNaN (d !! v)) <$> s.

Definition sales_fact_columns : list string :=
  ["transaction_id"; "date_key"; "product_key"; "customer_key"; "store_key";
   "quantity"; "unit_price"; "discount"; "final_price"; "total_amount";
   "payment_method"].

Definition create_sales_fact
    (sales_df product_dim customer_dim store_dim date_dim : DataFrame) : result DataFrame :=
  (* Start with a copy of the sales dataframe *)
  let sales_fact := copy sales_df in
  (* Convert transaction_date to date_key format for joining *)
  raw ← getitem sales_fact "transaction_date" ;
  stamps ← to_datetime raw ;
  sales_fact ← setitem sales_fact "transaction_date" stamps ;
  stamps ← getitem sales_fact "transaction_date" ;
  texts ← dt_strftime_Ymd stamps ;
  keys ← astype_int texts ;
  sales_fact ← setitem sales_fact "date_key" keys ;
  (* Create mapping dictionaries for dimension keys *)
  pid ← getitem product_dim "product_id" ;
  pkey ← getitem product_dim "product_key" ;
  let product_key_map := dict_zip pid pkey in
  cid ← getitem customer_dim "customer_id" ;
  ckey ← getitem customer_dim "customer_key" ;
  let customer_key_map := dict_zip cid ckey in
  sid ← getitem store_dim "store_id" ;
  skey ← getitem store_dim "store_key" ;
  let store_key_map := dict_zip sid skey in
  (* Map dimension keys to fact table *)
  ids ← getitem sales_fact "product_id" ;
  sales_fact ← setitem sales_fact "product_key" (series_map ids product_key_map) ;
  ids ← getitem sales_fact "customer_id" ;
  sales_fact ← setitem sales_fact "customer_key" (series_map ids customer_key_map) ;
  ids ← getitem sales_fact "store_id" ;
  sales_fact ← setitem sales_fact "store_key" (series_map ids store_key_map) ;
  (* Select only necessary columns for fact table *)
  sales_fact ← getitem_list sales_fact sales_fact_columns ;
  (* Add surrogate key *)
  sales_fact ← setitem sales_fact "sales_key" (py_range 1 (len sales_fact + 1)) ;
  (* Reorder columns to put key first *)
  let cols := "sales_key" :: filter (λ col, col ≠ "sales_key") (columns sales_fact) in
  getitem_list sales_fact cols.

Definition performance_fact_columns : list string :=
  ["date_key"; "product_key"; "energy_consumption_kwh"; "failure_rate";
   "customer_satisfaction"; "return_rate"; "warranty_claims"].

Definition create_performance_fact
    (performance_df product_dim date_dim : DataFrame) : result DataFrame :=
  (* Start with a copy of the performance dataframe *)
  let performance_fact := copy performance_df in
  (* Create date_key from year and month *)
  years ← getitem performance_fact "year" ;
  years ← astype_str years ;
  months ← getitem performance_fact "month" ;
  months ← astype_str months ;
  let months := str_zfill 2 months in
  texts ← series_add years months ;
  texts ← series_add_str texts "01" ;
  keys ← astype_int texts ;
  performance_fact ← setitem performance_fact "date_key" keys ;
  (* Create mapping dictionary for product keys *)
  pid ← getitem product_dim "product_id" ;
  pkey ← getitem product_dim "product_key" ;
  let product_key_map := dict_zip pid pkey in
  (* Map product keys to fact table *)
  ids ← getitem performance_fact "product_id" ;
  performance_fact ← setitem performance_fact "product_key" (series_map ids product_key_map) ;
  (* Select only necessary columns for fact table *)
  performance_fact ← getitem_list performance_fact performance_fact_columns ;
  (* Add surrogate key *)
  performance_fact ←
    setitem performance_fact "performance_key" (py_range 1 (len performance_fact + 1)) ;
  (* Reorder columns to put key first *)
  let cols := "performance_key"
              :: filter (λ col, col ≠ "performance_key") (columns performance_fact) in
  getitem_list performance_fact cols.

(** The six tables of one build, from the five cleaned tables: the middle
    of [main], between loading and saving. *)
Definition build_star_schema
    (inputs : DataFrame * DataFrame * DataFrame * DataFrame * DataFrame)
  : result (DataFrame * DataFrame * DataFrame * DataFrame * DataFrame * DataFrame) :=
  let '(products_df, customers_df, stores_df, sales_df, performance_df) := inputs in
  (* Create dimension tables *)
  date_dim ← create_date_dimension ;
  product_dim ← create_product_dimension products_df ;
  customer_dim ← create_customer_dimension customers_df ;
  store_dim ← create_store_dimension stores_df ;
  (* Create fact tables *)
  sales_fact ← create_sales_fact sales_df product_dim customer_dim store_dim date_dim ;
  performance_fact ← create_performance_fact performance_df product_dim date_dim ;
  Ok (date_dim, product_dim, customer_dim, store_dim, sales_fact, performance_fact).

(* ===================================================================== *)
(** ** Persisted artifacts                                                *)
(* ===================================================================== *)

(** A CSV file as the table of texts it encodes: the header line and one
    record per data line. *)
Record csv_file := mkCsv {
  header : list string;
  records : list (list string)
}.

(** The directory tree, as the files it holds by path.  Directories are
    implicit, so [os.makedirs(..., exist_ok=True)] has nothing to do. *)
Abbreviation filesystem := (gmap string csv_file).

(** The text pandas writes for a cell and the cell it reads from a text
    both depend on the whole column (its dtype); they are left open. *)
Class CellCodec := {
  to_field : Series → value → string;
  of_field : list string → string → value
}.

Section persistence.
Context `{codec : CellCodec}.

(** [df.to_csv(path, index=...)]: writes (or overwrites) the file at
    [path]; with [index=True] the row labels come first, under an empty
    label. *)
Definition to_csv (df : DataFrame) (path : string) (index : bool)
    (fs : filesystem) : filesystem :=
  let cols :=
    if index then ("", py_range 0 (len df)) :: df_cols df else df_cols df in
  let record (i : nat) := (λ c, to_field c.2 (default VNaN (c.2 !! i))) <$> cols in
  <[path := mkCsv cols.*1 (record <$> seq 0 (df_len df))]> fs.

(** [pd.read_csv(path)] on a file with one field per label in every
    record.  (Repeated or empty labels, which pandas renames, and ragged
    records are left out.) *)
Definition read_csv (path : string) (fs : filesystem) : result DataFrame :=
  match fs !! path with
  | None => Raise (FileNotFoundError path)
  | Some f =>
      if decide (header f = []) then Raise EmptyDataError
      else if decide (NoDup (header f) ∧ ("" ∉ header f)
                      ∧ Forall (λ r, length r = length (header f)) (records f))
      then
        let column (j : nat) := (λ r, default "" (r !! j)) <$> records f in
        Ok (mkDF (length (records f))
              (imap (λ j c, (c, of_field (column j) <$> column j)) (header f)))
      else Raise (OutOfModel "labels or records that read_csv repairs")
  end.

Definition load_processed_data (data_dir : string) (fs : filesystem)
  : result (DataFrame * DataFrame * DataFrame * DataFrame * DataFrame) :=
  products_df ← read_csv (data_dir +:+ "/products_processed.csv") fs ;
  customers_df ← read_csv (data_dir +:+ "/customers_processed.csv") fs ;
  stores_df ← read_csv (data_dir +:+ "/stores_processed.csv") fs ;
  sales_df ← read_csv (data_dir +:+ "/sales_processed.csv") fs ;
  performance_df ← read_csv (data_dir +:+ "/performance_processed.csv") fs ;
  Ok (products_df, customers_df, stores_df, sales_df, performance_df).

Definition save_star_schema
    (tables : DataFrame * DataFrame * DataFrame * DataFrame * DataFrame * DataFrame)
    (output_dir : string) (fs : filesystem) : filesystem :=
  let '(date_dim, product_dim, customer_dim, store_dim, sales_fact, performance_fact) :=
    tables in
  (* Save dimension tables *)
  let fs := to_csv date_dim (output_dir +:+ "/dim_date.csv") false fs in
  let fs := to_csv product_dim (output_dir +:+ "/dim_product.csv") false fs in
  let fs := to_csv customer_dim (output_dir +:+ "/dim_customer.csv") false fs in
  let fs := to_csv store_dim (output_dir +:+ "/dim_store.csv") false fs in
  (* Save fact tables *)
  let fs := to_csv sales_fact (output_dir +:+ "/fact_sales.csv") false fs in
  to_csv performance_fact (output_dir +:+ "/fact_performance.csv") false fs.

Definition input_dir : string := "src/data/processed_data".
Definition output_dir : string := "src/models/star_schema".

(** [main()]: load, build, save.  The messages it prints are left out. *)
Definition main (fs : filesystem) : result filesystem :=
  inputs ← load_processed_data input_dir fs ;
  tables ← build_star_schema inputs ;
  Ok (save_star_schema tables output_dir fs).

(** The dashboard's loader ([src/dashboard/app.py]). *)
Definition load_star_schema_data (data_dir : string) (fs : filesystem)
  : result (DataFrame * DataFrame * DataFrame * DataFrame * DataFrame * DataFrame) :=
  (* Load dimension tables *)
  dim_date ← read_csv (data_dir +:+ "/dim_date.csv") fs ;
  dim_product ← read_csv (data_dir +:+ "/dim_product.csv") fs ;
  dim_customer ← read_csv (data_dir +:+ "/dim_customer.csv") fs ;
  dim_store ← read_csv (data_dir +:+ "/dim_store.csv") fs ;
  (* Load fact tables *)
  fact_sales ← read_csv (data_dir +:+ "/fact_sales.csv") fs ;
  fact_performance ← read_csv (data_dir +:+ "/fact_performance.csv") fs ;
  Ok (dim_date, dim_product, dim_customer, dim_store, fact_sales, fact_performance).
End persistence.

(** The three entity dimension builds, each with the label of its surrogate
    key and the columns it keeps (the first of them is the natural key). *)
Definition entity_builds
  : list ((DataFrame → result DataFrame) * string * list string) :=
  [ (create_product_dimension, "product_key", product_attrs);
    (create_customer_dimension, "customer_key", customer_attrs);
    (create_store_dimension, "store_key", store_attrs) ].

Global Instance wf_frame_dec (df : DataFrame) : Decision (wf_frame df).
Proof. unfold wf_frame. apply _. Defined.

(** The join key of a date: the integer written [YYYYMMDD]. *)
Definition date_key_of (d : date) : Z := (year d * 10000 + month d * 100 + day d)%Z.

(** The date a cell of [transaction_date] converts to, when it is a real
    calendar day that a timestamp can hold. *)
Definition cell_date (v : value) : option date :=
  match to_datetime_cell v with
  | Ok (VTimestamp d) =>
      if valid_date d && in_timestamp_bounds d then Some d else None
  | _ => None
  end.

(** Two and four decimal digits, most significant first. *)
Definition str2 (n : Z) : string :=
  String (digit_char (n / 10)) (String (digit_char (n mod 10)) EmptyString).

Definition str4 (n : Z) : string :=
  String (digit_char (n / 1000)) (String (digit_char (n / 100 mod 10))
    (String (digit_char (n / 10 mod 10)) (String (digit_char (n mod 10)) EmptyString))).

(** The days the date dimension is generated for, and the test for a date
    to lie in that range. *)
Definition date_dim_days : list date := date_range (mkDate 2022 1 1) (mkDate 2023 12 31).

Definition in_date_dim (d : date) : bool :=
  date_leb (mkDate 2022 1 1) d && date_leb d (mkDate 2023 12 31).

(** Strictly earlier in the calendar. *)
Definition date_ltb (a b : date) : bool := negb (date_leb b a).

Definition date_dim_columns : list string :=
  ["date_id"; "date"; "day"; "month"; "quarter"; "year"; "day_of_week";
   "day_name"; "month_name"; "is_weekend"; "date_key"].

(** The columns of the cleaned sales table that the sales fact reads, and
    those among them that it copies as they are. *)
Definition sales_measures : list string :=
  ["transaction_id"; "quantity"; "unit_price"; "discount"; "final_price";
   "total_amount"; "payment_method"].

Definition sales_inputs : list string :=
  ["transaction_date"; "product_id"; "customer_id"; "store_id"] ++ sales_measures.

(** The dates of the sales rows, when every cell of [transaction_date] is a
    calendar day. *)
Definition sales_dates (sales_df : DataFrame) : option (list date) :=
  match getitem sales_df "transaction_date" with
  | Ok raw => mapM cell_date raw
  | Raise _ => None
  end.

(** The three natural-key lookups of the sales fact: the natural-key
    column (of the sales table and of the dimension), the surrogate-key
    column, the dimension. *)
Definition foreign_keys (product_dim customer_dim store_dim : DataFrame)
  : list (string * string * DataFrame) :=
  [ ("product_id", "product_key", product_dim);
    ("customer_id", "customer_key", customer_dim);
    ("store_id", "store_key", store_dim) ].

(** Inputs on which [create_sales_fact] has all it reads: the columns are
    there and every transaction date is a calendar day. *)
Definition sales_ready (sales_df product_dim customer_dim store_dim : DataFrame) : Prop :=
  wf_frame sales_df
  ∧ sales_inputs ⊆ columns sales_df
  ∧ is_Some (sales_dates sales_df)
  ∧ Forall (λ fk : string * string * DataFrame, [fk.1.1; fk.1.2] ⊆ columns fk.2)
      (foreign_keys product_dim customer_dim store_dim).

Global Instance sales_ready_dec sales_df product_dim customer_dim store_dim :
  Decision (sales_ready sales_df product_dim customer_dim store_dim).
Proof. unfold sales_ready. apply _. Defined.

(** The columns of the cleaned performance table that the performance
    fact reads, and those among them that it copies as they are. *)
Definition performance_measures : list string :=
  ["energy_consumption_kwh"; "failure_rate"; "customer_satisfaction";
   "return_rate"; "warranty_claims"].

Definition performance_inputs : list string :=
  ["year"; "month"; "product_id"] ++ performance_measures.

(** The date keys of the performance rows: the first steps of
    [create_performance_fact], up to the column it stores as [date_key]. *)
Definition performance_date_keys (performance_df : DataFrame) : result Series :=
  years ← getitem performance_df "year" ;
  years ← astype_str years ;
  months ← getitem performance_df "month" ;
  months ← astype_str months ;
  let months := str_zfill 2 months in
  texts ← series_add years months ;
  texts ← series_add_str texts "01" ;
  astype_int texts.

(** Inputs on which [create_performance_fact] has all it reads: the columns
    are there and the conversions to a date key go through. *)
Definition performance_ready (performance_df product_dim : DataFrame) : Prop :=
  wf_frame performance_df
  ∧ performance_inputs ⊆ columns performance_df
  ∧ is_Ok (performance_date_keys performance_df) = true
  ∧ ["product_id"; "product_key"] ⊆ columns product_dim.

(** An integer cell holding a four-digit year, a month from 1 to 12. *)
Definition year_cell (v : value) : option Z :=
  match v with
  | VInt y => if ((1000 <=? y) && (y <=? 9999))%Z then Some y else None
  | _ => None
  end.

Definition month_cell (v : value) : option Z :=
  match v with
  | VInt m => if ((1 <=? m) && (m <=? 12))%Z then Some m else None
  | _ => None
  end.

(** The (year, month) of the performance rows, when every row has such
    integer fields. *)
Definition performance_months (performance_df : DataFrame) : option (list (Z * Z)) :=
  match getitem performance_df "year", getitem performance_df "month" with
  | Ok years, Ok months =>
      ys ← mapM year_cell years ; ms ← mapM month_cell months ; Some (zip ys ms)
  | _, _ => None
  end.

Global Instance performance_ready_dec performance_df product_dim :
  Decision (performance_ready performance_df product_dim).
Proof. unfold performance_ready. apply _. Defined.

(** The three dimensions as [main] builds them from the cleaned tables. *)
Definition dimensions_built
    (products_df customers_df stores_df product_dim customer_dim store_dim : DataFrame)
  : Prop :=
  wf_frame products_df ∧ wf_frame customers_df ∧ wf_frame stores_df
  ∧ create_product_dimension products_df = Ok product_dim
  ∧ create_customer_dimension customers_df = Ok customer_dim
  ∧ create_store_dimension stores_df = Ok store_dim.

(* ===================================================================== *)
(** ** Sample tables                                                      *)
(* ===================================================================== *)

(** Three products with the natural ids P1, P2, P3 (and one column the
    dimension does not keep). *)
Definition sample_products : DataFrame :=
  mkDF 3
    [ ("product_id", [VStr "P1"; VStr "P2"; VStr "P3"]);
      ("product_name", [VStr "Kettle"; VStr "Heater"; VStr "Fan"]);
      ("category", [VStr "KITCHEN"; VStr "CLIMATE"; VStr "CLIMATE"]);
      ("subcategory", [VStr "Boilers"; VStr "Radiators"; VStr "Desk fans"]);
      ("energy_rating", [VStr "A"; VStr "B"; VStr "A+"]);
      ("price", [VFloat 4999 (-2); VFloat 1295 (-1); VFloat 35 0]);
      ("manufacturing_cost", [VFloat 20 0; VFloat 805 (-1); VFloat 1575 (-2)]);
      ("warranty_years", [VInt 2; VInt 3; VInt 1]);
      ("weight_kg", [VFloat 12 (-1); VFloat 64 (-1); VFloat 21 (-1)]);
      ("stock_quantity", [VInt 40; VInt 12; VInt 7]);
      ("profit_margin", [VFloat 5999 (-2); VFloat 3784 (-2); VFloat 55 0]);
      ("launch_date", [VStr "2022-02-01"; VStr "2022-05-20"; VStr "2022-11-03"]) ].

(** The same table after an upstream slip repeated P1 in a third row. *)
Definition sample_products_repeated : DataFrame :=
  mkDF 3
    [ ("product_id", [VStr "P1"; VStr "P2"; VStr "P1"]);
      ("product_name", [VStr "Kettle"; VStr "Heater"; VStr "Kettle"]);
      ("category", [VStr "KITCHEN"; VStr "CLIMATE"; VStr "KITCHEN"]);
      ("subcategory", [VStr "Boilers"; VStr "Radiators"; VStr "Boilers"]);
      ("energy_rating", [VStr "A"; VStr "B"; VStr "A"]);
      ("price", [VFloat 4999 (-2); VFloat 1295 (-1); VFloat 4999 (-2)]);
      ("manufacturing_cost", [VFloat 20 0; VFloat 805 (-1); VFloat 20 0]);
      ("warranty_years", [VInt 2; VInt 3; VInt 2]);
      ("weight_kg", [VFloat 12 (-1); VFloat 64 (-1); VFloat 12 (-1)]);
      ("profit_margin", [VFloat 5999 (-2); VFloat 3784 (-2); VFloat 5999 (-2)]);
      ("launch_date", [VStr "2022-02-01"; VStr "2022-05-20"; VStr "2022-02-01"]) ].

Definition sample_customers : DataFrame :=
  mkDF 2
    [ ("customer_id", [VStr "C1"; VStr "C2"]);
      ("customer_name", [VStr "Ada"; VStr "Grace"]);
      ("country", [VStr "FRANCE"; VStr "SPAIN"]);
      ("segment", [VStr "Consumer"; VStr "Corporate"]);
      ("acquisition_date", [VStr "2022-01-10"; VStr "2023-06-30"]);
      ("lifetime_value", [VFloat 12005 (-1); VFloat 880 0]);
      ("acquisition_year", [VInt 2022; VInt 2023]);
      ("acquisition_month", [VInt 1; VInt 6]) ].

Definition sample_stores : DataFrame :=
  mkDF 2
    [ ("store_id", [VStr "S1"; VStr "S2"]);
      ("store_name", [VStr "Centre"; VStr "Harbour"]);
      ("country", [VStr "FRANCE"; VStr "SPAIN"]);
      ("store_type", [VStr "Retail"; VStr "Outlet"]);
      ("opening_date", [VStr "2021-04-01"; VStr "2022-09-15"]);
      ("size_sqm", [VInt 450; VInt 1200]);
      ("opening_year", [VInt 2021; VInt 2022]) ].

(** Three sales rows: one for P2; one for P9, which is no product; one
    dated 2024-01-01, the day after the date dimension ends (the sample
    generator draws transaction dates up to 730 days after 2022-01-01). *)
Definition sample_sales : DataFrame :=
  mkDF 3
    [ ("transaction_id", [VStr "T1"; VStr "T2"; VStr "T3"]);
      ("product_id", [VStr "P2"; VStr "P9"; VStr "P1"]);
      ("customer_id", [VStr "C1"; VStr "C1"; VStr "C2"]);
      ("store_id", [VStr "S1"; VStr "S2"; VStr "S1"]);
      ("transaction_date", [VStr "2022-03-15"; VStr "2023-12-31"; VStr "2024-01-01"]);
      ("quantity", [VInt 1; VInt 2; VInt 1]);
      ("unit_price", [VFloat 1295 (-1); VFloat 10 0; VFloat 4999 (-2)]);
      ("discount", [VFloat 0 0; VFloat 1 (-1); VFloat 0 0]);
      ("final_price", [VFloat 1295 (-1); VFloat 9 0; VFloat 4999 (-2)]);
      ("total_amount", [VFloat 1295 (-1); VFloat 18 0; VFloat 4999 (-2)]);
      ("payment_method", [VStr "Card"; VStr "Cash"; VStr "Card"]);
      ("transaction_year", [VInt 2022; VInt 2023; VInt 2024]);
      ("transaction_month", [VInt 3; VInt 12; VInt 1]);
      ("transaction_day", [VInt 15; VInt 31; VInt 1]) ].

Definition sample_performance : DataFrame :=
  mkDF 2
    [ ("product_id", [VStr "P1"; VStr "P2"]);
      ("year_month", [VStr "2022-03"; VStr "2023-12"]);
      ("energy_consumption_kwh", [VFloat 1205 (-1); VFloat 88 0]);
      ("failure_rate", [VFloat 2 (-2); VFloat 1 (-2)]);
      ("customer_satisfaction", [VFloat 45 (-1); VFloat 39 (-1)]);
      ("return_rate", [VFloat 3 (-2); VFloat 5 (-2)]);
      ("warranty_claims", [VInt 0; VInt 2]);
      ("year", [VInt 2022; VInt 2023]);
      ("month", [VInt 3; VInt 12]) ].

(** What a build returned, or the empty frame. *)
Definition built (r : result DataFrame) : DataFrame :=
  match r with
  | Ok df => df
  | Raise _ => mkDF 0 []
  end.

Definition sample_product_dim : DataFrame := built (create_product_dimension sample_products).
Definition sample_product_dim_repeated : DataFrame :=
  built (create_product_dimension sample_products_repeated).
Definition sample_customer_dim : DataFrame := built (create_customer_dimension sample_customers).
Definition sample_store_dim : DataFrame := built (create_store_dimension sample_stores).
Definition sample_date_dim : DataFrame := built create_date_dimension.

Definition sample_sales_fact : DataFrame :=
  built (create_sales_fact sample_sales sample_product_dim sample_customer_dim
           sample_store_dim sample_date_dim).

Definition sample_performance_fact : DataFrame :=
  built (create_performance_fact sample_performance sample_product_dim sample_date_dim).

(** The files [main] reads and the files it writes. *)
Definition processed_files : list string :=
  (λ name, input_dir +:+ name) <$>
    ["/products_processed.csv"; "/customers_processed.csv"; "/stores_processed.csv";
     "/sales_processed.csv"; "/performance_processed.csv"].

Definition star_schema_files (dir : string) : list string :=
  (λ name, dir +:+ name) <$>
    ["/dim_date.csv"; "/dim_product.csv"; "/dim_customer.csv"; "/dim_store.csv";
     "/fact_sales.csv"; "/fact_performance.csv"].

(** Labels that a CSV header carries and gives back unchanged. *)
Definition plain_labels (cs : list string) : Prop :=
  cs ≠ [] ∧ NoDup cs ∧ "" ∉ cs.

(** Same number of rows, same column labels. *)
Definition same_shape (a b : DataFrame) : Prop :=
  df_len a = df_len b ∧ columns a = columns b.

(** A plain codec for the sample files: integers in decimal, texts as they
    are, an empty field for the missing value. *)
Definition sample_codec : CellCodec :=
  {| to_field := λ _ v,
       match v with
       | VInt z => str_int z
       | VFloat m e => str_int m +:+ "e" +:+ str_int e
       | VStr t => t
       | VBool b => if b then "True" else "False"
       | VTimestamp d => iso_date d
       | VNaN => ""
       end ;
     of_field := λ _ t,
       if decide (t = "") then VNaN
       else match py_int t with Some z => VInt z | None => VStr t end |}.

(** The five cleaned sample tables, saved where [main] reads them. *)
Definition sample_files : filesystem :=
  let codec := sample_codec in
  to_csv sample_products (input_dir +:+ "/products_processed.csv") false
    (to_csv sample_customers (input_dir +:+ "/customers_processed.csv") false
      (to_csv sample_stores (input_dir +:+ "/stores_processed.csv") false
        (to_csv sample_sales (input_dir +:+ "/sales_processed.csv") false
          (to_csv sample_performance (input_dir +:+ "/performance_processed.csv") false
             ∅)))).

(** The files a run left, or no file. *)
Definition files_after (r : result filesystem) : filesystem :=
  match r with
  | Ok fs => fs
  | Raise _ => ∅
  end.

(** The files after one run of [main] on the sample files. *)
Definition sample_run : filesystem := files_after (main (codec := sample_codec) sample_files).

(* ===================================================================== *)
(** ** More sample tables                                                 *)
(* ===================================================================== *)

(** The products before cleaning: [profit_margin], which the cleaner
    derives, is not there yet. *)
Definition sample_products_raw : DataFrame :=
  mkDF 3 (filter (λ c, c.1 ≠ "profit_margin") (df_cols sample_products)).

(** The sales after a transaction date that the cleaner could not read was
    coerced to the missing value. *)
Definition sample_sales_missing_date : DataFrame :=
  mkDF 3
    (replace_col "transaction_date" [VStr "2022-03-15"; VNaN; VStr "2024-01-01"]
       (df_cols sample_sales)).

(** Performance rows, one of them for P9, which is no product. *)
Definition sample_performance_unknown : DataFrame :=
  mkDF 2 (replace_col "product_id" [VStr "P1"; VStr "P9"] (df_cols sample_performance)).

(** The sample files with the cleaned stores table gone. *)
Definition sample_files_no_stores : filesystem :=
  delete (input_dir +:+ "/stores_processed.csv") sample_files.

(** [DATA_DIR] of the dashboard ([src/dashboard/app.py]). *)
Definition DATA_DIR : string := "src/models/star_schema".

(* ===================================================================== *)
(** ** Dashboard data ([src/dashboard/app.py])                            *)
(* ===================================================================== *)

(** The key cells of the joins below: integers and the missing value, as
    the key columns of the star schema hold them.  pandas compares the
    keys of an integer column and of a float column by their value, so a
    whole number in a float column (a key column with missing values is
    one) is written [VInt] here.  Joins on texts, on floats with a
    fraction or on timestamps are left out. *)
Definition join_key (v : value) : bool :=
  match v with
  | VInt _ | VNaN => true
  | _ => false
  end.

(** The rows of the right table whose key cell is [k], in row order.  A
    missing key matches a missing key: pandas joins NaN with NaN. *)
Definition matching_rows (k : value) (rkeys : Series) : list nat :=
  filter (λ j, rkeys !! j = Some k) (seq 0 (length rkeys)).

(** The row pairs of a left join: the left rows in their order, each with
    every matching right row in the order of the right table, or with no
    right row where nothing matches. *)
Definition left_join_rows (lkeys rkeys : Series) : list (nat * option nat) :=
  concat (imap (λ i k,
                  match matching_rows k rkeys with
                  | [] => [(i, None)]
                  | js => (λ j, (i, Some j)) <$> js
                  end) lkeys).

(** The cells of a column at the given rows; the missing value where there
    is no row. *)
Definition take_rows (s : Series) (rows : list (option nat)) : Series :=
  (λ r, default VNaN (r ≫= λ j, s !! j)) <$> rows.

(** The cells of a right column when every left row has one match at
    most: those of the first matching row. *)
Definition joined (lkeys rkeys s : Series) : Series :=
  take_rows s ((λ k, head (matching_rows k rkeys)) <$> lkeys).

(** The labels both tables carry, the key apart: these get a suffix. *)
Definition overlap (left right : list string) (on : string) : list string :=
  filter (λ c, c ∈ right ∧ c ≠ on) left.

Definition suffixed (ov : list string) (suffix c : string) : string :=
  if decide (c ∈ ov) then c +:+ suffix else c.

(** The labels of [left.merge(right, on=on)]. *)
Definition merge_labels (left right : list string) (on : string) : list string :=
  (suffixed (overlap left right on) "_x" <$> left)
  ++ (suffixed (overlap left right on) "_y" <$> filter (λ c, c ≠ on) right).

(** [left.merge(right, on=on, how='left')] on one key column: the key
    column of the result is the left one, the other right columns follow
    the left columns.  (Labels that repeat in the result, which pandas
    refuses or keeps depending on where they come from, are left out.) *)
Definition merge_left (left right : DataFrame) (on : string) : result DataFrame :=
  rkeys ← getitem right on ;
  lkeys ← getitem left on ;
  if forallb join_key (lkeys ++ rkeys) then
    let rows := left_join_rows lkeys rkeys in
    let ov := overlap (columns left) (columns right) on in
    let lcols :=
      (λ c, (suffixed ov "_x" c.1, take_rows c.2 (Some <$> rows.*1))) <$> df_cols left in
    let rcols :=
      (λ c, (suffixed ov "_y" c.1, take_rows c.2 rows.*2))
        <$> filter (λ c, c.1 ≠ on) (df_cols right) in
    if decide (NoDup (lcols ++ rcols).*1)
    then Ok (mkDF (length rows) (lcols ++ rcols))
    else Raise (OutOfModel "labels that repeat after the suffixes")
  else Raise (OutOfModel "a join on keys that are not integers").

(** [prepare_dashboard_data]: the facts joined with their dimensions. *)
Definition prepare_dashboard_data
    (dim_date dim_product dim_customer dim_store fact_sales fact_performance : DataFrame)
  : result (DataFrame * DataFrame) :=
  (* Join sales fact with dimensions *)
  sales_data ← merge_left fact_sales dim_date "date_key" ;
  sales_data ← merge_left sales_data dim_product "product_key" ;
  sales_data ← merge_left sales_data dim_customer "customer_key" ;
  sales_data ← merge_left sales_data dim_store "store_key" ;
  (* Join performance fact with dimensions *)
  performance_data ← merge_left fact_performance dim_date "date_key" ;
  performance_data ← merge_left performance_data dim_product "product_key" ;
  (* Convert date columns to datetime *)
  dates ← getitem sales_data "date" ;
  stamps ← to_datetime dates ;
  sales_data ← setitem sales_data "date" stamps ;
  dates ← getitem performance_data "date" ;
  stamps ← to_datetime dates ;
  performance_data ← setitem performance_data "date" stamps ;
  Ok (sales_data, performance_data).

(** [df[c]] for a label the frame carries. *)
Definition column (df : DataFrame) (c : string) : Series :=
  default [] (assoc c (df_cols df)).

(** Six tables as [prepare_dashboard_data] expects them: the labels of the
    star schema, integer keys (or the missing value) in the key columns,
    no key twice in a dimension, and days in the [date] column of the date
    dimension. *)
Definition star_schema_tables (dd pd cd sd sf pf : DataFrame) : Prop :=
  Forall wf_frame [dd; pd; cd; sd; sf; pf]
  ∧ columns dd = date_dim_columns
  ∧ columns pd = "product_key" :: product_attrs
  ∧ columns cd = "customer_key" :: customer_attrs
  ∧ columns sd = "store_key" :: store_attrs
  ∧ columns sf = "sales_key" :: sales_fact_columns
  ∧ columns pf = "performance_key" :: performance_fact_columns
  ∧ Forall (λ t : DataFrame * string, forallb join_key (column t.1 t.2) = true)
      [(dd, "date_key"); (pd, "product_key"); (cd, "customer_key"); (sd, "store_key");
       (sf, "date_key"); (sf, "product_key"); (sf, "customer_key"); (sf, "store_key");
       (pf, "date_key"); (pf, "product_key")]
  ∧ Forall (λ t : DataFrame * string, NoDup (column t.1 t.2))
      [(dd, "date_key"); (pd, "product_key"); (cd, "customer_key"); (sd, "store_key")]
  ∧ Forall (λ v, is_Some (cell_date v)) (column dd "date").

Global Instance star_schema_tables_dec dd pd cd sd sf pf :
  Decision (star_schema_tables dd pd cd sd sf pf).
Proof. unfold star_schema_tables. apply _. Defined.

(** The labels of the joined sales and performance tables. *)
Definition sales_data_columns : list string :=
  ["sales_key"; "transaction_id"; "date_key"; "product_key";
   "customer_key"; "store_key"; "quantity"; "unit_price"; "discount";
   "final_price"; "total_amount"; "payment_method"; "date_id"; "date";
   "day"; "month"; "quarter"; "year"; "day_of_week"; "day_name";
   "month_name"; "is_weekend"; "product_id"; "product_name"; "category";
   "subcategory"; "energy_rating"; "price"; "manufacturing_cost";
   "warranty_years"; "weight_kg"; "profit_margin"; "launch_date";
   "customer_id"; "customer_name"; "country_x"; "segment";
   "acquisition_date"; "lifetime_value"; "acquisition_year";
   "acquisition_month"; "store_id"; "store_name"; "country_y";
   "store_type"; "opening_date"; "size_sqm"; "opening_year"].

Definition performance_data_columns : list string :=
  ["performance_key"; "date_key"; "product_key";
   "energy_consumption_kwh"; "failure_rate"; "customer_satisfaction";
   "return_rate"; "warranty_claims"; "date_id"; "date"; "day"; "month";
   "quarter"; "year"; "day_of_week"; "day_name"; "month_name";
   "is_weekend"; "product_id"; "product_name"; "category";
   "subcategory"; "energy_rating"; "price"; "manufacturing_cost";
   "warranty_years"; "weight_kg"; "profit_margin"; "launch_date"].

(** The joins of the sales fact: the key, the dimension, and the suffix a
    label takes that an earlier join already brought ([country], which the
    customers and the stores both carry). *)
Definition dashboard_joins (dd pd cd sd : DataFrame) : list (string * DataFrame * string) :=
  [("date_key", dd, "_x"); ("product_key", pd, "_x");
   ("customer_key", cd, "_x"); ("store_key", sd, "_y")].

(** A product dimension in which the key 2 comes twice. *)
Definition sample_product_dim_twice : DataFrame :=
  mkDF 3 (replace_col "product_key" [VInt 1; VInt 2; VInt 2] (df_cols sample_product_dim)).

(** Settles a closed decidable statement by evaluating its decision. *)
Ltac decide_closed := apply (bool_decide_unpack _); vm_compute; exact I.

(* ===================================================================== *)
(** ** Facts about frames                                                 *)
(* ===================================================================== *)

Lemma py_range_dense (n : nat) : py_range 1 (Z.of_nat n + 1) = dense_keys n.
Proof.
  unfold py_range, dense_keys.
  replace (Z.to_nat (Z.of_nat n + 1 - 1)) with n by lia.
  rewrite <- (fmap_S_seq 0 n), <- list_fmap_compose.
  apply list_fmap_ext. intros _ i _. simpl. f_equal. lia.
Qed.

Lemma length_dense_keys (n : nat) : length (dense_keys n) = n.
Proof. unfold dense_keys. by rewrite length_fmap, length_seq. Qed.

Lemma dense_keys_lookup (n i : nat) :
  (i < n)%nat → dense_keys n !! i = Some (VInt (Z.of_nat i + 1)).
Proof.
  intros Hi. unfold dense_keys.
  rewrite list_lookup_fmap, lookup_seq_lt by done. simpl. do 2 f_equal. lia.
Qed.

Lemma assoc_elem_of (c : string) (cols : list (string * Series)) :
  c ∈ cols.*1 ↔ is_Some (assoc c cols).
Proof.
  induction cols as [|[c' s] cols IH]; simpl.
  - split; [by intros ?%elem_of_nil | by intros [? ?]].
  - rewrite elem_of_cons. destruct (decide (c' = c)) as [->|Hne].
    + split; eauto.
    + rewrite <- IH. split; [intros [?|?]; congruence || done | auto].
Qed.

Lemma assoc_app_l (c : string) (cols cols' : list (string * Series)) :
  c ∈ cols.*1 → assoc c (cols ++ cols') = assoc c cols.
Proof.
  induction cols as [|[c' s] cols IH]; simpl.
  - by intros ?%elem_of_nil.
  - intros Hin. destruct (decide (c' = c)); [done|].
    apply elem_of_cons in Hin as [?|?]; [congruence|auto].
Qed.

Lemma assoc_app_r (c : string) (cols cols' : list (string * Series)) :
  c ∉ cols.*1 → assoc c (cols ++ cols') = assoc c cols'.
Proof.
  induction cols as [|[c' s] cols IH]; simpl; [done|].
  intros Hnot. apply not_elem_of_cons in Hnot as [Hne Hnot].
  rewrite decide_False by congruence. auto.
Qed.

Lemma assoc_fmap_pair (c : string) (f : string → Series) (cs : list string) :
  c ∈ cs → assoc c ((λ c, (c, f c)) <$> cs) = Some (f c).
Proof.
  induction cs as [|c' cs IH]; simpl.
  - by intros ?%elem_of_nil.
  - intros Hin. destruct (decide (c' = c)) as [->|Hne]; [done|].
    apply IH. apply elem_of_cons in Hin as [?|?]; congruence || done.
Qed.

Lemma project_fst (df : DataFrame) (cs : list string) : (project df cs).*1 = cs.
Proof.
  unfold project. rewrite <- list_fmap_compose.
  induction cs as [|c cs IH]; [done|]. rewrite fmap_cons. by f_equal.
Qed.

Lemma replace_col_fresh (c : string) (s : Series) (cols : list (string * Series)) :
  c ∉ cols.*1 → replace_col c s cols = cols ++ [(c, s)].
Proof.
  induction cols as [|[c' s'] cols IH]; simpl; [done|].
  intros Hnot. apply not_elem_of_cons in Hnot as [Hne Hnot].
  rewrite decide_False by congruence. by rewrite IH.
Qed.

Lemma filter_ne_fresh (key : string) (cs : list string) :
  key ∉ cs → filter (λ col, col ≠ key) (cs ++ [key]) = cs.
Proof.
  intros Hnot. rewrite filter_app.
  rewrite (filter_cons_False _ key) by (intros H; by apply H).
  rewrite filter_nil, app_nil_r.
  induction cs as [|c cs IH]; [done|].
  apply not_elem_of_cons in Hnot as [Hne Hnot].
  rewrite filter_cons_True by congruence. by rewrite IH.
Qed.

Lemma traverse_getitem_present (df : DataFrame) (cs : list string) :
  cs ⊆ columns df →
  traverse (λ c, s ← getitem df c; Ok (c, s)) cs = Ok (project df cs).
Proof.
  induction cs as [|c cs IH]; intros Hsub; [done|].
  assert (c ∈ columns df) as [s Hs]%assoc_elem_of by (apply Hsub; left).
  cbn [traverse]. rewrite IH by set_solver.
  unfold getitem, project. rewrite Hs. cbn. by rewrite Hs.
Qed.

Lemma traverse_getitem_Ok (df : DataFrame) (cs : list string) cols :
  traverse (λ c, s ← getitem df c; Ok (c, s)) cs = Ok cols → cs ⊆ columns df.
Proof.
  revert cols. induction cs as [|c cs IH]; intros cols Ht; [set_solver|].
  cbn [traverse] in Ht. unfold getitem in Ht.
  destruct (assoc c (df_cols df)) as [s|] eqn:Hs; [|done].
  fold (getitem df) in Ht.
  destruct (traverse _ cs) as [cols'|e] eqn:Ht'; [|done].
  intros x [->|Hx]%elem_of_cons.
  - apply assoc_elem_of. by rewrite Hs.
  - by eapply IH.
Qed.

(** Selecting columns that are all there succeeds and yields them as they
    are in the frame. *)
Lemma getitem_list_present (df : DataFrame) (cs : list string) :
  cs ⊆ columns df →
  getitem_list df cs = Ok (mkDF (df_len df) (project df cs)).
Proof.
  intros Hsub. unfold getitem_list. by rewrite traverse_getitem_present.
Qed.

Lemma getitem_list_Ok_present (df dim : DataFrame) (cs : list string) :
  getitem_list df cs = Ok dim → cs ⊆ columns df.
Proof.
  unfold getitem_list. intros H.
  destruct (traverse _ cs) as [cols|e] eqn:Ht; [|done].
  by eapply traverse_getitem_Ok.
Qed.

(** What the shared shape computes: the key column [1..n] in front of the
    selected columns of the input. *)
Lemma with_surrogate_key_present (key : string) (attrs : list string) (df : DataFrame) :
  key ∉ attrs → attrs ⊆ columns df →
  with_surrogate_key key attrs df
  = Ok (mkDF (df_len df) ((key, dense_keys (df_len df)) :: project df attrs)).
Proof.
  intros Hkey Hsub. unfold with_surrogate_key.
  rewrite getitem_list_present by done. simpl.
  unfold setitem, len. simpl. rewrite py_range_dense, length_dense_keys.
  rewrite decide_True by done. simpl.
  rewrite replace_col_fresh by (by rewrite project_fst).
  unfold columns at 1. simpl. rewrite fmap_app, project_fst. simpl.
  rewrite filter_ne_fresh by done.
  set (cols := project df attrs ++ _).
  assert (project (mkDF (df_len df) cols) (key :: attrs)
          = (key, dense_keys (df_len df)) :: project df attrs) as Hproj.
  { unfold project at 1. rewrite fmap_cons. cbn [df_cols]. f_equal.
    - subst cols. rewrite assoc_app_r by (by rewrite project_fst).
      cbn. by rewrite decide_True.
    - apply list_fmap_ext. intros _ c Hc%list_elem_of_lookup_2. f_equal.
      subst cols. rewrite assoc_app_l by (by rewrite project_fst).
      unfold project.
      by rewrite (assoc_fmap_pair c (λ c, default [] (assoc c (df_cols df)))). }
  rewrite (getitem_list_present (mkDF _ cols)).
  - cbn [df_len]. by rewrite Hproj.
  - unfold columns. cbn [df_cols]. subst cols. rewrite fmap_app, project_fst.
    set_solver.
Qed.

Lemma with_surrogate_key_Ok_present (key : string) (attrs : list string) (df dim : DataFrame) :
  with_surrogate_key key attrs df = Ok dim → attrs ⊆ columns df.
Proof.
  unfold with_surrogate_key. intros H.
  destruct (getitem_list df attrs) as [d|e] eqn:Hg; [|done].
  by eapply getitem_list_Ok_present.
Qed.

Lemma entity_build_shape build key attrs :
  (build, key, attrs) ∈ entity_builds →
  build = with_surrogate_key key attrs ∧ (key ∉ attrs) ∧ NoDup (key :: attrs).
Proof.
  unfold entity_builds. rewrite !elem_of_cons, elem_of_nil.
  intros [H|[H|[H|[]]]]; injection H as -> -> ->;
    (split; [reflexivity|]); split; by apply (bool_decide_unpack _).
Qed.

Lemma getitem_length (df : DataFrame) (c : string) (s : Series) :
  wf_frame df → getitem df c = Ok s → length s = df_len df.
Proof.
  intros [Hall _]. unfold getitem.
  destruct (assoc c (df_cols df)) as [s'|] eqn:Hs; [|done].
  intros [= ->]. rewrite Forall_forall in Hall.
  induction (df_cols df) as [|[c' s'] cols IH]; [done|].
  cbn in Hs. destruct (decide (c' = c)).
  - injection Hs as ->. apply (Hall (c', s)). by left.
  - apply IH; [|done]. intros x Hx. apply Hall. by right.
Qed.

Lemma project_wf (df : DataFrame) (cs : list string) :
  wf_frame df → cs ⊆ columns df →
  Forall (λ c : string * Series, length c.2 = df_len df) (project df cs).
Proof.
  intros Hwf Hsub. unfold project. apply Forall_fmap, Forall_forall.
  intros c Hc. cbn.
  assert (c ∈ columns df) as [s Hs]%assoc_elem_of by auto.
  rewrite Hs. cbn. apply (getitem_length df c); [done|].
  unfold getitem. by rewrite Hs.
Qed.

(** The frame an entity dimension build assembles: the dense keys in front
    of the selected columns of its input. *)
Lemma keyed_project_facts (df : DataFrame) (key : string) (attrs : list string) :
  key ∉ attrs → NoDup (key :: attrs) → wf_frame df → attrs ⊆ columns df →
  let dim := mkDF (df_len df) ((key, dense_keys (df_len df)) :: project df attrs) in
  wf_frame dim
  ∧ columns dim = key :: attrs
  ∧ getitem dim key = Ok (dense_keys (df_len df))
  ∧ (∀ c, c ∈ attrs → getitem dim c = getitem df c).
Proof.
  intros Hkey Hnodup Hwf Hsub dim. subst dim.
  assert (columns (mkDF (df_len df) ((key, dense_keys (df_len df)) :: project df attrs))
          = key :: attrs) as Hcols.
  { unfold columns. cbn [df_cols]. by rewrite fmap_cons, project_fst. }
  split; [|split; [done|split]].
  - split; [|by rewrite Hcols]. cbn [df_len df_cols].
    constructor; [apply length_dense_keys | by apply project_wf].
  - unfold getitem. cbn. by rewrite decide_True.
  - intros c Hc. unfold getitem. cbn.
    rewrite decide_False by (intros ->; done).
    unfold project.
    rewrite (assoc_fmap_pair c (λ c, default [] (assoc c (df_cols df)))) by done.
    assert (c ∈ columns df) as [s Hs]%assoc_elem_of by auto.
    by rewrite Hs.
Qed.

(** C1.  Each entity dimension build (product, customer, store), run on a
    table of N rows that has the columns the build selects, returns a table
    of N rows whose first column is the surrogate key, holding exactly the
    dense sequence 1..N by row position, followed by the selected columns of
    the input, cell for cell in the input's row order. *)
Theorem entity_dimension_dense_keys build key attrs (df : DataFrame) :
  (build, key, attrs) ∈ entity_builds →
  wf_frame df →
  attrs ⊆ columns df →
  ∃ dim, build df = Ok dim
    ∧ wf_frame dim
    ∧ df_len dim = df_len df
    ∧ columns dim = key :: attrs
    ∧ getitem dim key = Ok ((λ i, VInt (Z.of_nat i)) <$> seq 1 (df_len df))
    ∧ (∀ i, (i < df_len df)%nat →
         ∃ keys, getitem dim key = Ok keys ∧ keys !! i = Some (VInt (Z.of_nat i + 1)))
    ∧ (∀ c, c ∈ attrs → getitem dim c = getitem df c).
Proof.
  intros (-> & Hkey & Hnodup)%entity_build_shape Hwf Hsub.
  destruct (keyed_project_facts df key attrs Hkey Hnodup Hwf Hsub)
    as (Hwfd & Hcols & Hk & Hattrs).
  eexists. split; [by apply with_surrogate_key_present|].
  do 3 (split; [done|]). split; [exact Hk|]. split; [|exact Hattrs].
  intros i Hi. eexists. split; [exact Hk|]. by apply dense_keys_lookup.
Qed.

Lemma entity_dimension_dense_keys_witness :
  ∃ dim, create_product_dimension sample_products = Ok dim
    ∧ wf_frame dim
    ∧ df_len dim = 3
    ∧ columns dim = "product_key" :: product_attrs
    ∧ getitem dim "product_key" = Ok [VInt 1; VInt 2; VInt 3]
    ∧ (∀ i, (i < 3)%nat →
         ∃ keys, getitem dim "product_key" = Ok keys
                 ∧ keys !! i = Some (VInt (Z.of_nat i + 1)))
    ∧ (∀ c, c ∈ product_attrs → getitem dim c = getitem sample_products c).
Proof.
  apply (entity_dimension_dense_keys create_product_dimension "product_key"
           product_attrs sample_products).
  - by left.
  - decide_closed.
  - decide_closed.
Defined.

(** A dimension that an entity build returned is well formed and carries
    the dense keys next to the natural ids of its input. *)
Lemma built_dimension (build : DataFrame → result DataFrame) key id attrs
    (df dim : DataFrame) :
  (build, key, id :: attrs) ∈ entity_builds →
  wf_frame df → build df = Ok dim →
  wf_frame dim ∧ df_len dim = df_len df
  ∧ getitem dim key = Ok (dense_keys (df_len df))
  ∧ getitem dim id = getitem df id
  ∧ id :: attrs ⊆ columns df.
Proof.
  intros (-> & Hkey & Hnodup)%entity_build_shape Hwf Hbuild.
  assert (id :: attrs ⊆ columns df) as Hsub
    by (by eapply with_surrogate_key_Ok_present).
  rewrite with_surrogate_key_present in Hbuild by done. injection Hbuild as <-.
  destruct (keyed_project_facts df key (id :: attrs) Hkey Hnodup Hwf Hsub)
    as (Hwfd & _ & Hk & Hattrs).
  do 3 (split; [done|]). split; [|done]. apply Hattrs. by left.
Qed.

(** C8.  No deduplication: when two different rows of the input carry the
    same natural key, both rows are in the dimension, at their positions,
    and their surrogate keys differ. *)
Theorem entity_dimension_keeps_duplicates build key id attrs (df : DataFrame)
    (ids : Series) (i j : nat) (k : value) :
  (build, key, id :: attrs) ∈ entity_builds →
  wf_frame df →
  id :: attrs ⊆ columns df →
  getitem df id = Ok ids →
  i ≠ j →
  ids !! i = Some k →
  ids !! j = Some k →
  ∃ dim keys ki kj, build df = Ok dim
    ∧ df_len dim = df_len df
    ∧ getitem dim id = Ok ids
    ∧ getitem dim key = Ok keys
    ∧ keys !! i = Some (VInt ki) ∧ keys !! j = Some (VInt kj)
    ∧ ki ≠ kj.
Proof.
  intros Hin Hwf Hsub Hids Hij Hi Hj.
  assert (∃ dim, build df = Ok dim) as [dim Hdim].
  { apply entity_build_shape in Hin as (-> & ? & _).
    eexists. by apply with_surrogate_key_present. }
  destruct (built_dimension build key id attrs df dim Hin Hwf Hdim)
    as (_ & Hlen & Hk & Hid & _).
  assert (length ids = df_len df) as Hl by (by eapply getitem_length).
  apply lookup_lt_Some in Hi as Hi'. apply lookup_lt_Some in Hj as Hj'.
  exists dim, (dense_keys (df_len df)), (Z.of_nat i + 1)%Z, (Z.of_nat j + 1)%Z.
  do 2 (split; [done|]). split; [by rewrite Hid|]. split; [done|].
  split; [apply dense_keys_lookup; lia|]. split; [apply dense_keys_lookup; lia|]. lia.
Qed.

Lemma entity_dimension_keeps_duplicates_witness :
  ∃ dim keys ki kj, create_product_dimension sample_products_repeated = Ok dim
    ∧ df_len dim = 3
    ∧ getitem dim "product_id" = Ok [VStr "P1"; VStr "P2"; VStr "P1"]
    ∧ getitem dim "product_key" = Ok keys
    ∧ keys !! 0 = Some (VInt ki) ∧ keys !! 2 = Some (VInt kj)
    ∧ ki ≠ kj.
Proof.
  apply (entity_dimension_keeps_duplicates create_product_dimension "product_key"
           "product_id" (tail product_attrs) sample_products_repeated
           [VStr "P1"; VStr "P2"; VStr "P1"] 0 2 (VStr "P1")).
  - by left.
  - decide_closed.
  - decide_closed.
  - reflexivity.
  - discriminate.
  - reflexivity.
  - reflexivity.
Defined.

(* ===================================================================== *)
(** ** Facts about texts and integers                                     *)
(* ===================================================================== *)

(** A property checked on every integer of a range holds on the range. *)
Lemma Z_range_check (P : Z → bool) (lo n : Z) :
  forallb P (seqZ lo n) = true → ∀ z, (lo ≤ z < lo + n)%Z → P z = true.
Proof.
  intros Hall z Hz. apply Is_true_true_2, forallb_True in Hall.
  rewrite Forall_forall in Hall. apply Is_true_true_1, Hall, elem_of_seqZ. lia.
Qed.

(** Settles [P z] for [lo <= z < lo + n] by running the check on the range. *)
Ltac check_on_range P lo n z :=
  let Hall := fresh "Hall" in
  let Hz := fresh "Hz" in
  assert (forallb P (seqZ lo n) = true) as Hall by (vm_compute; reflexivity);
  pose proof (Z_range_check P lo n Hall z ltac:(lia)) as Hz;
  cbv beta in Hz; apply bool_decide_eq_true_1 in Hz; exact Hz.

Lemma digit_val_char (d : Z) : (0 ≤ d ≤ 9)%Z → digit_val (digit_char d) = Some d.
Proof.
  intros Hd.
  check_on_range (λ d, bool_decide (digit_val (digit_char d) = Some d)) 0%Z 10%Z d.
Qed.

Lemma str_int_two_digits (n : Z) : (0 ≤ n ≤ 99)%Z → zfill 2 (str_int n) = str2 n.
Proof.
  intros Hn.
  check_on_range (λ n, bool_decide (zfill 2 (str_int n) = str2 n)) 0%Z 100%Z n.
Qed.

Lemma div_digit (a b : Z) : (0 < b)%Z → (0 ≤ a < b * 10)%Z → (0 ≤ a `div` b ≤ 9)%Z.
Proof.
  intros Hb Ha. split; [apply Z.div_pos; lia|].
  apply Z.lt_succ_r, Z.div_lt_upper_bound; lia.
Qed.

Lemma mod_digit (a : Z) : (0 ≤ a `mod` 10 ≤ 9)%Z.
Proof. pose proof (Z.mod_pos_bound a 10). lia. Qed.

(** Any two amounts of fuel that cover the binary length of [n] give the
    same digits. *)
Lemma digits_fuel_agree (f1 f2 : nat) (n : Z) (tail : string) :
  (0 ≤ n < 2 ^ Z.of_nat (S f1))%Z → (n < 2 ^ Z.of_nat (S f2))%Z →
  digits_fuel (S f1) n tail = digits_fuel (S f2) n tail.
Proof.
  revert f2 n tail. induction f1 as [|f1 IH]; intros f2 n tail H1 H2.
  - cbn [digits_fuel]. replace (n <? 10)%Z with true; [done|].
    symmetry. apply Z.ltb_lt. change (2 ^ Z.of_nat 1)%Z with 2%Z in H1. lia.
  - cbn [digits_fuel]. destruct (n <? 10)%Z eqn:Hn; [done|]. apply Z.ltb_ge in Hn.
    destruct f2 as [|f2].
    { change (2 ^ Z.of_nat 1)%Z with 2%Z in H2. lia. }
    rewrite (Nat2Z.inj_succ (S f1)), Z.pow_succ_r in H1 by lia.
    rewrite (Nat2Z.inj_succ (S f2)), Z.pow_succ_r in H2 by lia.
    apply IH.
    + split; [apply Z.div_pos; lia|]. apply Z.div_lt_upper_bound; lia.
    + apply Z.div_lt_upper_bound; lia.
Qed.

(** The digits of [n]: its last digit behind the digits of [n / 10]. *)
Lemma digits_unfold (n : Z) (tail : string) :
  (0 ≤ n)%Z →
  digits_fuel (S (Z.to_nat (Z.log2 n))) n tail
  = if (n <? 10)%Z then String (digit_char n) tail
    else digits_fuel (S (Z.to_nat (Z.log2 (n `div` 10)))) (n `div` 10)
           (String (digit_char (n `mod` 10)) tail).
Proof.
  intros Hn. cbn [digits_fuel]. destruct (n <? 10)%Z eqn:Hlt.
  - apply Z.ltb_lt in Hlt. by rewrite Z.mod_small by lia.
  - apply Z.ltb_ge in Hlt.
    assert (0 < n `div` 10)%Z as Hq by (apply Z.div_str_pos; lia).
    pose proof (Z.log2_spec n ltac:(lia)) as [_ Hup].
    pose proof (Z.log2_spec (n `div` 10) Hq) as [_ Hup'].
    pose proof (Z.log2_nonneg (n `div` 10)) as Hnn'.
    assert (1 ≤ Z.log2 n)%Z as Hl.
    { change 1%Z with (Z.log2 2). apply Z.log2_le_mono. lia. }
    rewrite Z.pow_succ_r in Hup by lia.
    destruct (Z.to_nat (Z.log2 n)) as [|f] eqn:Hf; [lia|].
    apply digits_fuel_agree.
    + replace (Z.of_nat (S f)) with (Z.log2 n) by lia.
      split; [lia|]. apply Z.div_lt_upper_bound; lia.
    + rewrite Nat2Z.inj_succ, Z2Nat.id by lia. done.
Qed.

(** A text that starts with a digit is padded in front. *)
Lemma zfill_digit_first (width : nat) (c : ascii) (s : string) :
  is_Some (digit_val c) →
  zfill width (String c s) = zeros (width - String.length (String c s)) +:+ String c s.
Proof.
  intros [d Hd].
  destruct c as [[] [] [] [] [] [] [] []]; try discriminate Hd; reflexivity.
Qed.

Lemma str_int_four_digits (n : Z) :
  (1000 ≤ n ≤ 9999)%Z → str_int n = str4 n ∧ zfill 4 (str_int n) = str4 n.
Proof.
  intros Hn.
  assert (str_int n = str4 n) as ->.
  2:{ split; [done|]. unfold str4. rewrite zfill_digit_first; [done|].
      rewrite digit_val_char; [done | apply div_digit; lia]. }
  unfold str_int, str_nat. replace (n <? 0)%Z with false by (symmetry; apply Z.ltb_ge; lia).
  assert ((n `div` 10) `div` 10 = n `div` 100)%Z as H100
    by (rewrite Z.div_div by lia; reflexivity).
  assert ((n `div` 100) `div` 10 = n `div` 1000)%Z as H1000
    by (rewrite Z.div_div by lia; reflexivity).
  pose proof (div_digit n 1000 ltac:(lia) ltac:(lia)) as Hd.
  rewrite digits_unfold by lia.
  replace (n <? 10)%Z with false by (symmetry; apply Z.ltb_ge; lia).
  rewrite digits_unfold by (apply Z.div_pos; lia).
  replace (n `div` 10 <? 10)%Z with false
    by (symmetry; apply Z.ltb_ge, Z.div_le_lower_bound; lia).
  rewrite H100, digits_unfold by (apply Z.div_pos; lia).
  replace (n `div` 100 <? 10)%Z with false
    by (symmetry; apply Z.ltb_ge, Z.div_le_lower_bound; lia).
  rewrite H1000, digits_unfold by lia.
  replace (n `div` 1000 <? 10)%Z with true by (symmetry; apply Z.ltb_lt; lia).
  done.
Qed.

(** A text that starts with a digit has no sign to strip. *)
Lemma py_int_digit_first (c : ascii) (s : string) :
  is_Some (digit_val c) → py_int (String c s) = parse_digits 0 (String c s).
Proof.
  intros [d Hd].
  destruct c as [[] [] [] [] [] [] [] []]; try discriminate Hd; reflexivity.
Qed.

Lemma parse_digits_char (acc d : Z) (s : string) :
  (0 ≤ d ≤ 9)%Z →
  parse_digits acc (String (digit_char d) s) = parse_digits (acc * 10 + d) s.
Proof. intros Hd. cbn [parse_digits]. by rewrite digit_val_char. Qed.

(** The eight digits [YYYYMMDD] read back as the number they spell. *)
Lemma py_int_eight_digits (y m d : Z) :
  (1000 ≤ y ≤ 9999)%Z → (0 ≤ m ≤ 99)%Z → (0 ≤ d ≤ 99)%Z →
  py_int (str4 y +:+ str2 m +:+ str2 d) = Some (y * 10000 + m * 100 + d)%Z.
Proof.
  intros Hy Hm Hd. unfold str4, str2. cbv [append].
  rewrite py_int_digit_first by (rewrite digit_val_char; [done | apply div_digit; lia]).
  rewrite !parse_digits_char by (apply mod_digit || (apply div_digit; lia)).
  cbn [parse_digits]. f_equal.
  pose proof (Z.div_mod y 1000). pose proof (Z.mod_pos_bound y 1000).
  assert (y `div` 1000 = 1 ∨ 1 < y `div` 1000)%Z by (pose proof (div_digit y 1000); lia).
  Z.div_mod_to_equations. lia.
Qed.

Lemma int64_bounds : int64_min = (-9223372036854775808)%Z ∧ int64_max = 9223372036854775807%Z.
Proof. split; reflexivity. Qed.

Lemma valid_date_bounds (d : date) :
  valid_date d = true → (1 ≤ month d ≤ 12 ∧ 1 ≤ day d ≤ 31)%Z.
Proof.
  unfold valid_date. rewrite !andb_true_iff, !Z.leb_le.
  intros [[[? ?] ?] Hd]. split; [lia|]. split; [lia|].
  assert (days_in_month (year d) (month d) ≤ 31)%Z; [|lia].
  unfold days_in_month. destruct (is_leap (year d));
    repeat (match goal with |- context [match ?m with _ => _ end] => destruct m end; try lia).
Qed.

Lemma timestamp_bounds_year (d : date) :
  in_timestamp_bounds d = true → (1677 ≤ year d ≤ 2262)%Z.
Proof.
  unfold in_timestamp_bounds, date_leb, timestamp_min, timestamp_max. cbn [year month day].
  rewrite !andb_true_iff, !orb_true_iff, !andb_true_iff, !Z.ltb_lt, !Z.eqb_eq. lia.
Qed.

(** [strftime('%Y%m%d')] followed by [astype(int)] gives the join key. *)
Lemma strftime_astype_int (d : date) :
  valid_date d = true → in_timestamp_bounds d = true →
  astype_int_cell (VStr (strftime_Ymd d)) = Ok (VInt (date_key_of d)).
Proof.
  intros [Hm Hd]%valid_date_bounds Hy%timestamp_bounds_year.
  unfold astype_int_cell, strftime_Ymd.
  destruct (str_int_four_digits (year d)) as [_ ->]; [lia|].
  rewrite !str_int_two_digits by lia.
  rewrite py_int_eight_digits by lia.
  destruct int64_bounds as [-> ->]. fold (date_key_of d).
  assert (-9223372036854775808 ≤ date_key_of d ≤ 9223372036854775807)%Z as [H1 H2]
    by (unfold date_key_of; lia).
  apply Z.leb_le in H1, H2. by rewrite H1, H2.
Qed.

(* ===================================================================== *)
(** ** Facts about column-wise conversions                                *)
(* ===================================================================== *)

Lemma bind_Ok {A B} (r : result A) (k : A → result B) (b : B) :
  (r ≫= k) = Ok b → ∃ a, r = Ok a ∧ k a = Ok b.
Proof. destruct r as [a|e]; [eauto | done]. Qed.

Lemma traverse_Forall2 {A B} (f : A → result B) (xs : list A) (ys : list B) :
  traverse f xs = Ok ys ↔ Forall2 (λ x y, f x = Ok y) xs ys.
Proof.
  revert ys. induction xs as [|x xs IH]; intros ys; cbn [traverse].
  - split; [intros [= <-]; constructor | by intros ->%Forall2_nil_inv_l].
  - split.
    + intros (y & Hy & (ys' & Hys & [= <-])%bind_Ok)%bind_Ok.
      constructor; [done | by apply IH].
    + intros (y & ys' & Hy & Hys & ->)%Forall2_cons_inv_l.
      apply IH in Hys. by rewrite Hy, Hys.
Qed.

Lemma traverse_length {A B} (f : A → result B) (xs : list A) (ys : list B) :
  traverse f xs = Ok ys → length ys = length xs.
Proof. intros H%traverse_Forall2. symmetry. by eapply Forall2_length. Qed.

Lemma cell_date_Some (v : value) (d : date) :
  cell_date v = Some d →
  to_datetime_cell v = Ok (VTimestamp d)
  ∧ valid_date d = true ∧ in_timestamp_bounds d = true.
Proof.
  unfold cell_date. destruct (to_datetime_cell v) as [[| | | |d'|]|]; try done.
  destruct (valid_date d') eqn:Hv, (in_timestamp_bounds d') eqn:Hb; try done.
  by intros [= <-].
Qed.

(** The three conversions the sales fact applies to [transaction_date]. *)
Lemma to_datetime_dates (raw : Series) (dates : list date) :
  mapM cell_date raw = Some dates →
  to_datetime raw = Ok (VTimestamp <$> dates)
  ∧ dt_strftime_Ymd (VTimestamp <$> dates) = Ok ((λ d, VStr (strftime_Ymd d)) <$> dates)
  ∧ astype_int ((λ d, VStr (strftime_Ymd d)) <$> dates)
    = Ok ((λ d, VInt (date_key_of d)) <$> dates)
  ∧ length dates = length raw.
Proof.
  intros H%mapM_Some. repeat split.
  - apply traverse_Forall2, Forall2_fmap_r.
    eapply Forall2_impl; [exact H|]. by intros v d (? & _)%cell_date_Some.
  - unfold dt_strftime_Ymd.
    by apply traverse_Forall2, Forall2_fmap, Forall_Forall2_diag, Forall_forall.
  - unfold astype_int.
    apply traverse_Forall2, Forall2_fmap, Forall_Forall2_diag, Forall_forall.
    intros d Hd. cbn.
    apply (Forall2_Forall_r _ (λ d, ∃ v, cell_date v = Some d)) in H as Hall.
    + rewrite Forall_forall in Hall. destruct (Hall d Hd) as (v & (_ & ? & ?)%cell_date_Some).
      by apply strftime_astype_int.
    + apply Forall_forall. eauto.
  - symmetry. by eapply Forall2_length.
Qed.

(* ===================================================================== *)
(** ** Facts about assignments to columns                                 *)
(* ===================================================================== *)

Lemma assoc_replace_eq (c : string) (s : Series) (cols : list (string * Series)) :
  assoc c (replace_col c s cols) = Some s.
Proof.
  induction cols as [|[c' s'] cols IH]; cbn.
  - by rewrite decide_True.
  - destruct (decide (c' = c)) as [->|Hne]; cbn.
    + by rewrite decide_True.
    + by rewrite decide_False.
Qed.

Lemma assoc_replace_ne (c c' : string) (s : Series) (cols : list (string * Series)) :
  c ≠ c' → assoc c' (replace_col c s cols) = assoc c' cols.
Proof.
  intros Hne. induction cols as [|[c0 s0] cols IH]; cbn.
  - by rewrite decide_False.
  - destruct (decide (c0 = c)) as [->|Hne0]; cbn.
    + by rewrite !decide_False.
    + destruct (decide (c0 = c')); [done | exact IH].
Qed.

Lemma replace_col_labels (c x : string) (s : Series) (cols : list (string * Series)) :
  x ∈ (replace_col c s cols).*1 ↔ x = c ∨ x ∈ cols.*1.
Proof.
  induction cols as [|[c' s'] cols IH]; cbn.
  - set_solver.
  - destruct (decide (c' = c)) as [->|Hne]; cbn; set_solver.
Qed.

Lemma setitem_Ok (df : DataFrame) (c : string) (s : Series) :
  length s = df_len df →
  setitem df c s = Ok (mkDF (df_len df) (replace_col c s (df_cols df))).
Proof. intros Hl. unfold setitem. by rewrite decide_True. Qed.

Lemma replace_col_NoDup (c : string) (s : Series) (cols : list (string * Series)) :
  NoDup cols.*1 → NoDup (replace_col c s cols).*1.
Proof.
  induction cols as [|[c' s'] cols IH]; cbn.
  - intros _. apply NoDup_singleton.
  - intros [Hnot Hnd]%NoDup_cons. destruct (decide (c' = c)) as [->|Hne]; cbn.
    + by apply NoDup_cons.
    + apply NoDup_cons. split; [|auto].
      rewrite replace_col_labels. naive_solver.
Qed.

Lemma setitem_wf (df df' : DataFrame) (c : string) (s : Series) :
  wf_frame df → setitem df c s = Ok df' → wf_frame df'.
Proof.
  intros [Hall Hnd]. unfold setitem. case_decide as Hl; [|done]. intros [= <-].
  split; cbn; [|by apply replace_col_NoDup].
  clear Hnd. induction (df_cols df) as [|[c' s'] cols IH]; cbn.
  - by repeat constructor.
  - apply Forall_cons in Hall as [Hc Hall]. destruct (decide (c' = c)).
    + by constructor.
    + constructor; auto.
Qed.

Lemma frame_eta (df : DataFrame) : mkDF (df_len df) (df_cols df) = df.
Proof. by destruct df. Qed.

Lemma replace_col_wf (n : nat) (c : string) (s : Series) (cols : list (string * Series)) :
  wf_frame (mkDF n cols) → length s = n → wf_frame (mkDF n (replace_col c s cols)).
Proof.
  intros Hwf Hl. apply (setitem_wf (mkDF n cols) _ c s Hwf). by apply setitem_Ok.
Qed.

(* ===================================================================== *)
(** ** Facts about [dict(zip(...))] and [map]                             *)
(* ===================================================================== *)

Lemma foldl_insert_other (k : value) (l : list (value * value)) (m : gmap value value) :
  k ∉ l.*1 → foldl (λ m kv, <[kv.1 := kv.2]> m) m l !! k = m !! k.
Proof.
  revert m. induction l as [|[k' v'] l IH]; intros m Hk; [done|].
  cbn in *. apply not_elem_of_cons in Hk as [Hne Hk].
  rewrite IH by done. by rewrite lookup_insert_ne.
Qed.

(** A key that is not among the zipped keys is not in the dict. *)
Lemma dict_zip_lookup_None (ks vs : Series) (k : value) :
  k ∉ ks → dict_zip ks vs !! k = None.
Proof.
  intros Hk. unfold dict_zip. rewrite foldl_insert_other; [done|].
  intros ((k' & v') & -> & Hin)%list_elem_of_fmap.
  apply Hk. apply list_elem_of_lookup in Hin as [i Hi].
  apply lookup_zip_with_Some in Hi as (? & ? & [= <- <-] & ? & ?).
  by eapply list_elem_of_lookup_2.
Qed.

(** The value of a key is the one zipped with its last occurrence. *)
Lemma dict_zip_lookup_last (ks vs : Series) (j : nat) (k v : value) :
  ks !! j = Some k → vs !! j = Some v →
  (∀ j', (j < j')%nat → ks !! j' ≠ Some k) →
  dict_zip ks vs !! k = Some v.
Proof.
  intros Hk Hv Hlast. unfold dict_zip.
  assert (zip ks vs !! j = Some (k, v)) as Hj.
  { apply lookup_zip_with_Some. eauto. }
  rewrite <- (take_drop_middle _ _ _ Hj), foldl_app. cbn.
  rewrite foldl_insert_other; [by rewrite lookup_insert_eq|].
  intros ((k' & v') & -> & Hin)%list_elem_of_fmap.
  apply list_elem_of_lookup in Hin as [i Hi]. rewrite lookup_drop in Hi.
  apply lookup_zip_with_Some in Hi as (? & ? & [= <- <-] & Hi & _).
  apply (Hlast (S j + i)%nat); [lia | done].
Qed.

Lemma series_map_lookup (s : Series) (d : gmap value value) (i : nat) (k : value) :
  s !! i = Some k → series_map s d !! i = Some (default VNaN (d !! k)).
Proof. intros Hi. unfold series_map. by rewrite list_lookup_fmap, Hi. Qed.

Lemma length_series_map (s : Series) (d : gmap value value) :
  length (series_map s d) = length s.
Proof. unfold series_map. by rewrite length_fmap. Qed.

(* ===================================================================== *)
(** ** The sales fact                                                     *)
(* ===================================================================== *)

Lemma bind_Ok_l {A B} (a : A) (k : A → result B) : (Ok a ≫= k) = k a.
Proof. reflexivity. Qed.

Lemma getitem_assoc (df : DataFrame) (c : string) (s : Series) :
  getitem df c = Ok s ↔ assoc c (df_cols df) = Some s.
Proof.
  unfold getitem. destruct (assoc c (df_cols df)); split; intros [=]; by subst.
Qed.

Lemma getitem_present (df : DataFrame) (c : string) :
  c ∈ columns df → ∃ s, getitem df c = Ok s.
Proof. intros [s Hs]%assoc_elem_of. exists s. by apply getitem_assoc. Qed.

(** A selected column of a keyed frame is the column it was selected from. *)
Lemma getitem_keyed_project (df : DataFrame) (n : nat) (key c : string) (ks s : Series)
    (cs : list string) :
  c ∈ cs → c ≠ key → assoc c (df_cols df) = Some s →
  getitem (mkDF n ((key, ks) :: project df cs)) c = Ok s.
Proof.
  intros Hc Hne Hs. apply getitem_assoc. cbn. rewrite decide_False by done.
  unfold project.
  rewrite (assoc_fmap_pair c (λ c, default [] (assoc c (df_cols df)))) by done.
  by rewrite Hs.
Qed.

(** Rewrite the next step of a build, once its outcome is known. *)
Ltac step_with H := rewrite H, bind_Ok_l; cbv beta.
Ltac step_setitem :=
  rewrite setitem_Ok by (cbn [df_len]; rewrite ?length_fmap, ?length_series_map; lia);
  rewrite bind_Ok_l; cbv beta; cbn [df_len df_cols].
Ltac step_getitem s H :=
  lazymatch goal with
  | |- (getitem ?df ?c ≫= _) = _ =>
      let Hg := fresh "Hg" in
      assert (getitem df c = Ok s) as Hg
        by (apply getitem_assoc; cbn [df_cols];
            repeat (rewrite assoc_replace_eq || rewrite assoc_replace_ne by done);
            first [done | exact H]);
      rewrite Hg, bind_Ok_l; clear Hg; cbv beta
  end.

Lemma sales_measures_fact : sales_measures ⊆ sales_fact_columns.
Proof. decide_closed. Qed.

Lemma sales_measures_inputs : sales_measures ⊆ sales_inputs.
Proof. decide_closed. Qed.

(** What [create_sales_fact] returns on inputs that have all it reads. *)
Lemma create_sales_fact_spec (sales pd cd sd dd : DataFrame) (dates : list date) :
  sales_ready sales pd cd sd →
  sales_dates sales = Some dates →
  ∃ fact, create_sales_fact sales pd cd sd dd = Ok fact
    ∧ wf_frame fact
    ∧ df_len fact = df_len sales
    ∧ columns fact = "sales_key" :: sales_fact_columns
    ∧ getitem fact "sales_key" = Ok (dense_keys (df_len sales))
    ∧ getitem fact "date_key" = Ok ((λ d, VInt (date_key_of d)) <$> dates)
    ∧ (∀ id key dim, (id, key, dim) ∈ foreign_keys pd cd sd →
         ∃ sids ids keys,
           getitem sales id = Ok sids ∧ getitem dim id = Ok ids
           ∧ getitem dim key = Ok keys
           ∧ getitem fact key = Ok (series_map sids (dict_zip ids keys)))
    ∧ (∀ c, c ∈ sales_measures → getitem fact c = getitem sales c).
Proof.
  intros (Hwf & Hsub & _ & Hdims) Hdates.
  (* the columns read from the inputs *)
  unfold sales_dates in Hdates.
  destruct (getitem sales "transaction_date") as [raw|] eqn:Hraw; [|done].
  destruct (to_datetime_dates raw dates Hdates) as (Hstamps & Htexts & Hkeys & Hlen).
  pose proof (getitem_length _ _ _ Hwf Hraw) as Hrawlen.
  destruct (getitem_present sales "product_id") as [spid Hspid]; [apply Hsub; decide_closed|].
  destruct (getitem_present sales "customer_id") as [scid Hscid]; [apply Hsub; decide_closed|].
  destruct (getitem_present sales "store_id") as [ssid Hssid]; [apply Hsub; decide_closed|].
  pose proof (getitem_length _ _ _ Hwf Hspid) as Hspidlen.
  pose proof (getitem_length _ _ _ Hwf Hscid) as Hscidlen.
  pose proof (getitem_length _ _ _ Hwf Hssid) as Hssidlen.
  unfold foreign_keys in Hdims. rewrite !Forall_cons in Hdims. cbn in Hdims.
  destruct Hdims as (Hp & Hc & Hs & _).
  destruct (getitem_present pd "product_id") as [pid Hpid]; [apply Hp; decide_closed|].
  destruct (getitem_present pd "product_key") as [pkey Hpkey]; [apply Hp; decide_closed|].
  destruct (getitem_present cd "customer_id") as [cid Hcid]; [apply Hc; decide_closed|].
  destruct (getitem_present cd "customer_key") as [ckey Hckey]; [apply Hc; decide_closed|].
  destruct (getitem_present sd "store_id") as [sid Hsid]; [apply Hs; decide_closed|].
  destruct (getitem_present sd "store_key") as [skey Hskey]; [apply Hs; decide_closed|].
  apply getitem_assoc in Hspid as Hspid', Hscid as Hscid', Hssid as Hssid'.
  set (cols5 :=
    replace_col "store_key" (series_map ssid (dict_zip sid skey))
      (replace_col "customer_key" (series_map scid (dict_zip cid ckey))
        (replace_col "product_key" (series_map spid (dict_zip pid pkey))
          (replace_col "date_key" ((λ d, VInt (date_key_of d)) <$> dates)
            (replace_col "transaction_date" (VTimestamp <$> dates) (df_cols sales)))))).
  set (df5 := mkDF (df_len sales) cols5).
  assert (wf_frame df5) as Hwf5.
  { subst df5 cols5.
    repeat (apply replace_col_wf;
            [| rewrite ?length_fmap, ?length_series_map; lia]).
    by rewrite frame_eta. }
  assert (∀ c, c ∈ sales_measures → assoc c cols5 = assoc c (df_cols sales)) as Hmeasure.
  { intros c Hc'. subst cols5.
    rewrite !assoc_replace_ne; [done|..]; intros <-; revert Hc'; decide_closed. }
  assert (sales_fact_columns ⊆ columns df5) as Hsub5.
  { intros c Hc'. unfold columns. subst df5 cols5. cbn [df_cols].
    rewrite !replace_col_labels.
    unfold sales_fact_columns in Hc'. rewrite !elem_of_cons, elem_of_nil in Hc'.
    destruct Hc' as [->|[->|[->|[->|[->|[->|[->|[->|[->|[->|[->|[]]]]]]]]]]]];
      first [ by auto 10 | do 5 right; apply Hsub; decide_closed ]. }
  eexists. split.
  { unfold create_sales_fact, copy.
    step_with Hraw. step_with Hstamps. step_setitem.
    step_getitem (VTimestamp <$> dates) I.
    step_with Htexts. step_with Hkeys. step_setitem.
    step_with Hpid. step_with Hpkey. step_with Hcid. step_with Hckey.
    step_with Hsid. step_with Hskey.
    step_getitem spid Hspid'. step_setitem.
    step_getitem scid Hscid'. step_setitem.
    step_getitem ssid Hssid'. step_setitem.
    fold cols5. fold df5.
    apply (with_surrogate_key_present "sales_key" sales_fact_columns df5);
      [decide_closed | exact Hsub5]. }
  assert (∀ c s, c ∈ sales_fact_columns → assoc c cols5 = Some s →
            getitem (mkDF (df_len df5)
                       (("sales_key", dense_keys (df_len df5)) :: project df5 sales_fact_columns)) c
            = Ok s) as Hget.
  { intros c s Hc' Has. apply getitem_keyed_project; [done| |done].
    intros ->. revert Hc'. decide_closed. }
  split; [|split; [|split; [|split; [|split; [|split]]]]].
  - split; cbn [df_len df_cols].
    + constructor; [apply length_dense_keys | by apply (project_wf df5)].
    + unfold columns. cbn [df_cols]. rewrite fmap_cons, project_fst. decide_closed.
  - done.
  - unfold columns. cbn [df_cols]. by rewrite fmap_cons, project_fst.
  - apply getitem_assoc. cbn. by rewrite decide_True.
  - apply Hget; [decide_closed|]. subst cols5.
    rewrite !assoc_replace_ne by done. apply assoc_replace_eq.
  - intros id key dim. unfold foreign_keys. rewrite !elem_of_cons, elem_of_nil.
    intros [[= -> -> ->]|[[= -> -> ->]|[[= -> -> ->]|[]]]].
    + exists spid, pid, pkey. repeat split; try done.
      apply Hget; [decide_closed|]. subst cols5.
      rewrite !assoc_replace_ne by done. apply assoc_replace_eq.
    + exists scid, cid, ckey. repeat split; try done.
      apply Hget; [decide_closed|]. subst cols5.
      rewrite !assoc_replace_ne by done. apply assoc_replace_eq.
    + exists ssid, sid, skey. repeat split; try done.
      apply Hget; [decide_closed|]. subst cols5. apply assoc_replace_eq.
  - intros c Hc'.
    destruct (getitem_present sales c) as [s Hs']; [by apply Hsub, sales_measures_inputs|].
    rewrite Hs'. apply Hget.
    + by apply sales_measures_fact.
    + rewrite Hmeasure by done. by apply getitem_assoc.
Qed.

(** The foreign key of a sales row is what the dict of its dimension holds
    for the row's natural key, NaN when it holds nothing. *)
Lemma sales_fact_lookup (sales pd cd sd dd : DataFrame) id key dim
    (sids ids keys : Series) (i : nat) (k : value) :
  sales_ready sales pd cd sd →
  (id, key, dim) ∈ foreign_keys pd cd sd →
  getitem sales id = Ok sids → sids !! i = Some k →
  getitem dim id = Ok ids → getitem dim key = Ok keys →
  ∃ fact fkeys, create_sales_fact sales pd cd sd dd = Ok fact
    ∧ wf_frame fact
    ∧ df_len fact = df_len sales
    ∧ getitem fact "transaction_id" = getitem sales "transaction_id"
    ∧ getitem fact key = Ok fkeys
    ∧ fkeys !! i = Some (default VNaN (dict_zip ids keys !! k)).
Proof.
  intros Hready Hfk Hsids Hi Hids Hkeys.
  pose proof Hready as (_ & _ & [dates Hdates] & _).
  destruct (create_sales_fact_spec sales pd cd sd dd dates Hready Hdates)
    as (fact & Hfact & Hwf & Hlen & _ & _ & _ & Hfks & Hmeasures).
  destruct (Hfks id key dim Hfk) as (sids' & ids' & keys' & Hs' & Hi' & Hk' & Hget).
  assert (sids' = sids) as -> by congruence.
  assert (ids' = ids) as -> by congruence.
  assert (keys' = keys) as -> by congruence.
  exists fact, (series_map sids (dict_zip ids keys)).
  do 3 (split; [done|]). split; [apply Hmeasures; decide_closed|].
  split; [done|]. by apply series_map_lookup.
Qed.

(** The dimensions of one build, seen from the lookups of the sales fact. *)
Lemma foreign_key_built (products customers stores pd cd sd : DataFrame) id key dim :
  dimensions_built products customers stores pd cd sd →
  (id, key, dim) ∈ foreign_keys pd cd sd →
  ∃ ids, wf_frame dim ∧ getitem dim id = Ok ids ∧ length ids = df_len dim
    ∧ getitem dim key = Ok (dense_keys (df_len dim)).
Proof.
  intros (Hwp & Hwc & Hws & Hp & Hc & Hs).
  unfold foreign_keys. rewrite !elem_of_cons, elem_of_nil.
  intros [[= -> -> ->]|[[= -> -> ->]|[[= -> -> ->]|[]]]].
  - destruct (built_dimension create_product_dimension "product_key" "product_id"
                (tail product_attrs) products pd) as (Hwf & Hlen & Hk & Hid & Hsub);
      [by left|done..|].
    destruct (getitem_present products "product_id") as [ids Hids]; [apply Hsub; by left|].
    exists ids. rewrite Hid, Hlen. do 2 (split; [done|]). split; [|done].
    by eapply getitem_length.
  - destruct (built_dimension create_customer_dimension "customer_key" "customer_id"
                (tail customer_attrs) customers cd) as (Hwf & Hlen & Hk & Hid & Hsub);
      [by right; left|done..|].
    destruct (getitem_present customers "customer_id") as [ids Hids]; [apply Hsub; by left|].
    exists ids. rewrite Hid, Hlen. do 2 (split; [done|]). split; [|done].
    by eapply getitem_length.
  - destruct (built_dimension create_store_dimension "store_key" "store_id"
                (tail store_attrs) stores sd) as (Hwf & Hlen & Hk & Hid & Hsub);
      [by do 2 right; left|done..|].
    destruct (getitem_present stores "store_id") as [ids Hids]; [apply Hsub; by left|].
    exists ids. rewrite Hid, Hlen. do 2 (split; [done|]). split; [|done].
    by eapply getitem_length.
Qed.

(* ===================================================================== *)
(** ** Natural keys and surrogate keys                                    *)
(* ===================================================================== *)

(** C2.  A sales row whose natural key (product, customer or store id) is
    in no row of the dimension still gives its fact row: the build returns
    a table with one row per sales row, in the same order, and the foreign
    key of that row is the missing value. *)
Theorem sales_fact_unmatched_key_is_null (sales pd cd sd dd : DataFrame) id key dim
    (sids ids : Series) (i : nat) (k : value) :
  sales_ready sales pd cd sd →
  (id, key, dim) ∈ foreign_keys pd cd sd →
  getitem sales id = Ok sids → sids !! i = Some k →
  getitem dim id = Ok ids → k ∉ ids →
  ∃ fact fkeys, create_sales_fact sales pd cd sd dd = Ok fact
    ∧ wf_frame fact
    ∧ df_len fact = df_len sales
    ∧ getitem fact "transaction_id" = getitem sales "transaction_id"
    ∧ getitem fact key = Ok fkeys
    ∧ fkeys !! i = Some VNaN.
Proof.
  intros Hready Hfk Hsids Hi Hids Hk.
  assert (∃ keys, getitem dim key = Ok keys) as [keys Hkeys].
  { destruct Hready as (_ & _ & _ & Hdims). rewrite Forall_forall in Hdims.
    apply getitem_present, (Hdims _ Hfk). cbn. by right; left. }
  destruct (sales_fact_lookup sales pd cd sd dd id key dim sids ids keys i k)
    as (fact & fkeys & ? & ? & ? & ? & ? & Hcell); try done.
  exists fact, fkeys. rewrite dict_zip_lookup_None in Hcell by done. done.
Qed.

Lemma sales_fact_unmatched_key_is_null_witness :
  ∃ fact fkeys,
    create_sales_fact sample_sales sample_product_dim sample_customer_dim
      sample_store_dim sample_date_dim = Ok fact
    ∧ wf_frame fact
    ∧ df_len fact = 3
    ∧ getitem fact "transaction_id" = Ok [VStr "T1"; VStr "T2"; VStr "T3"]
    ∧ getitem fact "product_key" = Ok fkeys
    ∧ fkeys !! 1 = Some VNaN.
Proof.
  apply (sales_fact_unmatched_key_is_null sample_sales sample_product_dim
           sample_customer_dim sample_store_dim sample_date_dim
           "product_id" "product_key" sample_product_dim
           [VStr "P2"; VStr "P9"; VStr "P1"] [VStr "P1"; VStr "P2"; VStr "P3"] 1 (VStr "P9")).
  - decide_closed.
  - by left.
  - reflexivity.
  - reflexivity.
  - reflexivity.
  - decide_closed.
Defined.

(* ===================================================================== *)
(** ** The performance fact                                               *)
(* ===================================================================== *)

Lemma mapM_year_cell (vs : Series) (ys : list Z) :
  mapM year_cell vs = Some ys →
  vs = VInt <$> ys ∧ Forall (λ y, 1000 ≤ y ≤ 9999)%Z ys.
Proof.
  intros H%mapM_Some. induction H as [|v y vs ys Hv _ [-> IH]]; [done|].
  destruct v as [z| | | | |]; try done. cbn in Hv.
  destruct ((1000 <=? z) && (z <=? 9999))%Z eqn:Hz; [|done]. injection Hv as ->.
  apply andb_true_iff in Hz as [?%Z.leb_le ?%Z.leb_le].
  split; [done|]. by constructor.
Qed.

Lemma mapM_month_cell (vs : Series) (ms : list Z) :
  mapM month_cell vs = Some ms →
  vs = VInt <$> ms ∧ Forall (λ m, 1 ≤ m ≤ 12)%Z ms.
Proof.
  intros H%mapM_Some. induction H as [|v m vs ms Hv _ [-> IH]]; [done|].
  destruct v as [z| | | | |]; try done. cbn in Hv.
  destruct ((1 <=? z) && (z <=? 12))%Z eqn:Hz; [|done]. injection Hv as ->.
  apply andb_true_iff in Hz as [?%Z.leb_le ?%Z.leb_le].
  split; [done|]. by constructor.
Qed.

(** Year, month padded to two digits and "01", read as one integer. *)
Lemma month_key_text (y m : Z) :
  (1000 ≤ y ≤ 9999)%Z → (1 ≤ m ≤ 12)%Z →
  astype_int_cell (VStr ((str_int y +:+ zfill 2 (str_int m)) +:+ "01"))
  = Ok (VInt (y * 10000 + m * 100 + 1)).
Proof.
  intros Hy Hm. unfold astype_int_cell.
  destruct (str_int_four_digits y Hy) as [-> _].
  rewrite str_int_two_digits by lia.
  assert ((str4 y +:+ str2 m) +:+ "01" = str4 y +:+ str2 m +:+ str2 1) as ->.
  { unfold str4, str2. by cbv [append]. }
  rewrite py_int_eight_digits by lia.
  destruct int64_bounds as [-> ->].
  assert (-9223372036854775808 ≤ y * 10000 + m * 100 + 1 ≤ 9223372036854775807)%Z
    as [H1 H2] by lia.
  apply Z.leb_le in H1, H2. by rewrite H1, H2.
Qed.

(** The conversions the performance fact applies to [year] and [month]. *)
Lemma month_keys (ys ms : list Z) :
  Forall (λ y, 1000 ≤ y ≤ 9999)%Z ys → Forall (λ m, 1 ≤ m ≤ 12)%Z ms →
  ∃ texts0 texts,
    astype_str (VInt <$> ys) = Ok ((λ y, VStr (str_int y)) <$> ys)
    ∧ astype_str (VInt <$> ms) = Ok ((λ m, VStr (str_int m)) <$> ms)
    ∧ series_add ((λ y, VStr (str_int y)) <$> ys)
        (str_zfill 2 ((λ m, VStr (str_int m)) <$> ms)) = Ok texts0
    ∧ series_add_str texts0 "01" = Ok texts
    ∧ astype_int texts
      = Ok ((λ p : Z * Z, VInt (p.1 * 10000 + p.2 * 100 + 1)) <$> zip ys ms).
Proof.
  intros Hys Hms.
  exists ((λ p : Z * Z, VStr (str_int p.1 +:+ zfill 2 (str_int p.2))) <$> zip ys ms),
         ((λ p : Z * Z, VStr ((str_int p.1 +:+ zfill 2 (str_int p.2)) +:+ "01")) <$> zip ys ms).
  split; [|split; [|split; [|split]]].
  - by apply traverse_Forall2, Forall2_fmap, Forall_Forall2_diag, Forall_forall.
  - by apply traverse_Forall2, Forall2_fmap, Forall_Forall2_diag, Forall_forall.
  - unfold series_add, str_zfill. rewrite <- list_fmap_compose.
    rewrite zip_with_fmap_l, zip_with_fmap_r.
    apply traverse_Forall2.
    rewrite <- (list_fmap_id (zip_with _ ys ms)), zip_with_zip, <- list_fmap_compose.
    apply Forall2_fmap, Forall_Forall2_diag, Forall_forall. by intros [y m] _.
  - by apply traverse_Forall2, Forall2_fmap, Forall_Forall2_diag, Forall_forall.
  - apply traverse_Forall2, Forall2_fmap, Forall_Forall2_diag, Forall_forall.
    intros [y m] Hin. cbn.
    apply list_elem_of_lookup in Hin as [i Hi].
    apply lookup_zip_with_Some in Hi as (y' & m' & [= <- <-] & Hy & Hm).
    rewrite Forall_forall in Hys, Hms.
    apply month_key_text; [apply Hys | apply Hms]; by eapply list_elem_of_lookup_2.
Qed.

Lemma performance_measures_fact : performance_measures ⊆ performance_fact_columns.
Proof. decide_closed. Qed.

Lemma performance_measures_inputs : performance_measures ⊆ performance_inputs.
Proof. decide_closed. Qed.

Lemma is_Ok_true {A} (r : result A) : is_Ok r = true → ∃ a, r = Ok a.
Proof. destruct r; [eauto | done]. Qed.

Lemma traverse_lookup {A B} (f : A → result B) (xs : list A) (ys : list B)
    (i : nat) (x : A) :
  traverse f xs = Ok ys → xs !! i = Some x → ∃ y, ys !! i = Some y ∧ f x = Ok y.
Proof.
  intros H%traverse_Forall2 Hi.
  exact (Forall2_lookup_l (λ x y, f x = Ok y) xs ys i x H Hi).
Qed.

(** On rows that are calendar months the conversions to a date key go
    through. *)
Lemma performance_months_keys (perf : DataFrame) (yms : list (Z * Z)) :
  performance_months perf = Some yms →
  performance_date_keys perf
  = Ok ((λ p : Z * Z, VInt (p.1 * 10000 + p.2 * 100 + 1)) <$> yms).
Proof.
  unfold performance_months, performance_date_keys. intros Hyms.
  destruct (getitem perf "year") as [years|] eqn:Hyears; [|done].
  destruct (getitem perf "month") as [months|] eqn:Hmonths; [|done].
  destruct (mapM year_cell years) as [ys|] eqn:Hys; [|done].
  destruct (mapM month_cell months) as [ms|] eqn:Hms; [|done].
  cbn in Hyms. injection Hyms as <-.
  apply mapM_year_cell in Hys as [-> Hys]. apply mapM_month_cell in Hms as [-> Hms].
  destruct (month_keys ys ms Hys Hms) as (texts0 & texts & Hsy & Hsm & Hadd & Hadd1 & Hint).
  rewrite bind_Ok_l. step_with Hsy. rewrite bind_Ok_l. step_with Hsm. cbv zeta.
  step_with Hadd. by step_with Hadd1.
Qed.

(** The date key of a row with a four-digit year and a month from 1 to 12,
    whatever the other rows hold. *)
Lemma performance_date_keys_row (perf : DataFrame) (keys years months : Series)
    (i : nat) (y m : Z) :
  performance_date_keys perf = Ok keys →
  getitem perf "year" = Ok years → getitem perf "month" = Ok months →
  years !! i = Some (VInt y) → months !! i = Some (VInt m) →
  (1000 ≤ y ≤ 9999)%Z → (1 ≤ m ≤ 12)%Z →
  keys !! i = Some (VInt (y * 10000 + m * 100 + 1)).
Proof.
  unfold performance_date_keys. intros Hkeys Hyears Hmonths Hy Hm Hyr Hmr.
  rewrite Hyears, bind_Ok_l in Hkeys.
  apply bind_Ok in Hkeys as (ys & Hys & Hkeys).
  rewrite Hmonths, bind_Ok_l in Hkeys.
  apply bind_Ok in Hkeys as (ms & Hms & Hkeys). cbv zeta in Hkeys.
  apply bind_Ok in Hkeys as (texts0 & Hadd & Hkeys).
  apply bind_Ok in Hkeys as (texts & Hadd1 & Hint).
  destruct (traverse_lookup _ _ _ i _ Hys Hy) as (ty & Hty & [= <-]).
  destruct (traverse_lookup _ _ _ i _ Hms Hm) as (tm & Htm & [= <-]).
  assert (zip ys (str_zfill 2 ms) !! i
          = Some (VStr (str_int y), VStr (zfill 2 (str_int m)))) as Hzip.
  { apply lookup_zip_with_Some. eexists _, _. split; [done|]. split; [done|].
    unfold str_zfill. by rewrite list_lookup_fmap, Htm. }
  destruct (traverse_lookup _ _ _ i _ Hadd Hzip) as (t0 & Ht0 & [= <-]).
  destruct (traverse_lookup _ _ _ i _ Hadd1 Ht0) as (t1 & Ht1 & [= <-]).
  destruct (traverse_lookup _ _ _ i _ Hint Ht1) as (k & Hk & Hcell).
  rewrite month_key_text in Hcell by done. by injection Hcell as <-.
Qed.

(** What [create_performance_fact] returns on inputs that have all it reads. *)
Lemma create_performance_fact_spec (perf pd dd : DataFrame) (dkeys : Series) :
  performance_ready perf pd →
  performance_date_keys perf = Ok dkeys →
  ∃ fact, create_performance_fact perf pd dd = Ok fact
    ∧ wf_frame fact
    ∧ df_len fact = df_len perf
    ∧ columns fact = "performance_key" :: performance_fact_columns
    ∧ getitem fact "performance_key" = Ok (dense_keys (df_len perf))
    ∧ getitem fact "date_key" = Ok dkeys
    ∧ (∃ pids ids keys,
         getitem perf "product_id" = Ok pids ∧ getitem pd "product_id" = Ok ids
         ∧ getitem pd "product_key" = Ok keys
         ∧ getitem fact "product_key" = Ok (series_map pids (dict_zip ids keys)))
    ∧ (∀ c, c ∈ performance_measures → getitem fact c = getitem perf c).
Proof.
  intros (Hwf & Hsub & _ & Hpd) Hdkeys.
  unfold performance_date_keys in Hdkeys.
  apply bind_Ok in Hdkeys as (years & Hyears & Hdkeys).
  apply bind_Ok in Hdkeys as (ys & Hsy & Hdkeys).
  apply bind_Ok in Hdkeys as (months & Hmonths & Hdkeys).
  apply bind_Ok in Hdkeys as (ms & Hsm & Hdkeys). cbv zeta in Hdkeys.
  apply bind_Ok in Hdkeys as (texts0 & Hadd & Hdkeys).
  apply bind_Ok in Hdkeys as (texts & Hadd1 & Hint).
  assert (length dkeys = df_len perf) as Hdlen.
  { rewrite (traverse_length _ _ _ Hint), (traverse_length _ _ _ Hadd1).
    unfold series_add in Hadd. rewrite (traverse_length _ _ _ Hadd), length_zip_with.
    unfold str_zfill. rewrite length_fmap.
    rewrite (traverse_length _ _ _ Hsy), (traverse_length _ _ _ Hsm).
    rewrite (getitem_length _ _ _ Hwf Hyears), (getitem_length _ _ _ Hwf Hmonths). lia. }
  destruct (getitem_present perf "product_id") as [pids Hpids]; [apply Hsub; decide_closed|].
  pose proof (getitem_length _ _ _ Hwf Hpids) as Hpidlen.
  destruct (getitem_present pd "product_id") as [ids Hids]; [apply Hpd; decide_closed|].
  destruct (getitem_present pd "product_key") as [keys Hkeys]; [apply Hpd; decide_closed|].
  apply getitem_assoc in Hpids as Hpids'.
  set (cols2 :=
    replace_col "product_key" (series_map pids (dict_zip ids keys))
      (replace_col "date_key" dkeys (df_cols perf))).
  set (df2 := mkDF (df_len perf) cols2).
  assert (wf_frame df2) as Hwf2.
  { subst df2 cols2.
    repeat (apply replace_col_wf; [| rewrite ?length_fmap, ?length_series_map; lia]).
    by rewrite frame_eta. }
  assert (∀ c, c ∈ performance_measures → assoc c cols2 = assoc c (df_cols perf))
    as Hmeasure.
  { intros c Hc'. subst cols2.
    rewrite !assoc_replace_ne; [done|..]; intros <-; revert Hc'; decide_closed. }
  assert (performance_fact_columns ⊆ columns df2) as Hsub2.
  { intros c Hc'. unfold columns. subst df2 cols2. cbn [df_cols].
    rewrite !replace_col_labels.
    unfold performance_fact_columns in Hc'. rewrite !elem_of_cons, elem_of_nil in Hc'.
    destruct Hc' as [->|[->|[->|[->|[->|[->|[->|[]]]]]]]];
      first [ by auto 10 | do 2 right; apply Hsub; decide_closed ]. }
  eexists. split.
  { unfold create_performance_fact, copy.
    step_with Hyears. step_with Hsy. step_with Hmonths. step_with Hsm. cbv zeta.
    step_with Hadd. step_with Hadd1. step_with Hint. step_setitem.
    step_with Hids. step_with Hkeys.
    step_getitem pids Hpids'. step_setitem.
    fold cols2. fold df2.
    apply (with_surrogate_key_present "performance_key" performance_fact_columns df2);
      [decide_closed | exact Hsub2]. }
  assert (∀ c s, c ∈ performance_fact_columns → assoc c cols2 = Some s →
            getitem (mkDF (df_len df2)
                       (("performance_key", dense_keys (df_len df2))
                        :: project df2 performance_fact_columns)) c
            = Ok s) as Hget.
  { intros c s Hc' Has. apply getitem_keyed_project; [done| |done].
    intros ->. revert Hc'. decide_closed. }
  split; [|split; [|split; [|split; [|split; [|split]]]]].
  - split; cbn [df_len df_cols].
    + constructor; [apply length_dense_keys | by apply (project_wf df2)].
    + unfold columns. cbn [df_cols]. rewrite fmap_cons, project_fst. decide_closed.
  - done.
  - unfold columns. cbn [df_cols]. by rewrite fmap_cons, project_fst.
  - apply getitem_assoc. cbn. by rewrite decide_True.
  - apply Hget; [decide_closed|]. subst cols2.
    rewrite !assoc_replace_ne by done. apply assoc_replace_eq.
  - exists pids, ids, keys. do 3 (split; [done|]).
    apply Hget; [decide_closed|]. subst cols2. apply assoc_replace_eq.
  - intros c Hc'.
    destruct (getitem_present perf c) as [s Hs'];
      [by apply Hsub, performance_measures_inputs|].
    rewrite Hs'. apply Hget.
    + by apply performance_measures_fact.
    + rewrite Hmeasure by done. by apply getitem_assoc.
Qed.

(** A build that returned went through the conversions to a date key. *)
Lemma create_performance_fact_Ok_keys (perf pd dd fact : DataFrame) :
  create_performance_fact perf pd dd = Ok fact →
  ∃ dkeys, performance_date_keys perf = Ok dkeys.
Proof.
  unfold create_performance_fact, copy, performance_date_keys. intros H.
  apply bind_Ok in H as (years & Hyears & H).
  apply bind_Ok in H as (ys & Hsy & H).
  apply bind_Ok in H as (months & Hmonths & H).
  apply bind_Ok in H as (ms & Hsm & H). cbv zeta in H.
  apply bind_Ok in H as (texts0 & Hadd & H).
  apply bind_Ok in H as (texts & Hadd1 & H).
  apply bind_Ok in H as (dkeys & Hint & _).
  exists dkeys. step_with Hyears. step_with Hsy. step_with Hmonths. step_with Hsm.
  cbv zeta. step_with Hadd. by step_with Hadd1.
Qed.

(** The product key of a performance row is what the product dict holds
    for the row's product id, NaN when it holds nothing. *)
Lemma performance_fact_lookup (perf pd dd : DataFrame) (pids ids keys : Series)
    (i : nat) (k : value) :
  performance_ready perf pd →
  getitem perf "product_id" = Ok pids → pids !! i = Some k →
  getitem pd "product_id" = Ok ids → getitem pd "product_key" = Ok keys →
  ∃ fact fkeys, create_performance_fact perf pd dd = Ok fact
    ∧ df_len fact = df_len perf
    ∧ getitem fact "product_key" = Ok fkeys
    ∧ fkeys !! i = Some (default VNaN (dict_zip ids keys !! k)).
Proof.
  intros Hready Hpids Hi Hids Hkeys.
  pose proof Hready as (_ & _ & [dkeys Hdkeys]%is_Ok_true & _).
  destruct (create_performance_fact_spec perf pd dd dkeys Hready Hdkeys)
    as (fact & Hfact & _ & Hlen & _ & _ & _ & (pids' & ids' & keys' & ? & ? & ? & Hget) & _).
  assert (pids' = pids) as -> by congruence.
  assert (ids' = ids) as -> by congruence.
  assert (keys' = keys) as -> by congruence.
  exists fact, (series_map pids (dict_zip ids keys)).
  do 3 (split; [done|]). by apply series_map_lookup.
Qed.

(** C5.  On a performance table that has the columns the build reads:
    when every row carries an integer four-digit year and an integer month
    from 1 to 12, the build returns; and whenever the build returns, each
    row with such a year [y] and month [m] has the date key
    [y*10000 + m*100 + 1], the first day of that month written YYYYMMDD. *)
Theorem performance_fact_date_key (perf pd dd : DataFrame) :
  wf_frame perf →
  performance_inputs ⊆ columns perf →
  ["product_id"; "product_key"] ⊆ columns pd →
  (is_Some (performance_months perf) →
     ∃ fact, create_performance_fact perf pd dd = Ok fact
             ∧ df_len fact = df_len perf)
  ∧ (∀ fact years months i y m,
       create_performance_fact perf pd dd = Ok fact →
       getitem perf "year" = Ok years → getitem perf "month" = Ok months →
       years !! i = Some (VInt y) → months !! i = Some (VInt m) →
       (1000 ≤ y ≤ 9999)%Z → (1 ≤ m ≤ 12)%Z →
       ∃ keys, getitem fact "date_key" = Ok keys
               ∧ keys !! i = Some (VInt (y * 10000 + m * 100 + 1))).
Proof.
  intros Hwf Hsub Hpd. split.
  - intros [yms Hyms]. apply performance_months_keys in Hyms.
    assert (performance_ready perf pd) as Hready.
    { do 2 (split; [done|]). split; [by rewrite Hyms | done]. }
    destruct (create_performance_fact_spec perf pd dd _ Hready Hyms)
      as (fact & Hfact & _ & Hlen & _).
    by exists fact.
  - intros fact years months i y m Hfact Hyears Hmonths Hy Hm Hyr Hmr.
    destruct (create_performance_fact_Ok_keys perf pd dd fact Hfact) as [dkeys Hdkeys].
    assert (performance_ready perf pd) as Hready.
    { do 2 (split; [done|]). split; [by rewrite Hdkeys | done]. }
    destruct (create_performance_fact_spec perf pd dd dkeys Hready Hdkeys)
      as (fact' & Hfact' & _ & _ & _ & _ & Hget & _).
    assert (fact' = fact) as -> by congruence.
    exists dkeys. split; [done|].
    by eapply performance_date_keys_row.
Qed.

Lemma performance_fact_date_key_witness :
  ∃ fact keys,
    create_performance_fact sample_performance sample_product_dim sample_date_dim = Ok fact
    ∧ df_len fact = 2
    ∧ getitem fact "date_key" = Ok keys
    ∧ keys !! 0 = Some (VInt 20220301).
Proof.
  destruct (performance_fact_date_key sample_performance sample_product_dim
              sample_date_dim) as [Hreturns Hrow];
    [decide_closed | decide_closed | decide_closed |].
  destruct Hreturns as (fact & Hfact & Hlen); [decide_closed|].
  destruct (Hrow fact [VInt 2022; VInt 2023] [VInt 3; VInt 12] 0 2022%Z 3%Z Hfact)
    as (keys & Hkeys & Hkey); [reflexivity| reflexivity | reflexivity | reflexivity | lia | lia |].
  exists fact, keys.
  split; [exact Hfact|]. split; [exact Hlen|]. split; [exact Hkeys | exact Hkey].
Defined.

(** C4.  With the dimensions built from the cleaned tables, a sales row
    whose natural key is in exactly one row of the dimension gets that row's
    surrogate key, which is the row's position counted from 1 (for the
    products P1, P2, P3 and a sale of P2: the key 2). *)
Theorem sales_fact_resolves_unique_key
    (products customers stores sales pd cd sd dd : DataFrame) id key dim
    (sids ids : Series) (i j : nat) (k : value) :
  dimensions_built products customers stores pd cd sd →
  sales_ready sales pd cd sd →
  (id, key, dim) ∈ foreign_keys pd cd sd →
  getitem sales id = Ok sids → sids !! i = Some k →
  getitem dim id = Ok ids → ids !! j = Some k →
  (∀ j', ids !! j' = Some k → j' = j) →
  ∃ fact fkeys dkeys, create_sales_fact sales pd cd sd dd = Ok fact
    ∧ getitem fact key = Ok fkeys
    ∧ getitem dim key = Ok dkeys
    ∧ dkeys !! j = Some (VInt (Z.of_nat j + 1))
    ∧ fkeys !! i = Some (VInt (Z.of_nat j + 1)).
Proof.
  intros Hbuilt Hready Hfk Hsids Hi Hids Hj Honce.
  destruct (foreign_key_built _ _ _ _ _ _ id key dim Hbuilt Hfk)
    as (ids' & Hwf & Hids' & Hlen & Hkeys).
  assert (ids' = ids) as -> by congruence.
  assert (dense_keys (df_len dim) !! j = Some (VInt (Z.of_nat j + 1))) as Hkj.
  { apply dense_keys_lookup. apply lookup_lt_Some in Hj. lia. }
  destruct (sales_fact_lookup sales pd cd sd dd id key dim sids ids
              (dense_keys (df_len dim)) i k)
    as (fact & fkeys & ? & _ & _ & _ & ? & Hcell); try done.
  exists fact, fkeys, (dense_keys (df_len dim)). do 4 (split; [done|]).
  rewrite Hcell, (dict_zip_lookup_last ids _ j k (VInt (Z.of_nat j + 1))); try done.
  intros j' Hlt Hj'. apply Honce in Hj'. lia.
Qed.

Lemma sales_fact_resolves_unique_key_witness :
  ∃ fact fkeys dkeys,
    create_sales_fact sample_sales sample_product_dim sample_customer_dim
      sample_store_dim sample_date_dim = Ok fact
    ∧ getitem fact "product_key" = Ok fkeys
    ∧ getitem sample_product_dim "product_key" = Ok dkeys
    ∧ dkeys !! 1 = Some (VInt 2)
    ∧ fkeys !! 0 = Some (VInt 2).
Proof.
  apply (sales_fact_resolves_unique_key sample_products sample_customers sample_stores
           sample_sales sample_product_dim sample_customer_dim sample_store_dim
           sample_date_dim "product_id" "product_key" sample_product_dim
           [VStr "P2"; VStr "P9"; VStr "P1"] [VStr "P1"; VStr "P2"; VStr "P3"]
           0 1 (VStr "P2")).
  - unfold dimensions_built. repeat split; decide_closed || reflexivity.
  - decide_closed.
  - by left.
  - reflexivity.
  - reflexivity.
  - reflexivity.
  - reflexivity.
  - intros [|[|[|j']]] H; [discriminate H | reflexivity | discriminate H |].
    by destruct j'.
Defined.

(** C10.  The dict from natural keys to surrogate keys is filled in
    dimension row order, so a natural key held by several dimension rows
    maps to the surrogate key of the last of them: every sales row (and,
    for products, every performance row) with that key gets the last row's
    key, larger than the key of any earlier row with the same natural key.
    Two surrogate keys then stand for one natural key. *)
Theorem natural_key_resolves_to_last_occurrence
    (products customers stores sales perf pd cd sd dd : DataFrame) id key dim
    (ids : Series) (j0 j : nat) (k : value) :
  dimensions_built products customers stores pd cd sd →
  sales_ready sales pd cd sd →
  performance_ready perf pd →
  (id, key, dim) ∈ foreign_keys pd cd sd →
  getitem dim id = Ok ids →
  ids !! j0 = Some k → ids !! j = Some k → (j0 < j)%nat →
  (∀ j', (j < j')%nat → ids !! j' ≠ Some k) →
  ∃ sfact pfact dkeys,
    create_sales_fact sales pd cd sd dd = Ok sfact
    ∧ create_performance_fact perf pd dd = Ok pfact
    ∧ getitem dim key = Ok dkeys
    ∧ dkeys !! j0 = Some (VInt (Z.of_nat j0 + 1))
    ∧ dkeys !! j = Some (VInt (Z.of_nat j + 1))
    ∧ dict_zip ids dkeys !! k = Some (VInt (Z.of_nat j + 1))
    ∧ (∀ sids i, getitem sales id = Ok sids → sids !! i = Some k →
         ∃ fkeys, getitem sfact key = Ok fkeys
                  ∧ fkeys !! i = Some (VInt (Z.of_nat j + 1)))
    ∧ (dim = pd → id = "product_id" →
       ∀ pids i, getitem perf "product_id" = Ok pids → pids !! i = Some k →
         ∃ fkeys, getitem pfact "product_key" = Ok fkeys
                  ∧ fkeys !! i = Some (VInt (Z.of_nat j + 1))).
Proof.
  intros Hbuilt Hsales Hperf Hfk Hids Hj0 Hj Hlt Hlast.
  destruct (foreign_key_built _ _ _ _ _ _ id key dim Hbuilt Hfk)
    as (ids' & Hwf & Hids' & Hlen & Hkeys).
  assert (ids' = ids) as -> by congruence.
  apply lookup_lt_Some in Hj0 as Hj0', Hj as Hj'.
  pose proof (dense_keys_lookup (df_len dim) j0 ltac:(lia)) as Hk0.
  pose proof (dense_keys_lookup (df_len dim) j ltac:(lia)) as Hkj.
  pose proof (dict_zip_lookup_last ids _ j k _ Hj Hkj Hlast) as Hdict.
  pose proof Hsales as (_ & _ & [dates Hdates] & _).
  destruct (create_sales_fact_spec sales pd cd sd dd dates Hsales Hdates)
    as (sfact & Hsfact & _).
  pose proof Hperf as (_ & _ & [pkeys Hpkeys]%is_Ok_true & _).
  destruct (create_performance_fact_spec perf pd dd pkeys Hperf Hpkeys)
    as (pfact & Hpfact & _).
  exists sfact, pfact, (dense_keys (df_len dim)). do 6 (split; [done|]). split.
  - intros sids i Hsids Hi.
    destruct (sales_fact_lookup sales pd cd sd dd id key dim sids ids
                (dense_keys (df_len dim)) i k)
      as (fact & fkeys & Hfact & _ & _ & _ & Hget & Hcell); try done.
    assert (fact = sfact) as -> by congruence.
    exists fkeys. split; [done|]. by rewrite Hcell, Hdict.
  - intros -> -> pids i Hpids Hi.
    assert (key = "product_key") as ->.
    { revert Hfk. unfold foreign_keys. rewrite !elem_of_cons, elem_of_nil.
      intros [[= -> ]|[[=]|[[=]|[]]]]; done. }
    destruct (performance_fact_lookup perf pd dd pids ids
                (dense_keys (df_len pd)) i k)
      as (fact & fkeys & Hfact & _ & Hget & Hcell); try done.
    assert (fact = pfact) as -> by congruence.
    exists fkeys. split; [done|]. by rewrite Hcell, Hdict.
Qed.

Lemma natural_key_resolves_to_last_occurrence_witness :
  ∃ sfact pfact dkeys,
    create_sales_fact sample_sales sample_product_dim_repeated sample_customer_dim
      sample_store_dim sample_date_dim = Ok sfact
    ∧ create_performance_fact sample_performance sample_product_dim_repeated
        sample_date_dim = Ok pfact
    ∧ getitem sample_product_dim_repeated "product_key" = Ok dkeys
    ∧ dkeys !! 0 = Some (VInt 1)
    ∧ dkeys !! 2 = Some (VInt 3)
    ∧ dict_zip [VStr "P1"; VStr "P2"; VStr "P1"] dkeys !! VStr "P1" = Some (VInt 3)
    ∧ (∀ sids i, getitem sample_sales "product_id" = Ok sids → sids !! i = Some (VStr "P1") →
         ∃ fkeys, getitem sfact "product_key" = Ok fkeys ∧ fkeys !! i = Some (VInt 3))
    ∧ (sample_product_dim_repeated = sample_product_dim_repeated →
       "product_id" = "product_id" →
       ∀ pids i, getitem sample_performance "product_id" = Ok pids →
         pids !! i = Some (VStr "P1") →
         ∃ fkeys, getitem pfact "product_key" = Ok fkeys ∧ fkeys !! i = Some (VInt 3)).
Proof.
  apply (natural_key_resolves_to_last_occurrence sample_products_repeated sample_customers
           sample_stores sample_sales sample_performance sample_product_dim_repeated
           sample_customer_dim sample_store_dim sample_date_dim
           "product_id" "product_key" sample_product_dim_repeated
           [VStr "P1"; VStr "P2"; VStr "P1"] 0 2 (VStr "P1")).
  - unfold dimensions_built. repeat split; decide_closed || reflexivity.
  - decide_closed.
  - decide_closed.
  - by left.
  - reflexivity.
  - reflexivity.
  - reflexivity.
  - lia.
  - intros j' Hlt. do 3 (destruct j' as [|j']; [lia|]). by destruct j'.
Defined.

(* ===================================================================== *)
(** ** The date dimension                                                 *)
(* ===================================================================== *)

(** The date dimension, column by column. *)
Lemma create_date_dimension_Ok :
  create_date_dimension = Ok sample_date_dim
  ∧ wf_frame sample_date_dim
  ∧ df_len sample_date_dim = length date_dim_days
  ∧ columns sample_date_dim = date_dim_columns
  ∧ getitem sample_date_dim "date_id" = Ok (dense_keys (length date_dim_days))
  ∧ getitem sample_date_dim "date" = Ok (VTimestamp <$> date_dim_days)
  ∧ getitem sample_date_dim "date_key"
    = Ok ((λ d, VInt (date_key_of d)) <$> date_dim_days).
Proof.
  split; [vm_compute; reflexivity|]. split; [decide_closed|].
  split; [vm_compute; reflexivity|]. split; [vm_compute; reflexivity|].
  split; [vm_compute; reflexivity|]. split; vm_compute; reflexivity.
Qed.

(** Every generated day is a calendar day of the range. *)
Lemma date_dim_days_sound (d : date) :
  d ∈ date_dim_days → valid_date d = true ∧ in_date_dim d = true.
Proof.
  assert (Forall (λ d, valid_date d = true ∧ in_date_dim d = true) date_dim_days) as Hall
    by decide_closed.
  rewrite Forall_forall in Hall. apply Hall.
Qed.

Lemma in_date_dim_year (d : date) :
  in_date_dim d = true → (2022 ≤ year d ≤ 2023)%Z.
Proof.
  unfold in_date_dim, date_leb. cbn [year month day].
  rewrite !andb_true_iff, !orb_true_iff, !andb_true_iff, !Z.ltb_lt, !Z.eqb_eq. lia.
Qed.

(** Every calendar day of the range is generated. *)
Lemma date_dim_days_complete (d : date) :
  valid_date d = true → in_date_dim d = true → d ∈ date_dim_days.
Proof.
  intros Hvalid Hin. pose proof (valid_date_bounds d Hvalid) as [Hm Hd].
  pose proof (in_date_dim_year d Hin) as Hy.
  set (check := λ y m dd : Z,
         implb (valid_date (mkDate y m dd)) (bool_decide (mkDate y m dd ∈ date_dim_days))).
  assert (forallb (λ y, forallb (λ m, forallb (check y m) (seqZ 1 31)) (seqZ 1 12))
            (seqZ 2022 2) = true) as Hall by (vm_compute; reflexivity).
  pose proof (Z_range_check _ _ _ Hall (year d) ltac:(lia)) as Hall1. cbv beta in Hall1.
  pose proof (Z_range_check _ _ _ Hall1 (month d) ltac:(lia)) as Hall2. cbv beta in Hall2.
  pose proof (Z_range_check _ _ _ Hall2 (day d) ltac:(lia)) as Hall3.
  subst check. cbv beta in Hall3. destruct d as [y m dd]. cbn [year month day] in Hall3.
  rewrite Hvalid in Hall3. by apply bool_decide_eq_true_1 in Hall3.
Qed.

(** The join key orders valid dates as the calendar does. *)
Lemma date_key_of_lt (a b : date) :
  valid_date a = true → valid_date b = true →
  (date_key_of a < date_key_of b)%Z ↔ date_ltb a b = true.
Proof.
  intros [? ?]%valid_date_bounds [? ?]%valid_date_bounds.
  unfold date_ltb, date_leb, date_key_of.
  rewrite negb_true_iff, <- not_true_iff_false.
  rewrite !orb_true_iff, !andb_true_iff, !orb_true_iff, !andb_true_iff.
  rewrite !Z.ltb_lt, !Z.eqb_eq, !Z.leb_le. lia.
Qed.

Lemma date_key_of_inj (a b : date) :
  valid_date a = true → valid_date b = true →
  date_key_of a = date_key_of b → a = b.
Proof.
  intros [? ?]%valid_date_bounds [? ?]%valid_date_bounds. unfold date_key_of.
  destruct a as [ya ma da], b as [yb mb db]. cbn [year month day] in *.
  intros Heq. assert (ya = yb ∧ ma = mb ∧ da = db) as (-> & -> & ->) by lia. done.
Qed.

(** The generated days are in calendar order: their join keys grow. *)
Lemma date_dim_keys_sorted : StronglySorted Z.lt (date_key_of <$> date_dim_days).
Proof.
  apply Sorted_StronglySorted; [apply _|]. decide_closed.
Qed.

Lemma StronglySorted_lookup {A} (R : relation A) (l : list A) (i j : nat) (x y : A) :
  StronglySorted R l → (i < j)%nat → l !! i = Some x → l !! j = Some y → R x y.
Proof.
  intros Hs Hij Hi Hj. rewrite <- (take_drop j l) in Hs.
  eapply StronglySorted_app_1_elem_of; [exact Hs| |].
  - apply list_elem_of_lookup. exists i. by rewrite lookup_take_lt.
  - apply list_elem_of_lookup. exists 0. by rewrite lookup_drop, Nat.add_0_r.
Qed.

(** A join key is among the keys of the date dimension exactly when its
    date is a day of the range. *)
Lemma date_key_in_dimension (d : date) :
  valid_date d = true →
  VInt (date_key_of d) ∈ ((λ d, VInt (date_key_of d)) <$> date_dim_days)
  ↔ in_date_dim d = true.
Proof.
  intros Hvalid. split.
  - intros (d' & [= Hkey] & Hd')%list_elem_of_fmap.
    destruct (date_dim_days_sound d' Hd') as [Hvalid' Hin'].
    by rewrite (date_key_of_inj d d' Hvalid Hvalid' Hkey).
  - intros Hin. apply list_elem_of_fmap. exists d. split; [done|].
    by apply date_dim_days_complete.
Qed.

(** C6.  The date dimension has exactly one row per calendar day from
    2022-01-01 to 2023-12-31, in calendar order; [date_id] counts the rows
    from 1; [date_key] is the integer YYYYMMDD of the row's date, so no two
    rows share a key and, of any two rows, the one with the earlier date
    has the smaller key. *)
Theorem date_dimension_keys_follow_calendar :
  ∃ dd days,
    create_date_dimension = Ok dd
    ∧ df_len dd = length days
    ∧ getitem dd "date" = Ok (VTimestamp <$> days)
    ∧ (∀ d, d ∈ days ↔ valid_date d = true ∧ in_date_dim d = true)
    ∧ NoDup days
    ∧ getitem dd "date_id" = Ok ((λ i, VInt (Z.of_nat i)) <$> seq 1 (length days))
    ∧ getitem dd "date_key" = Ok ((λ d, VInt (date_key_of d)) <$> days)
    ∧ (∀ i j di dj, days !! i = Some di → days !! j = Some dj →
         ((i < j)%nat ↔ date_ltb di dj = true)
         ∧ (date_ltb di dj = true ↔ (date_key_of di < date_key_of dj)%Z)
         ∧ (date_key_of di = date_key_of dj → i = j)).
Proof.
  destruct create_date_dimension_Ok as (Hdd & _ & Hlen & _ & Hid & Hdate & Hkey).
  assert (∀ i j di dj, (i < j)%nat → date_dim_days !! i = Some di →
            date_dim_days !! j = Some dj → (date_key_of di < date_key_of dj)%Z) as Hgrow.
  { intros i j di dj Hij Hi Hj.
    apply (StronglySorted_lookup Z.lt (date_key_of <$> date_dim_days) i j);
      [apply date_dim_keys_sorted | done | by rewrite list_lookup_fmap, ?Hi, ?Hj..]. }
  exists sample_date_dim, date_dim_days.
  split; [exact Hdd|]. split; [exact Hlen|]. split; [exact Hdate|].
  split; [|split; [|split; [exact Hid|split; [exact Hkey|]]]].
  - intros d. split; [apply date_dim_days_sound|].
    intros [? ?]. by apply date_dim_days_complete.
  - apply NoDup_alt. intros i j d Hi Hj.
    destruct (Nat.lt_trichotomy i j) as [Hlt|[?|Hlt]]; [|done|].
    + pose proof (Hgrow i j d d Hlt Hi Hj). lia.
    + pose proof (Hgrow j i d d Hlt Hj Hi). lia.
  - intros i j di dj Hi Hj.
    destruct (date_dim_days_sound di) as [Hvi _]; [by eapply list_elem_of_lookup_2|].
    destruct (date_dim_days_sound dj) as [Hvj _]; [by eapply list_elem_of_lookup_2|].
    pose proof (date_key_of_lt di dj Hvi Hvj) as Hlt.
    assert ((i < j)%nat ↔ (date_key_of di < date_key_of dj)%Z) as Hpos.
    { split; [intros ?; by eapply Hgrow|]. intros Hk.
      destruct (Nat.lt_trichotomy i j) as [?|[->|Hji]]; [done| |].
      - assert (di = dj) as -> by congruence. lia.
      - pose proof (Hgrow j i dj di Hji Hj Hi). lia. }
    split; [by rewrite Hpos|]. split; [by rewrite Hlt|].
    intros Heq. destruct (Nat.lt_trichotomy i j) as [Hc|[?|Hc]]; [|done|].
    + apply Hpos in Hc. lia.
    + pose proof (Hgrow j i dj di Hc Hj Hi). lia.
Qed.

(* ===================================================================== *)
(** ** Transaction dates and the date dimension                           *)
(* ===================================================================== *)

Lemma sales_dates_valid (sales : DataFrame) (dates : list date) (i : nat) (d : date) :
  sales_dates sales = Some dates → dates !! i = Some d → valid_date d = true.
Proof.
  unfold sales_dates. destruct (getitem sales "transaction_date") as [raw|]; [|done].
  intros Hall%mapM_Some Hi.
  destruct (Forall2_lookup_r _ _ _ _ _ Hall Hi) as (v & _ & Hv).
  by apply cell_date_Some in Hv as (_ & ? & _).
Qed.

(** C3, as the code has it.  The date key of a fact row is computed from
    the row's own transaction date and is never looked up in the date
    dimension: for every sales row it is the integer YYYYMMDD of that date
    (not the missing value, not the key of another day), and it is one of
    the keys of the date dimension exactly when the date lies from
    2022-01-01 to 2023-12-31.  A row dated outside that range therefore
    carries a key that no row of the date dimension has. *)
Theorem sales_fact_date_key (sales pd cd sd dd : DataFrame) (dates : list date)
    (i : nat) (d : date) :
  sales_ready sales pd cd sd →
  create_date_dimension = Ok dd →
  sales_dates sales = Some dates → dates !! i = Some d →
  ∃ fact keys dkeys, create_sales_fact sales pd cd sd dd = Ok fact
    ∧ getitem fact "date_key" = Ok keys
    ∧ keys !! i = Some (VInt (date_key_of d))
    ∧ getitem dd "date_key" = Ok dkeys
    ∧ (VInt (date_key_of d) ∈ dkeys ↔ in_date_dim d = true).
Proof.
  intros Hready Hdd Hdates Hi.
  destruct create_date_dimension_Ok as (Hdd' & _ & _ & _ & _ & _ & Hkey).
  assert (dd = sample_date_dim) as -> by congruence.
  destruct (create_sales_fact_spec sales pd cd sd sample_date_dim dates Hready Hdates)
    as (fact & Hfact & _ & _ & _ & _ & Hkeys & _).
  exists fact, ((λ d, VInt (date_key_of d)) <$> dates),
         ((λ d, VInt (date_key_of d)) <$> date_dim_days).
  split; [exact Hfact|]. split; [exact Hkeys|].
  split; [by rewrite list_lookup_fmap, Hi|]. split; [exact Hkey|].
  apply date_key_in_dimension. by eapply sales_dates_valid.
Qed.

Lemma sales_fact_date_key_witness :
  ∃ fact keys dkeys,
    create_sales_fact sample_sales sample_product_dim sample_customer_dim
      sample_store_dim sample_date_dim = Ok fact
    ∧ getitem fact "date_key" = Ok keys
    ∧ keys !! 2 = Some (VInt 20240101)
    ∧ getitem sample_date_dim "date_key" = Ok dkeys
    ∧ (VInt 20240101 ∈ dkeys ↔ in_date_dim (mkDate 2024 1 1) = true).
Proof.
  apply (sales_fact_date_key sample_sales sample_product_dim sample_customer_dim
           sample_store_dim sample_date_dim
           [mkDate 2022 3 15; mkDate 2023 12 31; mkDate 2024 1 1] 2 (mkDate 2024 1 1)).
  - decide_closed.
  - vm_compute; reflexivity.
  - vm_compute; reflexivity.
  - reflexivity.
Defined.

(** C3, as the claim has it, fails: the sales row dated 2024-01-01, the day
    after the date dimension ends, gets the date key 20240101, which is not
    the missing value and is the key of no row of the date dimension. *)
Lemma sales_fact_date_outside_range_is_not_null :
  ∃ fact keys dkeys,
    getitem sample_sales "transaction_date"
      = Ok [VStr "2022-03-15"; VStr "2023-12-31"; VStr "2024-01-01"]
    ∧ in_date_dim (mkDate 2024 1 1) = false
    ∧ create_sales_fact sample_sales sample_product_dim sample_customer_dim
        sample_store_dim sample_date_dim = Ok fact
    ∧ getitem fact "date_key" = Ok keys
    ∧ keys !! 2 = Some (VInt 20240101)
    ∧ keys !! 2 ≠ Some VNaN
    ∧ getitem sample_date_dim "date_key" = Ok dkeys
    ∧ (VInt 20240101 ∉ dkeys)
    ∧ (∀ k, VInt k ∈ dkeys → (20220101 ≤ k ≤ 20231231)%Z).
Proof.
  exists (built (create_sales_fact sample_sales sample_product_dim sample_customer_dim
                   sample_store_dim sample_date_dim)),
         [VInt 20220315; VInt 20231231; VInt 20240101],
         ((λ d, VInt (date_key_of d)) <$> date_dim_days).
  split; [reflexivity|]. split; [reflexivity|].
  split; [vm_compute; reflexivity|]. split; [vm_compute; reflexivity|].
  split; [reflexivity|]. split; [discriminate|].
  split; [vm_compute; reflexivity|]. split; [decide_closed|].
  intros k (d & [= ->] & Hd)%list_elem_of_fmap.
  assert (Forall (λ d, 20220101 ≤ date_key_of d ≤ 20231231)%Z date_dim_days) as Hall
    by decide_closed.
  rewrite Forall_forall in Hall. by apply Hall.
Qed.

(* ===================================================================== *)
(** ** The persisted star schema                                          *)
(* ===================================================================== *)

Lemma with_surrogate_key_columns (key : string) (attrs : list string) (df dim : DataFrame) :
  key ∉ attrs → with_surrogate_key key attrs df = Ok dim →
  columns dim = key :: attrs ∧ df_len dim = df_len df.
Proof.
  intros Hkey Hdim.
  rewrite with_surrogate_key_present in Hdim
    by (done || by eapply with_surrogate_key_Ok_present).
  injection Hdim as <-. unfold columns. cbn [df_cols df_len].
  by rewrite fmap_cons, project_fst.
Qed.

(** The labels of the six tables of a build. *)
Lemma build_star_schema_columns inputs dd pd cd sd sf pf :
  build_star_schema inputs = Ok (dd, pd, cd, sd, sf, pf) →
  columns dd = date_dim_columns
  ∧ columns pd = "product_key" :: product_attrs
  ∧ columns cd = "customer_key" :: customer_attrs
  ∧ columns sd = "store_key" :: store_attrs
  ∧ columns sf = "sales_key" :: sales_fact_columns
  ∧ columns pf = "performance_key" :: performance_fact_columns.
Proof.
  destruct inputs as [[[[products customers] stores] sales] perf].
  unfold build_star_schema.
  intros (dd' & Hdd & (pd' & Hpd & (cd' & Hcd & (sd' & Hsd & (sf' & Hsf
           & (pf' & Hpf & [= -> -> -> -> -> ->])%bind_Ok)%bind_Ok)%bind_Ok)%bind_Ok)%bind_Ok)%bind_Ok.
  destruct create_date_dimension_Ok as (Hdd' & _ & _ & Hcols & _).
  assert (dd = sample_date_dim) as -> by congruence.
  split; [exact Hcols|].
  assert ("product_key" ∉ product_attrs) as Hkp by decide_closed.
  assert ("customer_key" ∉ customer_attrs) as Hkc by decide_closed.
  assert ("store_key" ∉ store_attrs) as Hks by decide_closed.
  split; [exact (proj1 (with_surrogate_key_columns _ _ products pd Hkp Hpd))|].
  split; [exact (proj1 (with_surrogate_key_columns _ _ customers cd Hkc Hcd))|].
  split; [exact (proj1 (with_surrogate_key_columns _ _ stores sd Hks Hsd))|].
  split.
  - unfold create_sales_fact in Hsf.
    do 19 (apply bind_Ok in Hsf as (? & _ & Hsf)).
    eapply with_surrogate_key_columns; [|exact Hsf]. decide_closed.
  - unfold create_performance_fact in Hpf.
    do 12 (apply bind_Ok in Hpf as (? & _ & Hpf)).
    eapply with_surrogate_key_columns; [|exact Hpf]. decide_closed.
Qed.

Lemma path_ne (dir a b : string) : a ≠ b → dir +:+ a ≠ dir +:+ b.
Proof. intros Hne Heq. by apply Hne, (inj (String.app dir)). Qed.

Section persistence_facts.
Context `{codec : CellCodec}.

(** A file that was just written reads back with the shape it was written
    with. *)
Lemma read_csv_to_csv (df : DataFrame) (path : string) (fs : filesystem) :
  plain_labels (columns df) →
  ∃ df', read_csv path (to_csv df path false fs) = Ok df' ∧ same_shape df df'.
Proof.
  intros (Hne & Hnd & Hempty). unfold read_csv, to_csv.
  rewrite lookup_insert_eq. cbn [header records].
  rewrite decide_False by done. rewrite decide_True.
  - eexists. split; [reflexivity|]. split; cbn [df_len df_cols].
    + by rewrite length_fmap, length_seq.
    + unfold columns at 2. cbn [df_cols]. rewrite fmap_imap.
      rewrite (imap_ext _ (const id)) by done.
      by rewrite imap_const, list_fmap_id.
  - split; [done|]. split; [done|].
    apply Forall_fmap, Forall_forall. intros i _. cbn. by rewrite !length_fmap.
Qed.

(** Writing one file leaves the others as they were. *)
Lemma read_csv_to_csv_ne (df : DataFrame) (p q : string) (index : bool) (fs : filesystem) :
  p ≠ q → read_csv p (to_csv df q index fs) = read_csv p fs.
Proof. intros Hne. unfold read_csv, to_csv. by rewrite lookup_insert_ne. Qed.

Lemma lookup_to_csv_ne (df : DataFrame) (p q : string) (index : bool) (fs : filesystem) :
  p ≠ q → to_csv df q index fs !! p = fs !! p.
Proof. intros Hne. unfold to_csv. by rewrite lookup_insert_ne. Qed.

Lemma read_csv_ext (p : string) (fs fs' : filesystem) :
  fs !! p = fs' !! p → read_csv p fs = read_csv p fs'.
Proof. unfold read_csv. by intros ->. Qed.

(** Writing again what a file already holds changes nothing. *)
Lemma to_csv_again (df : DataFrame) (p : string) (index : bool) (fs fs0 : filesystem) :
  fs !! p = to_csv df p index fs0 !! p → to_csv df p index fs = fs.
Proof.
  unfold to_csv. rewrite lookup_insert_eq. intros H. by apply insert_id.
Qed.

(** C9.  The six tables of a build, saved by [save_star_schema] and read
    back by the dashboard's [load_star_schema_data] from the same
    directory, come back as six tables with, each, the number of rows and
    the column labels (in the same order) of the table that was written. *)
Theorem star_schema_round_trip inputs (dir : string) (fs : filesystem)
    (dd pd cd sd sf pf : DataFrame) :
  build_star_schema inputs = Ok (dd, pd, cd, sd, sf, pf) →
  ∃ dd' pd' cd' sd' sf' pf',
    load_star_schema_data dir (save_star_schema (dd, pd, cd, sd, sf, pf) dir fs)
    = Ok (dd', pd', cd', sd', sf', pf')
    ∧ same_shape dd dd' ∧ same_shape pd pd' ∧ same_shape cd cd'
    ∧ same_shape sd sd' ∧ same_shape sf sf' ∧ same_shape pf pf'.
Proof.
  intros (Hdd & Hpd & Hcd & Hsd & Hsf & Hpf)%build_star_schema_columns.
  unfold save_star_schema, load_star_schema_data.
  set (fs1 := to_csv dd _ false fs). set (fs2 := to_csv pd _ false fs1).
  set (fs3 := to_csv cd _ false fs2). set (fs4 := to_csv sd _ false fs3).
  set (fs5 := to_csv sf _ false fs4).
  destruct (read_csv_to_csv dd (dir +:+ "/dim_date.csv") fs) as (dd' & Hrd & ?);
    [rewrite Hdd; repeat split; decide_closed|].
  destruct (read_csv_to_csv pd (dir +:+ "/dim_product.csv") fs1) as (pd' & Hrp & ?);
    [rewrite Hpd; repeat split; decide_closed|].
  destruct (read_csv_to_csv cd (dir +:+ "/dim_customer.csv") fs2) as (cd' & Hrc & ?);
    [rewrite Hcd; repeat split; decide_closed|].
  destruct (read_csv_to_csv sd (dir +:+ "/dim_store.csv") fs3) as (sd' & Hrs & ?);
    [rewrite Hsd; repeat split; decide_closed|].
  destruct (read_csv_to_csv sf (dir +:+ "/fact_sales.csv") fs4) as (sf' & Hrf & ?);
    [rewrite Hsf; repeat split; decide_closed|].
  destruct (read_csv_to_csv pf (dir +:+ "/fact_performance.csv") fs5) as (pf' & Hrq & ?);
    [rewrite Hpf; repeat split; decide_closed|].
  set (fs6 := to_csv pf _ false fs5).
  assert (read_csv (dir +:+ "/dim_date.csv") fs6 = Ok dd') as ->
    by (subst fs6 fs5 fs4 fs3 fs2; by rewrite !read_csv_to_csv_ne by (by apply path_ne)).
  assert (read_csv (dir +:+ "/dim_product.csv") fs6 = Ok pd') as ->
    by (subst fs6 fs5 fs4 fs3; by rewrite !read_csv_to_csv_ne by (by apply path_ne)).
  assert (read_csv (dir +:+ "/dim_customer.csv") fs6 = Ok cd') as ->
    by (subst fs6 fs5 fs4; by rewrite !read_csv_to_csv_ne by (by apply path_ne)).
  assert (read_csv (dir +:+ "/dim_store.csv") fs6 = Ok sd') as ->
    by (subst fs6 fs5; by rewrite !read_csv_to_csv_ne by (by apply path_ne)).
  assert (read_csv (dir +:+ "/fact_sales.csv") fs6 = Ok sf') as ->
    by (subst fs6; by rewrite !read_csv_to_csv_ne by (by apply path_ne)).
  fold fs6 in Hrq. rewrite Hrq. by exists dd', pd', cd', sd', sf', pf'.
Qed.

Lemma main_Ok (fs out : filesystem) :
  main fs = Ok out →
  ∃ inputs tables, load_processed_data input_dir fs = Ok inputs
    ∧ build_star_schema inputs = Ok tables
    ∧ out = save_star_schema tables output_dir fs.
Proof.
  unfold main. intros (inputs & ? & (tables & ? & [= <-])%bind_Ok)%bind_Ok. eauto.
Qed.

(** Loading looks at the five processed files only. *)
Lemma load_processed_data_ext (fs fs' : filesystem) :
  (∀ p, p ∈ processed_files → fs' !! p = fs !! p) →
  load_processed_data input_dir fs' = load_processed_data input_dir fs.
Proof.
  intros Hsame. unfold load_processed_data.
  rewrite (read_csv_ext (input_dir +:+ "/products_processed.csv") fs' fs)
    by (apply Hsame; decide_closed).
  rewrite (read_csv_ext (input_dir +:+ "/customers_processed.csv") fs' fs)
    by (apply Hsame; decide_closed).
  rewrite (read_csv_ext (input_dir +:+ "/stores_processed.csv") fs' fs)
    by (apply Hsame; decide_closed).
  rewrite (read_csv_ext (input_dir +:+ "/sales_processed.csv") fs' fs)
    by (apply Hsame; decide_closed).
  by rewrite (read_csv_ext (input_dir +:+ "/performance_processed.csv") fs' fs)
    by (apply Hsame; decide_closed).
Qed.

(** Saving leaves the processed files as they are. *)
Lemma save_star_schema_keeps_inputs tables (fs : filesystem) (p : string) :
  p ∈ processed_files →
  save_star_schema tables output_dir fs !! p = fs !! p.
Proof.
  destruct tables as [[[[[dd pd] cd] sd] sf] pf]. intros Hp.
  assert (Forall (λ q, q ∉ processed_files) (star_schema_files output_dir)) as Hout
    by decide_closed.
  unfold star_schema_files in Hout. rewrite Forall_fmap, !Forall_cons in Hout.
  cbn [compose] in Hout. destruct Hout as (H1 & H2 & H3 & H4 & H5 & H6 & _).
  unfold save_star_schema.
  rewrite !lookup_to_csv_ne; [done|intros ->; contradiction..].
Qed.

(** What saving leaves in the six files does not depend on what was there. *)
Lemma save_star_schema_outputs tables (dir : string) (fs fs' : filesystem) (p : string) :
  p ∈ star_schema_files dir →
  save_star_schema tables dir fs !! p = save_star_schema tables dir fs' !! p.
Proof.
  destruct tables as [[[[[dd pd] cd] sd] sf] pf].
  unfold star_schema_files. rewrite list_elem_of_fmap.
  intros (name & -> & Hname). rewrite !elem_of_cons, elem_of_nil in Hname.
  unfold save_star_schema.
  destruct Hname as [->|[->|[->|[->|[->|[->|[]]]]]]];
    (etrans; [|symmetry]);
    (rewrite ?lookup_to_csv_ne by (by apply path_ne);
     unfold to_csv at 1; rewrite lookup_insert_eq; reflexivity).
Qed.

(** Saving the same tables a second time changes nothing. *)
Lemma save_star_schema_again tables (dir : string) (fs : filesystem) :
  save_star_schema tables dir (save_star_schema tables dir fs)
  = save_star_schema tables dir fs.
Proof.
  destruct tables as [[[[[dd pd] cd] sd] sf] pf].
  set (out := save_star_schema (dd, pd, cd, sd, sf, pf) dir fs).
  unfold save_star_schema at 1.
  rewrite (to_csv_again dd _ false out fs);
    [|by subst out; unfold save_star_schema;
         rewrite !lookup_to_csv_ne by (by apply path_ne)].
  rewrite (to_csv_again pd _ false out (to_csv dd (dir +:+ "/dim_date.csv") false fs));
    [|by subst out; unfold save_star_schema;
         rewrite !lookup_to_csv_ne by (by apply path_ne)].
  rewrite (to_csv_again cd _ false out
             (to_csv pd (dir +:+ "/dim_product.csv") false
                (to_csv dd (dir +:+ "/dim_date.csv") false fs)));
    [|by subst out; unfold save_star_schema;
         rewrite !lookup_to_csv_ne by (by apply path_ne)].
  rewrite (to_csv_again sd _ false out
             (to_csv cd (dir +:+ "/dim_customer.csv") false
                (to_csv pd (dir +:+ "/dim_product.csv") false
                   (to_csv dd (dir +:+ "/dim_date.csv") false fs))));
    [|by subst out; unfold save_star_schema;
         rewrite !lookup_to_csv_ne by (by apply path_ne)].
  rewrite (to_csv_again sf _ false out
             (to_csv sd (dir +:+ "/dim_store.csv") false
                (to_csv cd (dir +:+ "/dim_customer.csv") false
                   (to_csv pd (dir +:+ "/dim_product.csv") false
                      (to_csv dd (dir +:+ "/dim_date.csv") false fs)))));
    [|by subst out; unfold save_star_schema;
         rewrite !lookup_to_csv_ne by (by apply path_ne)].
  apply (to_csv_again pf _ false out
           (to_csv sf (dir +:+ "/fact_sales.csv") false
              (to_csv sd (dir +:+ "/dim_store.csv") false
                 (to_csv cd (dir +:+ "/dim_customer.csv") false
                    (to_csv pd (dir +:+ "/dim_product.csv") false
                       (to_csv dd (dir +:+ "/dim_date.csv") false fs)))))).
  done.
Qed.

(** C7.  The build is a function of the five processed files.  A run of
    [main] that succeeded can be repeated: the second run succeeds and
    leaves every file, the six artifacts included, exactly as the first run
    left it.  And a run on any other directory tree that holds the same
    five processed files succeeds with the same six artifacts. *)
Theorem main_twice_same_star_schema (fs out : filesystem) :
  main fs = Ok out →
  main out = Ok out
  ∧ (∀ p, p ∈ processed_files → out !! p = fs !! p)
  ∧ (∀ fs', (∀ p, p ∈ processed_files → fs' !! p = fs !! p) →
       ∃ out', main fs' = Ok out'
         ∧ ∀ p, p ∈ star_schema_files output_dir → out' !! p = out !! p).
Proof.
  intros (inputs & tables & Hload & Hbuild & ->)%main_Ok.
  assert (∀ p, p ∈ processed_files →
            save_star_schema tables output_dir fs !! p = fs !! p) as Hkeep
    by (intros p Hp; by apply save_star_schema_keeps_inputs).
  split; [|split; [exact Hkeep|]].
  - unfold main. rewrite (load_processed_data_ext fs _ Hkeep), Hload, bind_Ok_l.
    rewrite Hbuild, bind_Ok_l. by rewrite save_star_schema_again.
  - intros fs' Hsame. exists (save_star_schema tables output_dir fs'). split.
    + unfold main. rewrite (load_processed_data_ext fs fs' Hsame), Hload, bind_Ok_l.
      by rewrite Hbuild, bind_Ok_l.
    + intros p Hp. by apply save_star_schema_outputs.
Qed.

End persistence_facts.

Lemma star_schema_round_trip_witness :
  ∃ dd' pd' cd' sd' sf' pf',
    load_star_schema_data (codec := sample_codec) output_dir
      (save_star_schema (codec := sample_codec)
         (sample_date_dim, sample_product_dim, sample_customer_dim, sample_store_dim,
          sample_sales_fact, sample_performance_fact) output_dir sample_files)
    = Ok (dd', pd', cd', sd', sf', pf')
    ∧ same_shape sample_date_dim dd' ∧ same_shape sample_product_dim pd'
    ∧ same_shape sample_customer_dim cd' ∧ same_shape sample_store_dim sd'
    ∧ same_shape sample_sales_fact sf' ∧ same_shape sample_performance_fact pf'.
Proof.
  apply (star_schema_round_trip (codec := sample_codec)
           (sample_products, sample_customers, sample_stores, sample_sales,
            sample_performance) output_dir sample_files).
  vm_compute; reflexivity.
Defined.

Lemma files_after_Ok (r : result filesystem) : is_Ok r = true → r = Ok (files_after r).
Proof. by destruct r. Qed.

Lemma main_twice_same_star_schema_witness :
  main (codec := sample_codec) sample_run = Ok sample_run
  ∧ (∀ p, p ∈ processed_files → sample_run !! p = sample_files !! p)
  ∧ (∀ fs', (∀ p, p ∈ processed_files → fs' !! p = sample_files !! p) →
       ∃ out', main (codec := sample_codec) fs' = Ok out'
         ∧ ∀ p, p ∈ star_schema_files output_dir → out' !! p = sample_run !! p).
Proof.
  apply (main_twice_same_star_schema (codec := sample_codec) sample_files sample_run).
  apply files_after_Ok. vm_compute; reflexivity.
Defined.

(* ===================================================================== *)
(** ** Errors of the builders                                             *)
(* ===================================================================== *)

(** A conversion stops at the first cell that raises. *)
Lemma traverse_raise {A B} (f : A → result B) (pre post : list A) (x : A) (e : error) :
  Forall (λ y, is_Ok (f y) = true) pre → f x = Raise e →
  traverse f (pre ++ x :: post) = Raise e.
Proof.
  intros Hpre Hx. induction Hpre as [|y pre Hy _ IH]; cbn [app traverse].
  - by rewrite Hx.
  - destruct (f y) as [b|]; [|done]. by rewrite bind_Ok_l, IH.
Qed.

(** X1.  An entity dimension build on a table that lacks one of the columns
    it selects raises a [KeyError] for a missing column (the first one in
    the order of the selection) and returns no table. *)
Theorem entity_dimension_missing_column
    (build : DataFrame → result DataFrame) key attrs (df : DataFrame)
    (pre post : list string) (c : string) :
  (build, key, attrs) ∈ entity_builds →
  attrs = pre ++ c :: post →
  pre ⊆ columns df →
  c ∉ columns df →
  build df = Raise (KeyError c).
Proof.
  intros (-> & _ & _)%entity_build_shape -> Hpre Hc.
  unfold with_surrogate_key, getitem_list.
  rewrite (traverse_raise _ pre post c (KeyError c)); [done| |].
  - apply Forall_forall. intros x Hx.
    destruct (getitem_present df x) as [s Hs]; [by apply Hpre|]. by rewrite Hs.
  - unfold getitem. destruct (assoc c (df_cols df)) as [s|] eqn:Hs; [|done].
    destruct Hc. apply assoc_elem_of. by rewrite Hs.
Qed.

Lemma entity_dimension_missing_column_witness :
  create_product_dimension sample_products_raw = Raise (KeyError "profit_margin").
Proof.
  apply (entity_dimension_missing_column create_product_dimension "product_key"
           product_attrs sample_products_raw
           ["product_id"; "product_name"; "category"; "subcategory"; "energy_rating";
            "price"; "manufacturing_cost"; "warranty_years"; "weight_kg"]
           ["launch_date"] "profit_margin").
  - by left.
  - reflexivity.
  - decide_closed.
  - decide_closed.
Defined.

(** The timestamp a cell of [transaction_date] becomes, and the text
    [strftime] gives for it: the missing value stays missing. *)
Lemma to_datetime_or_missing (raw : Series) :
  Forall (λ v, v = VNaN ∨ is_Some (cell_date v)) raw →
  ∃ stamps texts,
    to_datetime raw = Ok stamps ∧ length stamps = length raw
    ∧ dt_strftime_Ymd stamps = Ok texts
    ∧ Forall2 (λ v t, (v = VNaN ∧ t = VNaN)
                      ∨ (∃ d, cell_date v = Some d ∧ t = VStr (strftime_Ymd d)))
        raw texts.
Proof.
  induction 1 as [|v raw Hv _ (stamps & texts & Hs & Hl & Ht & Hall)].
  - by exists [], [].
  - destruct Hv as [->|[d Hd]].
    + exists (VNaN :: stamps), (VNaN :: texts).
      unfold to_datetime, dt_strftime_Ymd in *. cbn [traverse to_datetime_cell].
      rewrite !bind_Ok_l, Hs, Ht. cbn. split; [done|]. split; [by rewrite Hl|].
      split; [done|]. constructor; [by left | done].
    + pose proof (cell_date_Some v d Hd) as (Hcell & _ & _).
      exists (VTimestamp d :: stamps), (VStr (strftime_Ymd d) :: texts).
      unfold to_datetime, dt_strftime_Ymd in *. cbn [traverse].
      rewrite Hcell, !bind_Ok_l, Hs, Ht. cbn. split; [done|]. split; [by rewrite Hl|].
      split; [done|]. constructor; [right; eauto | done].
Qed.

(** X2.  A transaction date that is missing stops the whole sales fact:
    when every cell of [transaction_date] is a calendar day or the missing
    value and at least one is missing, the build raises the [ValueError] of
    [astype(int)] and returns no table. *)
Theorem sales_fact_missing_date_raises (sales pd cd sd dd : DataFrame) (raw : Series) :
  wf_frame sales →
  getitem sales "transaction_date" = Ok raw →
  Forall (λ v, v = VNaN ∨ is_Some (cell_date v)) raw →
  VNaN ∈ raw →
  create_sales_fact sales pd cd sd dd
  = Raise (ValueError "cannot convert float NaN to integer").
Proof.
  intros Hwf Hraw Hall Hnan.
  destruct (to_datetime_or_missing raw Hall) as (stamps & texts & Hs & Hl & Ht & Hrel).
  pose proof (getitem_length _ _ _ Hwf Hraw) as Hrawlen.
  unfold create_sales_fact, copy. step_with Hraw. step_with Hs. step_setitem.
  step_getitem stamps I. step_with Ht.
  apply list_elem_of_split_l in Hnan as (pre & post & -> & Hpre).
  apply Forall2_app_inv_l in Hrel as (tpre & tpost & Hrpre & Hrpost & ->).
  apply Forall2_cons_inv_l in Hrpost as (t & tpost' & Ht0 & _ & ->).
  assert (t = VNaN) as ->.
  { destruct Ht0 as [[_ ->]|(d & Hd & _)]; [done | by cbn in Hd]. }
  unfold astype_int. rewrite (traverse_raise _ tpre tpost' VNaN
    (ValueError "cannot convert float NaN to integer")); [done| |done].
  apply Forall_forall. intros t Hin.
  apply list_elem_of_lookup in Hin as [i Hi].
  destruct (Forall2_lookup_r _ _ _ _ _ Hrpre Hi) as (v & Hv & Hcase).
  destruct Hcase as [[-> _]|(d & (_ & ? & ?)%cell_date_Some & ->)].
  - destruct Hpre. by eapply list_elem_of_lookup_2.
  - by rewrite strftime_astype_int.
Qed.

Lemma sales_fact_missing_date_raises_witness :
  create_sales_fact sample_sales_missing_date sample_product_dim sample_customer_dim
    sample_store_dim sample_date_dim
  = Raise (ValueError "cannot convert float NaN to integer").
Proof.
  apply (sales_fact_missing_date_raises sample_sales_missing_date sample_product_dim
           sample_customer_dim sample_store_dim sample_date_dim
           [VStr "2022-03-15"; VNaN; VStr "2024-01-01"]).
  - decide_closed.
  - reflexivity.
  - decide_closed.
  - decide_closed.
Defined.

(* ===================================================================== *)
(** ** Layout of the fact tables                                          *)
(* ===================================================================== *)

Lemma getitem_absent (df : DataFrame) (c : string) :
  c ∉ columns df → getitem df c = Raise (KeyError c).
Proof.
  intros Hc. unfold getitem. destruct (assoc c (df_cols df)) as [s|] eqn:Hs; [|done].
  destruct Hc. apply assoc_elem_of. by rewrite Hs.
Qed.

(** X3.  The sales fact has twelve columns: [sales_key], which numbers the
    rows 1..N in the order of the sales table, then the transaction id, the
    four keys and the measures.  The measures are the columns of the sales
    table, cell for cell; the natural ids and the transaction date of the
    sales table are not kept. *)
Theorem sales_fact_layout (sales pd cd sd dd : DataFrame) :
  sales_ready sales pd cd sd →
  ∃ fact, create_sales_fact sales pd cd sd dd = Ok fact
    ∧ wf_frame fact
    ∧ df_len fact = df_len sales
    ∧ columns fact
      = ["sales_key"; "transaction_id"; "date_key"; "product_key"; "customer_key";
         "store_key"; "quantity"; "unit_price"; "discount"; "final_price";
         "total_amount"; "payment_method"]
    ∧ getitem fact "sales_key" = Ok ((λ i, VInt (Z.of_nat i)) <$> seq 1 (df_len sales))
    ∧ (∀ c, c ∈ sales_measures → getitem fact c = getitem sales c)
    ∧ (∀ c, c ∈ ["product_id"; "customer_id"; "store_id"; "transaction_date"] →
         getitem fact c = Raise (KeyError c)).
Proof.
  intros Hready. pose proof Hready as (_ & _ & [dates Hdates] & _).
  destruct (create_sales_fact_spec sales pd cd sd dd dates Hready Hdates)
    as (fact & Hfact & Hwf & Hlen & Hcols & Hkey & _ & _ & Hmeasures).
  exists fact. do 5 (split; [done|]). split; [done|].
  intros c Hc. apply getitem_absent. rewrite Hcols. revert c Hc.
  apply Forall_forall. decide_closed.
Qed.

Lemma sales_fact_layout_witness :
  ∃ fact, create_sales_fact sample_sales sample_product_dim sample_customer_dim
            sample_store_dim sample_date_dim = Ok fact
    ∧ wf_frame fact
    ∧ df_len fact = 3
    ∧ columns fact
      = ["sales_key"; "transaction_id"; "date_key"; "product_key"; "customer_key";
         "store_key"; "quantity"; "unit_price"; "discount"; "final_price";
         "total_amount"; "payment_method"]
    ∧ getitem fact "sales_key" = Ok [VInt 1; VInt 2; VInt 3]
    ∧ (∀ c, c ∈ sales_measures → getitem fact c = getitem sample_sales c)
    ∧ (∀ c, c ∈ ["product_id"; "customer_id"; "store_id"; "transaction_date"] →
         getitem fact c = Raise (KeyError c)).
Proof.
  apply (sales_fact_layout sample_sales sample_product_dim sample_customer_dim
           sample_store_dim sample_date_dim).
  decide_closed.
Defined.

(** X4.  The performance fact has eight columns: [performance_key], which
    numbers the rows 1..N in the order of the performance table, the two
    keys and the five measures, copied cell for cell.  The product id, the
    year and the month of the performance table are not kept. *)
Theorem performance_fact_layout (perf pd dd : DataFrame) :
  performance_ready perf pd →
  ∃ fact, create_performance_fact perf pd dd = Ok fact
    ∧ wf_frame fact
    ∧ df_len fact = df_len perf
    ∧ columns fact
      = ["performance_key"; "date_key"; "product_key"; "energy_consumption_kwh";
         "failure_rate"; "customer_satisfaction"; "return_rate"; "warranty_claims"]
    ∧ getitem fact "performance_key"
      = Ok ((λ i, VInt (Z.of_nat i)) <$> seq 1 (df_len perf))
    ∧ (∀ c, c ∈ performance_measures → getitem fact c = getitem perf c)
    ∧ (∀ c, c ∈ ["product_id"; "year"; "month"] → getitem fact c = Raise (KeyError c)).
Proof.
  intros Hready. pose proof Hready as (_ & _ & [dkeys Hdkeys]%is_Ok_true & _).
  destruct (create_performance_fact_spec perf pd dd dkeys Hready Hdkeys)
    as (fact & Hfact & Hwf & Hlen & Hcols & Hkey & _ & _ & Hmeasures).
  exists fact. do 5 (split; [done|]). split; [done|].
  intros c Hc. apply getitem_absent. rewrite Hcols. revert c Hc.
  apply Forall_forall. decide_closed.
Qed.

Lemma performance_fact_layout_witness :
  ∃ fact, create_performance_fact sample_performance sample_product_dim sample_date_dim
          = Ok fact
    ∧ wf_frame fact
    ∧ df_len fact = 2
    ∧ columns fact
      = ["performance_key"; "date_key"; "product_key"; "energy_consumption_kwh";
         "failure_rate"; "customer_satisfaction"; "return_rate"; "warranty_claims"]
    ∧ getitem fact "performance_key" = Ok [VInt 1; VInt 2]
    ∧ (∀ c, c ∈ performance_measures → getitem fact c = getitem sample_performance c)
    ∧ (∀ c, c ∈ ["product_id"; "year"; "month"] → getitem fact c = Raise (KeyError c)).
Proof.
  apply (performance_fact_layout sample_performance sample_product_dim sample_date_dim).
  decide_closed.
Defined.

(* ===================================================================== *)
(** ** Foreign keys point at dimension rows                               *)
(* ===================================================================== *)

Lemma foldl_insert_Some (k v : value) (l : list (value * value)) (m : gmap value value) :
  foldl (λ m kv, <[kv.1 := kv.2]> m) m l !! k = Some v →
  m !! k = Some v ∨ (k, v) ∈ l.
Proof.
  revert m. induction l as [|[k' v'] l IH]; intros m; cbn; [by left|].
  intros [Hm|Hl]%IH; [|right; by right].
  destruct (decide (k' = k)) as [->|Hne].
  - rewrite lookup_insert_eq in Hm. injection Hm as ->. right. by left.
  - rewrite lookup_insert_ne in Hm by done. by left.
Qed.

(** What the dict holds for a key was zipped with an occurrence of it. *)
Lemma dict_zip_lookup_Some (ks vs : Series) (k v : value) :
  dict_zip ks vs !! k = Some v → ∃ j, ks !! j = Some k ∧ vs !! j = Some v.
Proof.
  unfold dict_zip. intros [Hempty|Hin]%foldl_insert_Some; [done|].
  apply list_elem_of_lookup in Hin as [j Hj].
  apply lookup_zip_with_Some in Hj as (? & ? & [= <- <-] & ? & ?). eauto.
Qed.

Lemma last_occurrence {A} `{EqDecision A} (l : list A) (x : A) :
  x ∈ l → ∃ j, l !! j = Some x ∧ ∀ j', (j < j')%nat → l !! j' ≠ Some x.
Proof.
  intros (l1 & l2 & -> & Hnot)%list_elem_of_split_r. exists (length l1). split.
  - by rewrite lookup_app_r, Nat.sub_diag by lia.
  - intros j' Hlt Hj'. rewrite lookup_app_r in Hj' by lia.
    destruct (j' - length l1)%nat as [|n] eqn:Hn; [lia|]. cbn in Hj'.
    apply Hnot. by eapply list_elem_of_lookup_2.
Qed.

(** X5.  With the dimensions built from the cleaned tables, the foreign
    keys of the sales fact never dangle: for every sales row, either its
    natural id is in no dimension row and the key is the missing value, or
    the key is the surrogate key (the position counted from 1) of a
    dimension row that carries this natural id. *)
Theorem sales_fact_keys_point_at_rows
    (products customers stores sales pd cd sd dd : DataFrame) id key dim
    (sids ids : Series) :
  dimensions_built products customers stores pd cd sd →
  sales_ready sales pd cd sd →
  (id, key, dim) ∈ foreign_keys pd cd sd →
  getitem sales id = Ok sids →
  getitem dim id = Ok ids →
  ∃ fact fkeys, create_sales_fact sales pd cd sd dd = Ok fact
    ∧ getitem fact key = Ok fkeys
    ∧ length fkeys = length sids
    ∧ ∀ i k, sids !! i = Some k →
        ((k ∉ ids) ∧ fkeys !! i = Some VNaN)
        ∨ (∃ j, ids !! j = Some k ∧ (j < df_len dim)%nat
                ∧ fkeys !! i = Some (VInt (Z.of_nat j + 1))).
Proof.
  intros Hbuilt Hready Hfk Hsids Hids.
  destruct (foreign_key_built _ _ _ _ _ _ id key dim Hbuilt Hfk)
    as (ids' & Hwf & Hids' & Hlen & Hkeys).
  assert (ids' = ids) as -> by congruence.
  pose proof Hready as (_ & _ & [dates Hdates] & _).
  destruct (create_sales_fact_spec sales pd cd sd dd dates Hready Hdates)
    as (fact & Hfact & _ & _ & _ & _ & _ & Hfks & _).
  destruct (Hfks id key dim Hfk) as (sids' & ids' & keys' & Hs' & Hi' & Hk' & Hget).
  assert (sids' = sids) as -> by congruence.
  assert (ids' = ids) as -> by congruence.
  assert (keys' = dense_keys (df_len dim)) as -> by congruence.
  exists fact, (series_map sids (dict_zip ids (dense_keys (df_len dim)))).
  do 2 (split; [done|]). split; [apply length_series_map|].
  intros i k Hi. rewrite (series_map_lookup _ _ _ _ Hi).
  destruct (decide (k ∈ ids)) as [Hin|Hnot].
  - right. destruct (last_occurrence ids k Hin) as (j & Hj & Hlast).
    apply lookup_lt_Some in Hj as Hjlt. exists j. split; [done|]. split; [lia|].
    rewrite (dict_zip_lookup_last ids _ j k (VInt (Z.of_nat j + 1))); try done.
    apply dense_keys_lookup. lia.
  - left. split; [done|]. by rewrite dict_zip_lookup_None.
Qed.

Lemma sales_fact_keys_point_at_rows_witness :
  ∃ fact fkeys,
    create_sales_fact sample_sales sample_product_dim sample_customer_dim
      sample_store_dim sample_date_dim = Ok fact
    ∧ getitem fact "product_key" = Ok fkeys
    ∧ length fkeys = 3
    ∧ ∀ i k, [VStr "P2"; VStr "P9"; VStr "P1"] !! i = Some k →
        ((k ∉ [VStr "P1"; VStr "P2"; VStr "P3"]) ∧ fkeys !! i = Some VNaN)
        ∨ (∃ j, [VStr "P1"; VStr "P2"; VStr "P3"] !! j = Some k ∧ (j < 3)%nat
                ∧ fkeys !! i = Some (VInt (Z.of_nat j + 1))).
Proof.
  apply (sales_fact_keys_point_at_rows sample_products sample_customers sample_stores
           sample_sales sample_product_dim sample_customer_dim sample_store_dim
           sample_date_dim "product_id" "product_key" sample_product_dim
           [VStr "P2"; VStr "P9"; VStr "P1"] [VStr "P1"; VStr "P2"; VStr "P3"]).
  - unfold dimensions_built. repeat split; decide_closed || reflexivity.
  - decide_closed.
  - by left.
  - reflexivity.
  - reflexivity.
Defined.

(** X6.  A performance row whose product id is in no row of the product
    dimension keeps its place in the performance fact, with the missing
    value as product key; the number of rows is that of the input. *)
Theorem performance_fact_unmatched_product_is_null (perf pd dd : DataFrame)
    (pids ids : Series) (i : nat) (k : value) :
  performance_ready perf pd →
  getitem perf "product_id" = Ok pids → pids !! i = Some k →
  getitem pd "product_id" = Ok ids → k ∉ ids →
  ∃ fact fkeys, create_performance_fact perf pd dd = Ok fact
    ∧ df_len fact = df_len perf
    ∧ getitem fact "product_key" = Ok fkeys
    ∧ fkeys !! i = Some VNaN.
Proof.
  intros Hready Hpids Hi Hids Hk.
  assert (∃ keys, getitem pd "product_key" = Ok keys) as [keys Hkeys].
  { destruct Hready as (_ & _ & _ & Hpd). apply getitem_present, Hpd. decide_closed. }
  destruct (performance_fact_lookup perf pd dd pids ids keys i k)
    as (fact & fkeys & ? & ? & ? & Hcell); try done.
  exists fact, fkeys. rewrite dict_zip_lookup_None in Hcell by done. done.
Qed.

Lemma performance_fact_unmatched_product_is_null_witness :
  ∃ fact fkeys,
    create_performance_fact sample_performance_unknown sample_product_dim sample_date_dim
    = Ok fact
    ∧ df_len fact = 2
    ∧ getitem fact "product_key" = Ok fkeys
    ∧ fkeys !! 1 = Some VNaN.
Proof.
  apply (performance_fact_unmatched_product_is_null sample_performance_unknown
           sample_product_dim sample_date_dim
           [VStr "P1"; VStr "P9"] [VStr "P1"; VStr "P2"; VStr "P3"] 1 (VStr "P9")).
  - decide_closed.
  - reflexivity.
  - reflexivity.
  - reflexivity.
  - decide_closed.
Defined.

(* ===================================================================== *)
(** ** Rows of a build                                                    *)
(* ===================================================================== *)

Lemma setitem_len (df df' : DataFrame) (c : string) (s : Series) :
  setitem df c s = Ok df' → df_len df' = df_len df.
Proof. unfold setitem. case_decide; [|done]. by intros [= <-]. Qed.

Lemma getitem_list_len (df df' : DataFrame) (cs : list string) :
  getitem_list df cs = Ok df' → df_len df' = df_len df.
Proof. unfold getitem_list. by intros (cols & _ & [= <-])%bind_Ok. Qed.

Ltac trace_rows H :=
  repeat
    (let Hstep := fresh "Hstep" in
     apply bind_Ok in H as (? & Hstep & H);
     first [ apply setitem_len in Hstep
           | apply getitem_list_len in Hstep
           | clear Hstep ]);
  injection H as <-; unfold copy in *; cbn [df_len]; congruence.

(** A fact table that was built has one row per row of its input. *)
Lemma create_sales_fact_rows (sales pd cd sd dd fact : DataFrame) :
  create_sales_fact sales pd cd sd dd = Ok fact → df_len fact = df_len sales.
Proof. unfold create_sales_fact. intros H. trace_rows H. Qed.

Lemma create_performance_fact_rows (perf pd dd fact : DataFrame) :
  create_performance_fact perf pd dd = Ok fact → df_len fact = df_len perf.
Proof. unfold create_performance_fact. intros H. trace_rows H. Qed.

Lemma build_star_schema_rows products customers stores sales perf dd pd cd sd sf pf :
  build_star_schema (products, customers, stores, sales, perf)
  = Ok (dd, pd, cd, sd, sf, pf) →
  df_len dd = 730%nat
  ∧ df_len pd = df_len products ∧ df_len cd = df_len customers
  ∧ df_len sd = df_len stores ∧ df_len sf = df_len sales ∧ df_len pf = df_len perf.
Proof.
  unfold build_star_schema.
  intros (dd' & Hdd & (pd' & Hpd & (cd' & Hcd & (sd' & Hsd & (sf' & Hsf
           & (pf' & Hpf & [= -> -> -> -> -> ->])%bind_Ok)%bind_Ok)%bind_Ok)%bind_Ok)%bind_Ok)%bind_Ok.
  destruct create_date_dimension_Ok as (Hdd' & _ & Hlen & _).
  assert (dd = sample_date_dim) as -> by congruence.
  split; [rewrite Hlen; vm_compute; reflexivity|].
  split; [eapply (with_surrogate_key_columns "product_key"); [|exact Hpd]; decide_closed|].
  split; [eapply (with_surrogate_key_columns "customer_key"); [|exact Hcd]; decide_closed|].
  split; [eapply (with_surrogate_key_columns "store_key"); [|exact Hsd]; decide_closed|].
  split; [exact (create_sales_fact_rows _ _ _ _ _ _ Hsf)
         |exact (create_performance_fact_rows _ _ _ _ Hpf)].
Qed.

(* ===================================================================== *)
(** ** The files of a run                                                 *)
(* ===================================================================== *)

Section files_of_a_run.
Context `{codec : CellCodec}.

(** X7.  [save_star_schema] writes six files and touches no other path.
    Each of the six holds the labels of its table as header and one record
    per row, with one field per label: no column of row labels is written. *)
Theorem save_star_schema_writes_six_files
    (dd pd cd sd sf pf : DataFrame) (dir : string) (fs : filesystem) :
  (∀ p, p ∉ star_schema_files dir →
     save_star_schema (dd, pd, cd, sd, sf, pf) dir fs !! p = fs !! p)
  ∧ Forall2
      (λ name df, ∃ f,
         save_star_schema (dd, pd, cd, sd, sf, pf) dir fs !! (dir +:+ name) = Some f
         ∧ header f = columns df
         ∧ length (records f) = df_len df
         ∧ Forall (λ r, length r = length (columns df)) (records f))
      ["/dim_date.csv"; "/dim_product.csv"; "/dim_customer.csv"; "/dim_store.csv";
       "/fact_sales.csv"; "/fact_performance.csv"]
      [dd; pd; cd; sd; sf; pf].
Proof.
  split.
  - intros p Hp. unfold star_schema_files in Hp.
    rewrite !fmap_cons, !not_elem_of_cons in Hp.
    destruct Hp as (? & ? & ? & ? & ? & ? & _).
    unfold save_star_schema. by rewrite !lookup_to_csv_ne.
  - unfold save_star_schema.
    repeat apply List.Forall2_cons; try apply List.Forall2_nil.
    all: eexists; split;
      [ rewrite ?lookup_to_csv_ne by (by apply path_ne);
        unfold to_csv; rewrite lookup_insert_eq; reflexivity |].
    all: cbn [header records]; split; [reflexivity|].
    all: split; [by rewrite length_fmap, length_seq|].
    all: apply Forall_fmap, Forall_forall; intros i _; cbn.
    all: unfold columns; by rewrite !length_fmap.
Qed.

(** X8.  [main] reads the five processed files in a fixed order and stops
    at the first that [read_csv] cannot read, with the error of that read
    ([FileNotFoundError] for a file that is not there): nothing is built
    and nothing is saved. *)
Theorem main_first_unreadable_input (fs : filesystem)
    (pre post : list string) (p : string) (e : error) :
  processed_files = pre ++ p :: post →
  Forall (λ q, is_Ok (read_csv q fs) = true) pre →
  read_csv p fs = Raise e →
  main fs = Raise e
  ∧ (fs !! p = None → e = FileNotFoundError p).
Proof.
  intros Hfiles Hpre Hp. split.
  - unfold main, load_processed_data.
    unfold processed_files in Hfiles. rewrite !fmap_cons in Hfiles.
    repeat
      (destruct pre as [|q pre];
       [ injection Hfiles as <- _; by rewrite Hp
       | injection Hfiles as <- Hfiles;
         apply Forall_cons in Hpre as [[? Hq]%is_Ok_true Hpre];
         rewrite Hq, bind_Ok_l; clear Hq ]).
    destruct pre; discriminate.
  - intros Hnone. unfold read_csv in Hp. rewrite Hnone in Hp. congruence.
Qed.

(** Six tables with plain labels, saved and loaded from the same directory,
    come back with their shapes. *)
Lemma load_after_save (dd pd cd sd sf pf : DataFrame) (dir : string) (fs : filesystem) :
  Forall (λ df, plain_labels (columns df)) [dd; pd; cd; sd; sf; pf] →
  ∃ dd' pd' cd' sd' sf' pf',
    load_star_schema_data dir (save_star_schema (dd, pd, cd, sd, sf, pf) dir fs)
    = Ok (dd', pd', cd', sd', sf', pf')
    ∧ Forall2 same_shape [dd; pd; cd; sd; sf; pf] [dd'; pd'; cd'; sd'; sf'; pf'].
Proof.
  rewrite !Forall_cons. intros (Hdd & Hpd & Hcd & Hsd & Hsf & Hpf & _).
  unfold save_star_schema, load_star_schema_data.
  set (fs1 := to_csv dd _ false fs). set (fs2 := to_csv pd _ false fs1).
  set (fs3 := to_csv cd _ false fs2). set (fs4 := to_csv sd _ false fs3).
  set (fs5 := to_csv sf _ false fs4).
  destruct (read_csv_to_csv dd (dir +:+ "/dim_date.csv") fs Hdd) as (dd' & Hrd & ?).
  destruct (read_csv_to_csv pd (dir +:+ "/dim_product.csv") fs1 Hpd) as (pd' & Hrp & ?).
  destruct (read_csv_to_csv cd (dir +:+ "/dim_customer.csv") fs2 Hcd) as (cd' & Hrc & ?).
  destruct (read_csv_to_csv sd (dir +:+ "/dim_store.csv") fs3 Hsd) as (sd' & Hrs & ?).
  destruct (read_csv_to_csv sf (dir +:+ "/fact_sales.csv") fs4 Hsf) as (sf' & Hrf & ?).
  destruct (read_csv_to_csv pf (dir +:+ "/fact_performance.csv") fs5 Hpf) as (pf' & Hrq & ?).
  set (fs6 := to_csv pf _ false fs5).
  assert (read_csv (dir +:+ "/dim_date.csv") fs6 = Ok dd') as ->
    by (subst fs6 fs5 fs4 fs3 fs2; by rewrite !read_csv_to_csv_ne by (by apply path_ne)).
  assert (read_csv (dir +:+ "/dim_product.csv") fs6 = Ok pd') as ->
    by (subst fs6 fs5 fs4 fs3; by rewrite !read_csv_to_csv_ne by (by apply path_ne)).
  assert (read_csv (dir +:+ "/dim_customer.csv") fs6 = Ok cd') as ->
    by (subst fs6 fs5 fs4; by rewrite !read_csv_to_csv_ne by (by apply path_ne)).
  assert (read_csv (dir +:+ "/dim_store.csv") fs6 = Ok sd') as ->
    by (subst fs6 fs5; by rewrite !read_csv_to_csv_ne by (by apply path_ne)).
  assert (read_csv (dir +:+ "/fact_sales.csv") fs6 = Ok sf') as ->
    by (subst fs6; by rewrite !read_csv_to_csv_ne by (by apply path_ne)).
  fold fs6 in Hrq. rewrite Hrq. exists dd', pd', cd', sd', sf', pf'.
  split; [reflexivity|].
  repeat (apply List.Forall2_cons; [assumption|]). apply List.Forall2_nil.
Qed.

(** X9.  The dashboard reads where [main] writes.  After a run of [main]
    that succeeded, [load_star_schema_data] on the dashboard's [DATA_DIR]
    finds all six files and returns six tables with the labels of the star
    schema; the entity dimensions and the facts have one row per row of the
    processed table they were built from, the date dimension has 730 rows. *)
Theorem dashboard_loads_what_main_saved (fs out : filesystem) :
  main fs = Ok out →
  ∃ products customers stores sales perf dd pd cd sd sf pf,
    load_processed_data input_dir fs = Ok (products, customers, stores, sales, perf)
    ∧ load_star_schema_data DATA_DIR out = Ok (dd, pd, cd, sd, sf, pf)
    ∧ columns dd = date_dim_columns ∧ df_len dd = 730%nat
    ∧ columns pd = "product_key" :: product_attrs ∧ df_len pd = df_len products
    ∧ columns cd = "customer_key" :: customer_attrs ∧ df_len cd = df_len customers
    ∧ columns sd = "store_key" :: store_attrs ∧ df_len sd = df_len stores
    ∧ columns sf = "sales_key" :: sales_fact_columns ∧ df_len sf = df_len sales
    ∧ columns pf = "performance_key" :: performance_fact_columns
    ∧ df_len pf = df_len perf.
Proof.
  intros (inputs & tables & Hload & Hbuild & ->)%main_Ok.
  destruct inputs as [[[[products customers] stores] sales] perf].
  destruct tables as [[[[[dd pd] cd] sd] sf] pf].
  destruct (build_star_schema_columns _ _ _ _ _ _ _ Hbuild)
    as (Hdd & Hpd & Hcd & Hsd & Hsf & Hpf).
  destruct (build_star_schema_rows _ _ _ _ _ _ _ _ _ _ _ Hbuild)
    as (Ldd & Lpd & Lcd & Lsd & Lsf & Lpf).
  destruct (load_after_save dd pd cd sd sf pf output_dir fs)
    as (dd' & pd' & cd' & sd' & sf' & pf' & Hread & Hshapes).
  { rewrite !Forall_cons, Hdd, Hpd, Hcd, Hsd, Hsf, Hpf.
    repeat split; decide_closed. }
  apply Forall2_cons in Hshapes as [[? ?] Hshapes].
  apply Forall2_cons in Hshapes as [[? ?] Hshapes].
  apply Forall2_cons in Hshapes as [[? ?] Hshapes].
  apply Forall2_cons in Hshapes as [[? ?] Hshapes].
  apply Forall2_cons in Hshapes as [[? ?] Hshapes].
  apply Forall2_cons in Hshapes as [[? ?] _].
  exists products, customers, stores, sales, perf, dd', pd', cd', sd', sf', pf'.
  split; [exact Hload|]. split; [exact Hread|].
  repeat split; congruence.
Qed.

End files_of_a_run.

Lemma main_first_unreadable_input_witness :
  main (codec := sample_codec) sample_files_no_stores
  = Raise (FileNotFoundError "src/data/processed_data/stores_processed.csv")
  ∧ (sample_files_no_stores !! "src/data/processed_data/stores_processed.csv" = None →
     FileNotFoundError "src/data/processed_data/stores_processed.csv"
     = FileNotFoundError "src/data/processed_data/stores_processed.csv").
Proof.
  apply (main_first_unreadable_input (codec := sample_codec) sample_files_no_stores
           ["src/data/processed_data/products_processed.csv";
            "src/data/processed_data/customers_processed.csv"]
           ["src/data/processed_data/sales_processed.csv";
            "src/data/processed_data/performance_processed.csv"]).
  - reflexivity.
  - decide_closed.
  - vm_compute; reflexivity.
Defined.

Lemma dashboard_loads_what_main_saved_witness :
  ∃ products customers stores sales perf dd pd cd sd sf pf,
    load_processed_data (codec := sample_codec) input_dir sample_files
    = Ok (products, customers, stores, sales, perf)
    ∧ load_star_schema_data (codec := sample_codec) DATA_DIR sample_run
      = Ok (dd, pd, cd, sd, sf, pf)
    ∧ columns dd = date_dim_columns ∧ df_len dd = 730%nat
    ∧ columns pd = "product_key" :: product_attrs ∧ df_len pd = df_len products
    ∧ columns cd = "customer_key" :: customer_attrs ∧ df_len cd = df_len customers
    ∧ columns sd = "store_key" :: store_attrs ∧ df_len sd = df_len stores
    ∧ columns sf = "sales_key" :: sales_fact_columns ∧ df_len sf = df_len sales
    ∧ columns pf = "performance_key" :: performance_fact_columns
    ∧ df_len pf = df_len perf.
Proof.
  apply (dashboard_loads_what_main_saved (codec := sample_codec) sample_files sample_run).
  apply files_after_Ok. vm_compute; reflexivity.
Defined.

(* ===================================================================== *)
(** ** Joins of the dashboard                                             *)
(* ===================================================================== *)

Lemma filter_eq_seq (j s n : nat) :
  filter (λ x, x = j) (seq s n) = if decide (s ≤ j < s + n)%nat then [j] else [].
Proof.
  revert s. induction n as [|n IH]; intros s; cbn [seq].
  - rewrite decide_False by lia. done.
  - rewrite filter_cons, IH. repeat case_decide; try lia; by subst.
Qed.

Lemma matching_rows_elem (k : value) (rkeys : Series) (j : nat) :
  j ∈ matching_rows k rkeys ↔ rkeys !! j = Some k.
Proof.
  unfold matching_rows. rewrite list_elem_of_filter, elem_of_seq. split; [tauto|].
  intros Hj. split; [done|]. apply lookup_lt_Some in Hj. lia.
Qed.

Lemma matching_rows_unique (k : value) (rkeys : Series) (j : nat) :
  NoDup rkeys → rkeys !! j = Some k → matching_rows k rkeys = [j].
Proof.
  intros Hnd Hj. unfold matching_rows.
  rewrite (list_filter_iff _ (λ x, x = j)).
  - rewrite filter_eq_seq, decide_True; [done|]. apply lookup_lt_Some in Hj. lia.
  - intros x. split; [|by intros ->]. intros Hx. by eapply NoDup_lookup.
Qed.

Lemma matching_rows_absent (k : value) (rkeys : Series) :
  k ∉ rkeys → matching_rows k rkeys = [].
Proof.
  intros Hk. apply elem_of_nil_inv. intros j Hj%matching_rows_elem.
  apply Hk. by eapply list_elem_of_lookup_2.
Qed.

Lemma concat_imap_singleton {A B} (f : nat → A → B) (l : list A) :
  concat (imap (λ i x, [f i x]) l) = imap f l.
Proof.
  revert f. induction l as [|x l IH]; intros f; cbn; [done|].
  f_equal. apply (IH (f ∘ S)).
Qed.

Lemma imap_index {A B} (g : nat → B) (l : list A) :
  imap (λ i _, g i) l = g <$> seq 0 (length l).
Proof.
  revert g. induction l as [|x l IH]; intros g; cbn; [done|].
  f_equal. rewrite <- fmap_S_seq, <- list_fmap_compose. apply (IH (g ∘ S)).
Qed.

(** With unique keys on the right, a left join pairs every left row with
    one right row at most. *)
Lemma left_join_rows_unique (lkeys rkeys : Series) :
  NoDup rkeys →
  left_join_rows lkeys rkeys
  = imap (λ i k, (i, head (matching_rows k rkeys))) lkeys.
Proof.
  intros Hnd. unfold left_join_rows.
  rewrite <- (concat_imap_singleton (λ i k, (i, head (matching_rows k rkeys)))). f_equal.
  apply imap_ext. intros i k _. cbn.
  destruct (decide (k ∈ rkeys)) as [Hin|Hnot].
  - apply list_elem_of_lookup in Hin as [j Hj].
    by rewrite (matching_rows_unique k rkeys j).
  - by rewrite matching_rows_absent.
Qed.

Lemma take_rows_all (s : Series) :
  take_rows s (Some <$> seq 0 (length s)) = s.
Proof.
  unfold take_rows. rewrite <- list_fmap_compose.
  apply list_eq. intros i. rewrite list_lookup_fmap.
  destruct (s !! i) as [v|] eqn:Hi.
  - apply lookup_lt_Some in Hi as Hlt. rewrite lookup_seq_lt by done. cbn.
    by rewrite Hi.
  - apply lookup_ge_None in Hi. by rewrite lookup_seq_ge by lia.
Qed.

Lemma assoc_Some_elem_of (c : string) (s : Series) (cols : list (string * Series)) :
  assoc c cols = Some s → (c, s) ∈ cols.
Proof.
  induction cols as [|[c' s'] cols IH]; cbn; [done|].
  case_decide as Hc; [intros [= ->]; subst; by left | intros ?; right; auto].
Qed.

Lemma assoc_NoDup_elem (c : string) (s : Series) (cols : list (string * Series)) :
  NoDup cols.*1 → (c, s) ∈ cols → assoc c cols = Some s.
Proof.
  induction cols as [|[c' s'] cols IH]; cbn; [by intros _ ?%elem_of_nil|].
  intros [Hnot Hnd]%NoDup_cons [[= -> ->]|Hin]%elem_of_cons.
  - by rewrite decide_True.
  - rewrite decide_False; [auto|]. intros ->. apply Hnot.
    by apply (list_elem_of_fmap_2 fst) in Hin.
Qed.

Lemma filter_fst_fmap {B} (P : string → Prop) `{∀ c, Decision (P c)}
    (cols : list (string * B)) :
  (filter (λ c, P c.1) cols).*1 = filter P cols.*1.
Proof.
  induction cols as [|[c s] cols IH]; [done|].
  rewrite fmap_cons, !filter_cons. cbn [fst].
  case_decide; rewrite ?fmap_cons; by rewrite IH.
Qed.

Lemma merge_left_labels (left right : DataFrame) (on : string) (ls rs : list (option nat)) :
  let ov := overlap (columns left) (columns right) on in
  (((λ c, (suffixed ov "_x" c.1, take_rows c.2 ls)) <$> df_cols left)
   ++ ((λ c, (suffixed ov "_y" c.1, take_rows c.2 rs))
         <$> filter (λ c, c.1 ≠ on) (df_cols right))).*1
  = merge_labels (columns left) (columns right) on.
Proof.
  intros ov. unfold merge_labels, columns. fold ov.
  rewrite fmap_app, <- !list_fmap_compose.
  rewrite <- (filter_fst_fmap (λ c, c ≠ on)), <- !list_fmap_compose. done.
Qed.

Lemma length_take_rows (s : Series) (rows : list (option nat)) :
  length (take_rows s rows) = length rows.
Proof. unfold take_rows. by rewrite length_fmap. Qed.

Lemma getitem_column (df : DataFrame) (c : string) :
  c ∈ columns df → getitem df c = Ok (column df c).
Proof.
  intros [s Hs]%assoc_elem_of. unfold getitem, column. by rewrite Hs.
Qed.

Lemma merge_left_unique (left right : DataFrame) (on : string) (lkeys rkeys : Series)
    (ov labels : list string) :
  wf_frame left → wf_frame right →
  getitem left on = Ok lkeys → getitem right on = Ok rkeys →
  forallb join_key lkeys = true → forallb join_key rkeys = true →
  NoDup rkeys →
  overlap (columns left) (columns right) on = ov →
  merge_labels (columns left) (columns right) on = labels →
  NoDup labels →
  ∃ out, merge_left left right on = Ok out
    ∧ wf_frame out
    ∧ df_len out = df_len left
    ∧ columns out = labels
    ∧ (∀ c s, getitem left c = Ok s → getitem out (suffixed ov "_x" c) = Ok s)
    ∧ (∀ c s, c ≠ on → getitem right c = Ok s →
         getitem out (suffixed ov "_y" c) = Ok (joined lkeys rkeys s)).
Proof.
  intros Hwl Hwr Hl Hr Hlk Hrk Hnd <- <- Hlabels.
  pose proof (getitem_length _ _ _ Hwl Hl) as Hlen.
  unfold merge_left. rewrite Hr, bind_Ok_l, Hl, bind_Ok_l.
  rewrite forallb_app, Hlk, Hrk. cbn [andb].
  rewrite (left_join_rows_unique lkeys rkeys Hnd).
  rewrite fmap_imap, (imap_index (λ i, i)), list_fmap_id.
  rewrite fmap_imap. cbn [compose snd].
  rewrite (imap_const (λ k, head (matching_rows k rkeys))).
  rewrite length_imap.
  set (ov := overlap (columns left) (columns right) on).
  set (lcols := (λ c, _) <$> df_cols left).
  set (rcols := (λ c, _) <$> filter _ (df_cols right)).
  assert ((lcols ++ rcols).*1 = merge_labels (columns left) (columns right) on) as Hcols
    by apply merge_left_labels.
  rewrite decide_True by (by rewrite Hcols).
  eexists. split; [reflexivity|].
  assert (NoDup (lcols ++ rcols).*1) as Hnd' by (by rewrite Hcols).
  split; [|split; [cbn; lia|split; [exact Hcols|split]]].
  - split; [|exact Hnd']. cbn [df_len df_cols].
    apply Forall_app. split; apply Forall_fmap, Forall_forall; intros [c s] _; cbn;
      by rewrite length_take_rows, length_fmap, ?length_seq.
  - intros c s Hs%getitem_assoc%assoc_Some_elem_of.
    apply getitem_assoc. cbn [df_cols].
    apply assoc_NoDup_elem; [done|]. apply elem_of_app. left.
    apply list_elem_of_fmap. exists (c, s). split; [|done]. cbn. f_equal.
    destruct Hwl as [Hlens _]. rewrite Forall_forall in Hlens.
    specialize (Hlens _ Hs). cbn in Hlens.
    rewrite Hlen, <- Hlens. symmetry. apply take_rows_all.
  - intros c s Hc Hs%getitem_assoc%assoc_Some_elem_of.
    apply getitem_assoc. cbn [df_cols].
    apply assoc_NoDup_elem; [done|]. apply elem_of_app. right.
    apply list_elem_of_fmap. exists (c, s). split; [done|].
    apply list_elem_of_filter. done.
Qed.

Lemma length_joined (lkeys rkeys s : Series) :
  length (joined lkeys rkeys s) = length lkeys.
Proof. unfold joined. by rewrite length_take_rows, length_fmap. Qed.

Lemma joined_lookup_match (lkeys rkeys s : Series) (i j : nat) (k : value) :
  NoDup rkeys → length s = length rkeys →
  lkeys !! i = Some k → rkeys !! j = Some k →
  joined lkeys rkeys s !! i = s !! j.
Proof.
  intros Hnd Hlen Hi Hj. unfold joined, take_rows.
  rewrite !list_lookup_fmap, Hi. cbn. rewrite (matching_rows_unique k rkeys j) by done.
  cbn. destruct (s !! j) eqn:Hs; [done|].
  apply lookup_ge_None in Hs. apply lookup_lt_Some in Hj. lia.
Qed.

Lemma joined_lookup_absent (lkeys rkeys s : Series) (i : nat) (k : value) :
  lkeys !! i = Some k → k ∉ rkeys → joined lkeys rkeys s !! i = Some VNaN.
Proof.
  intros Hi Hk. unfold joined, take_rows.
  rewrite !list_lookup_fmap, Hi. cbn. by rewrite matching_rows_absent.
Qed.

Lemma joined_cells (P : value → Prop) (lkeys rkeys s : Series) :
  Forall P s → Forall (λ v, v = VNaN ∨ P v) (joined lkeys rkeys s).
Proof.
  intros Hs. unfold joined, take_rows. rewrite <- list_fmap_compose.
  apply Forall_fmap, Forall_forall. intros k _. cbn.
  destruct (head (matching_rows k rkeys)) as [j|]; cbn; [|by left].
  destruct (s !! j) as [v|] eqn:Hj; cbn; [|by left].
  right. rewrite Forall_forall in Hs. apply Hs. by eapply list_elem_of_lookup_2.
Qed.

Lemma suffixed_nil (suffix c : string) : suffixed [] suffix c = c.
Proof. unfold suffixed. rewrite decide_False; [done|]. apply not_elem_of_nil. Qed.

Lemma suffixed_other (ov : list string) (suffix c : string) :
  c ∉ ov → suffixed ov suffix c = c.
Proof. intros Hc. unfold suffixed. by rewrite decide_False. Qed.

Lemma getitem_Ok_elem_of (df : DataFrame) (c : string) (s : Series) :
  getitem df c = Ok s → c ∈ columns df.
Proof. intros Hs%getitem_assoc. apply assoc_elem_of. by rewrite Hs. Qed.

(** A join without shared labels, the key apart: every column keeps its
    label. *)
Lemma merge_left_disjoint (left right : DataFrame) (on : string) (lkeys rkeys : Series)
    (labels : list string) :
  wf_frame left → wf_frame right →
  getitem left on = Ok lkeys → getitem right on = Ok rkeys →
  forallb join_key lkeys = true → forallb join_key rkeys = true →
  NoDup rkeys →
  overlap (columns left) (columns right) on = [] →
  merge_labels (columns left) (columns right) on = labels →
  NoDup labels →
  ∃ out, merge_left left right on = Ok out
    ∧ wf_frame out
    ∧ df_len out = df_len left
    ∧ columns out = labels
    ∧ (∀ c s, getitem left c = Ok s → getitem out c = Ok s)
    ∧ (∀ c s, c ≠ on → getitem right c = Ok s →
         getitem out c = Ok (joined lkeys rkeys s)).
Proof.
  intros Hwl Hwr Hl Hr Hlk Hrk Hnd Hov Hlabels Hnd'.
  destruct (merge_left_unique left right on lkeys rkeys [] labels)
    as (out & Hout & Hwf & Hlen & Hcols & Hleft & Hright); try done.
  exists out. do 4 (split; [done|]). split.
  - intros c s Hs. rewrite <- (suffixed_nil "_x" c). by apply Hleft.
  - intros c s Hc Hs. rewrite <- (suffixed_nil "_y" c). by apply Hright.
Qed.

Ltac closed_labels H1 H2 := rewrite H1, H2; vm_compute; reflexivity.

(** The four joins of the sales fact. *)
Lemma sales_joins (dd pd cd sd sf pf : DataFrame) :
  star_schema_tables dd pd cd sd sf pf →
  ∃ s1 s2 s3 sales,
    merge_left sf dd "date_key" = Ok s1
    ∧ merge_left s1 pd "product_key" = Ok s2
    ∧ merge_left s2 cd "customer_key" = Ok s3
    ∧ merge_left s3 sd "store_key" = Ok sales
    ∧ wf_frame sales
    ∧ df_len sales = df_len sf
    ∧ columns sales = sales_data_columns
    ∧ (∀ c s, getitem sf c = Ok s → getitem sales c = Ok s)
    ∧ (∀ c s, c ≠ "date_key" → getitem dd c = Ok s →
         getitem sales c
         = Ok (joined (column sf "date_key") (column dd "date_key") s))
    ∧ (∀ c s, c ≠ "product_key" → getitem pd c = Ok s →
         getitem sales c
         = Ok (joined (column sf "product_key") (column pd "product_key") s))
    ∧ (∀ c s, c ≠ "customer_key" → getitem cd c = Ok s →
         getitem sales (suffixed ["country"] "_x" c)
         = Ok (joined (column sf "customer_key") (column cd "customer_key") s))
    ∧ (∀ c s, c ≠ "store_key" → getitem sd c = Ok s →
         getitem sales (suffixed ["country"] "_y" c)
         = Ok (joined (column sf "store_key") (column sd "store_key") s)).
Proof.
  intros (Hwf & Hdd & Hpd & Hcd & Hsd & Hsf & Hpf & Hkeys & Huniq & _).
  rewrite !Forall_cons in Hwf. rewrite !Forall_cons in Hkeys.
  rewrite !Forall_cons in Huniq. cbn [fst snd] in Hkeys, Huniq.
  destruct Hwf as (Wdd & Wpd & Wcd & Wsd & Wsf & Wpf & _).
  destruct Hkeys as (Kdd & Kpd & Kcd & Ksd & Kf1 & Kf2 & Kf3 & Kf4 & _).
  destruct Huniq as (Udd & Upd & Ucd & Usd & _).
  destruct (merge_left_disjoint sf dd "date_key" (column sf "date_key")
              (column dd "date_key") (merge_labels (columns sf) (columns dd) "date_key"))
    as (s1 & H1 & W1 & L1 & C1 & Left1 & Right1); try done.
  { apply getitem_column. rewrite Hsf. decide_closed. }
  { apply getitem_column. rewrite Hdd. decide_closed. }
  { closed_labels Hsf Hdd. }
  { rewrite Hsf, Hdd. decide_closed. }
  rewrite Hsf, Hdd in C1.
  destruct (merge_left_disjoint s1 pd "product_key" (column sf "product_key")
              (column pd "product_key") (merge_labels (columns s1) (columns pd) "product_key"))
    as (s2 & H2 & W2 & L2 & C2 & Left2 & Right2); try done.
  { apply Left1, getitem_column. rewrite Hsf. decide_closed. }
  { apply getitem_column. rewrite Hpd. decide_closed. }
  { closed_labels C1 Hpd. }
  { rewrite C1, Hpd. decide_closed. }
  rewrite C1, Hpd in C2.
  destruct (merge_left_disjoint s2 cd "customer_key" (column sf "customer_key")
              (column cd "customer_key")
              (merge_labels (columns s2) (columns cd) "customer_key"))
    as (s3 & H3 & W3 & L3 & C3 & Left3 & Right3); try done.
  { apply Left2, Left1, getitem_column. rewrite Hsf. decide_closed. }
  { apply getitem_column. rewrite Hcd. decide_closed. }
  { closed_labels C2 Hcd. }
  { rewrite C2, Hcd. decide_closed. }
  rewrite C2, Hcd in C3.
  destruct (merge_left_unique s3 sd "store_key" (column sf "store_key")
              (column sd "store_key") ["country"]
              (merge_labels (columns s3) (columns sd) "store_key"))
    as (sales & H4 & W4 & L4 & C4 & Left4 & Right4); try done.
  { apply Left3, Left2, Left1, getitem_column. rewrite Hsf. decide_closed. }
  { apply getitem_column. rewrite Hsd. decide_closed. }
  { closed_labels C3 Hsd. }
  { rewrite C3, Hsd. decide_closed. }
  rewrite C3, Hsd in C4.
  exists s1, s2, s3, sales. do 4 (split; [done|]). split; [done|].
  split; [congruence|]. split; [rewrite C4; vm_compute; reflexivity|].
  assert (∀ df cols c s, columns df = cols → "country" ∉ cols → getitem df c = Ok s →
            suffixed ["country"] "_x" c = c) as Hplain.
  { intros df cols c s Hcols Hnot Hs. apply suffixed_other.
    intros ->%list_elem_of_singleton. apply Hnot. rewrite <- Hcols.
    by eapply getitem_Ok_elem_of. }
  split; [|split; [|split; [|split]]].
  - intros c s Hs. rewrite <- (Hplain sf _ c s Hsf); [|decide_closed|done].
    by apply Left4, Left3, Left2, Left1.
  - intros c s Hc Hs. rewrite <- (Hplain dd _ c s Hdd); [|decide_closed|done].
    by apply Left4, Left3, Left2, Right1.
  - intros c s Hc Hs. rewrite <- (Hplain pd _ c s Hpd); [|decide_closed|done].
    by apply Left4, Left3, Right2.
  - intros c s Hc Hs. by apply Left4, Right3.
  - intros c s Hc Hs. by apply Right4.
Qed.

(** The two joins of the performance fact. *)
Lemma performance_joins (dd pd cd sd sf pf : DataFrame) :
  star_schema_tables dd pd cd sd sf pf →
  ∃ p1 perf,
    merge_left pf dd "date_key" = Ok p1
    ∧ merge_left p1 pd "product_key" = Ok perf
    ∧ wf_frame perf
    ∧ df_len perf = df_len pf
    ∧ columns perf = performance_data_columns
    ∧ (∀ c s, getitem pf c = Ok s → getitem perf c = Ok s)
    ∧ (∀ c s, c ≠ "date_key" → getitem dd c = Ok s →
         getitem perf c
         = Ok (joined (column pf "date_key") (column dd "date_key") s))
    ∧ (∀ c s, c ≠ "product_key" → getitem pd c = Ok s →
         getitem perf c
         = Ok (joined (column pf "product_key") (column pd "product_key") s)).
Proof.
  intros (Hwf & Hdd & Hpd & Hcd & Hsd & Hsf & Hpf & Hkeys & Huniq & _).
  rewrite !Forall_cons in Hwf. rewrite !Forall_cons in Hkeys.
  rewrite !Forall_cons in Huniq. cbn [fst snd] in Hkeys, Huniq.
  destruct Hwf as (Wdd & Wpd & Wcd & Wsd & Wsf & Wpf & _).
  destruct Hkeys as (Kdd & Kpd & _ & _ & _ & _ & _ & _ & Kf1 & Kf2 & _).
  destruct Huniq as (Udd & Upd & _).
  destruct (merge_left_disjoint pf dd "date_key" (column pf "date_key")
              (column dd "date_key") (merge_labels (columns pf) (columns dd) "date_key"))
    as (p1 & H1 & W1 & L1 & C1 & Left1 & Right1); try done.
  { apply getitem_column. rewrite Hpf. decide_closed. }
  { apply getitem_column. rewrite Hdd. decide_closed. }
  { closed_labels Hpf Hdd. }
  { rewrite Hpf, Hdd. decide_closed. }
  rewrite Hpf, Hdd in C1.
  destruct (merge_left_disjoint p1 pd "product_key" (column pf "product_key")
              (column pd "product_key") (merge_labels (columns p1) (columns pd) "product_key"))
    as (perf & H2 & W2 & L2 & C2 & Left2 & Right2); try done.
  { apply Left1, getitem_column. rewrite Hpf. decide_closed. }
  { apply getitem_column. rewrite Hpd. decide_closed. }
  { closed_labels C1 Hpd. }
  { rewrite C1, Hpd. decide_closed. }
  rewrite C1, Hpd in C2.
  exists p1, perf. do 2 (split; [done|]). split; [done|].
  split; [congruence|]. split; [rewrite C2; vm_compute; reflexivity|].
  split; [|split].
  - intros c s Hs. by apply Left2, Left1.
  - intros c s Hc Hs. by apply Left2, Right1.
  - intros c s Hc Hs. by apply Right2.
Qed.

Lemma replace_col_present (c : string) (s : Series) (cols : list (string * Series)) :
  c ∈ cols.*1 → (replace_col c s cols).*1 = cols.*1.
Proof.
  induction cols as [|[c' s'] cols IH]; cbn; [by intros ?%elem_of_nil|].
  intros Hc. destruct (decide (c' = c)) as [->|Hne]; cbn; [done|].
  f_equal. apply IH. apply elem_of_cons in Hc as [?|?]; congruence || done.
Qed.

(** [df['date'] = pd.to_datetime(df['date'])] on a column that holds days
    and missing values. *)
Lemma convert_date_column (df : DataFrame) (raw : Series) :
  wf_frame df → getitem df "date" = Ok raw →
  Forall (λ v, v = VNaN ∨ is_Some (cell_date v)) raw →
  ∃ stamps df',
    to_datetime raw = Ok stamps
    ∧ setitem df "date" stamps = Ok df'
    ∧ wf_frame df' ∧ df_len df' = df_len df ∧ columns df' = columns df
    ∧ getitem df' "date" = Ok stamps
    ∧ (∀ c, c ≠ "date" → getitem df' c = getitem df c)
    ∧ Forall2 (λ v t, to_datetime_cell v = Ok t) raw stamps.
Proof.
  intros Hwf Hraw Hcells.
  destruct (to_datetime_or_missing raw Hcells) as (stamps & _ & Hstamps & Hlen & _).
  exists stamps. eexists. split; [done|].
  pose proof (getitem_length _ _ _ Hwf Hraw) as Hl.
  split; [apply setitem_Ok; congruence|].
  split; [apply replace_col_wf; [by rewrite frame_eta | congruence]|].
  split; [done|]. split.
  { unfold columns. cbn [df_cols]. apply replace_col_present.
    by eapply getitem_Ok_elem_of. }
  split; [apply getitem_assoc, assoc_replace_eq|].
  split; [|by apply traverse_Forall2].
  intros c Hc. unfold getitem. cbn [df_cols]. by rewrite assoc_replace_ne.
Qed.

Lemma prepare_dashboard_data_steps
    (dd pd cd sd sf pf s1 s2 s3 s4 p1 p2 sales perf : DataFrame)
    (sraw sstamps praw pstamps : Series) :
  merge_left sf dd "date_key" = Ok s1 →
  merge_left s1 pd "product_key" = Ok s2 →
  merge_left s2 cd "customer_key" = Ok s3 →
  merge_left s3 sd "store_key" = Ok s4 →
  merge_left pf dd "date_key" = Ok p1 →
  merge_left p1 pd "product_key" = Ok p2 →
  getitem s4 "date" = Ok sraw → to_datetime sraw = Ok sstamps →
  setitem s4 "date" sstamps = Ok sales →
  getitem p2 "date" = Ok praw → to_datetime praw = Ok pstamps →
  setitem p2 "date" pstamps = Ok perf →
  prepare_dashboard_data dd pd cd sd sf pf = Ok (sales, perf).
Proof.
  intros H1 H2 H3 H4 H5 H6 H7 H8 H9 H10 H11 H12. unfold prepare_dashboard_data.
  rewrite H1, bind_Ok_l, H2, bind_Ok_l, H3, bind_Ok_l, H4, bind_Ok_l.
  rewrite H5, bind_Ok_l, H6, bind_Ok_l, H7, bind_Ok_l, H8, bind_Ok_l.
  rewrite H9, bind_Ok_l, H10, bind_Ok_l, H11, bind_Ok_l, H12, bind_Ok_l. done.
Qed.

Lemma star_schema_dates (dd pd cd sd sf pf : DataFrame) (lkeys : Series) :
  star_schema_tables dd pd cd sd sf pf →
  getitem dd "date" = Ok (column dd "date")
  ∧ Forall (λ v, v = VNaN ∨ is_Some (cell_date v))
      (joined lkeys (column dd "date_key") (column dd "date")).
Proof.
  intros (_ & Hdd & _ & _ & _ & _ & _ & _ & _ & Hdates). split.
  - apply getitem_column. rewrite Hdd. decide_closed.
  - by apply joined_cells.
Qed.

(** X12.  On six tables with the labels of the star schema, integer keys
    and no dimension key twice, [prepare_dashboard_data] returns: the
    sales data have one row per row of the sales fact and 48 columns, with
    the customer's country under [country_x] and the store's under
    [country_y]; the performance data have one row per row of the
    performance fact and 29 columns. *)
Theorem prepare_dashboard_data_shape (dd pd cd sd sf pf : DataFrame) :
  star_schema_tables dd pd cd sd sf pf →
  ∃ sales perf,
    prepare_dashboard_data dd pd cd sd sf pf = Ok (sales, perf)
    ∧ wf_frame sales ∧ df_len sales = df_len sf
    ∧ columns sales = sales_data_columns
    ∧ wf_frame perf ∧ df_len perf = df_len pf
    ∧ columns perf = performance_data_columns.
Proof.
  intros Hstar.
  destruct (sales_joins _ _ _ _ _ _ Hstar)
    as (s1 & s2 & s3 & s4 & H1 & H2 & H3 & H4 & Ws & Ls & Cs & _ & Rdd & _).
  destruct (performance_joins _ _ _ _ _ _ Hstar)
    as (p1 & p2 & H5 & H6 & Wp & Lp & Cp & _ & Rdd' & _).
  destruct (star_schema_dates _ _ _ _ _ _ (column sf "date_key") Hstar) as [Hdate Hs].
  destruct (star_schema_dates _ _ _ _ _ _ (column pf "date_key") Hstar) as [_ Hp].
  destruct (convert_date_column s4 _ Ws (Rdd "date" _ ltac:(done) Hdate) Hs)
    as (sstamps & sales & Hs1 & Hs2 & Ws' & Ls' & Cs' & _).
  destruct (convert_date_column p2 _ Wp (Rdd' "date" _ ltac:(done) Hdate) Hp)
    as (pstamps & perf & Hp1 & Hp2 & Wp' & Lp' & Cp' & _).
  exists sales, perf.
  split.
  { exact (prepare_dashboard_data_steps dd pd cd sd sf pf s1 s2 s3 s4 p1 p2 sales perf
             _ sstamps _ pstamps H1 H2 H3 H4 H5 H6
             (Rdd "date" _ ltac:(done) Hdate) Hs1 Hs2
             (Rdd' "date" _ ltac:(done) Hdate) Hp1 Hp2). }
  split; [exact Ws'|]. split; [congruence|]. split; [congruence|].
  split; [exact Wp'|]. split; congruence.
Qed.

Lemma joined_rows (lkeys rkeys s : Series) :
  NoDup rkeys → length s = length rkeys →
  ∀ i k, lkeys !! i = Some k →
    ((k ∉ rkeys) ∧ joined lkeys rkeys s !! i = Some VNaN)
    ∨ (∃ j, rkeys !! j = Some k ∧ joined lkeys rkeys s !! i = s !! j).
Proof.
  intros Hnd Hlen i k Hi. destruct (decide (k ∈ rkeys)) as [Hin|Hnot].
  - right. apply list_elem_of_lookup in Hin as [j Hj]. exists j.
    split; [done|]. by eapply joined_lookup_match.
  - left. split; [done|]. by eapply joined_lookup_absent.
Qed.

Lemma length_concat_imap_ge {A B} (f : nat → A → list B) (l : list A) :
  (∀ i x, l !! i = Some x → 1 ≤ length (f i x))%nat →
  (length l ≤ length (concat (imap f l)))%nat.
Proof.
  revert f. induction l as [|x l IH]; intros f Hf; cbn; [lia|].
  rewrite length_app. specialize (Hf 0%nat x eq_refl) as H0.
  specialize (IH (f ∘ S) (λ i y Hy, Hf (S i) y Hy)). lia.
Qed.

Lemma length_concat_imap_gt {A B} (f : nat → A → list B) (l : list A) (i : nat) (x : A) :
  (∀ i x, l !! i = Some x → 1 ≤ length (f i x))%nat →
  l !! i = Some x → (2 ≤ length (f i x))%nat →
  (length l < length (concat (imap f l)))%nat.
Proof.
  revert f i. induction l as [|y l IH]; intros f i Hf Hi Hx; [done|].
  cbn. rewrite length_app. destruct i as [|i].
  - injection Hi as ->.
    pose proof (length_concat_imap_ge (f ∘ S) l (λ i y Hy, Hf (S i) y Hy)). lia.
  - pose proof (Hf 0%nat y eq_refl).
    pose proof (IH (f ∘ S) i (λ i y Hy, Hf (S i) y Hy) Hi Hx). lia.
Qed.

Lemma merge_left_Ok (left right out : DataFrame) (on : string) :
  merge_left left right on = Ok out →
  ∃ lkeys rkeys, getitem left on = Ok lkeys ∧ getitem right on = Ok rkeys
    ∧ df_len out = length (left_join_rows lkeys rkeys).
Proof.
  unfold merge_left. intros (rkeys & Hr & (lkeys & Hl & Hout)%bind_Ok)%bind_Ok.
  exists lkeys, rkeys. do 2 (split; [done|]).
  destruct (forallb join_key (lkeys ++ rkeys)); [|done].
  case_decide; [|done]. by injection Hout as <-.
Qed.

(** X10.  A left join never drops a row of the left table: the result has
    at least its rows, exactly its rows when no key comes twice on the
    right, and more when a key of the left comes twice on the right. *)
Theorem merge_left_row_count (left right out : DataFrame) (on : string) :
  wf_frame left → merge_left left right on = Ok out →
  ∃ lkeys rkeys, getitem left on = Ok lkeys ∧ getitem right on = Ok rkeys
    ∧ (df_len left ≤ df_len out)%nat
    ∧ (NoDup rkeys → df_len out = df_len left)
    ∧ (∀ i j1 j2 k, lkeys !! i = Some k → rkeys !! j1 = Some k → rkeys !! j2 = Some k →
         j1 ≠ j2 → (df_len left < df_len out)%nat).
Proof.
  intros Hwf (lkeys & rkeys & Hl & Hr & Hlen)%merge_left_Ok.
  exists lkeys, rkeys. do 2 (split; [done|]).
  pose proof (getitem_length _ _ _ Hwf Hl) as Hll. rewrite Hlen, <- Hll.
  assert (∀ (i : nat) k, lkeys !! i = Some k →
            (1 ≤ length (match matching_rows k rkeys with
                         | [] => [(i, @None nat)]
                         | js => (λ j, (i, Some j)) <$> js
                         end))%nat) as Hone.
  { intros i k _. destruct (matching_rows k rkeys); cbn; lia. }
  split; [by apply length_concat_imap_ge|]. split.
  - intros Hnd. by rewrite left_join_rows_unique, length_imap.
  - intros i j1 j2 k Hi Hj1 Hj2 Hne.
    apply (length_concat_imap_gt _ lkeys i k Hone Hi).
    apply matching_rows_elem in Hj1, Hj2.
    destruct (matching_rows k rkeys) as [|a [|b js]]; cbn.
    + by apply elem_of_nil in Hj1.
    + apply list_elem_of_singleton in Hj1, Hj2. congruence.
    + lia.
Qed.

(** X11.  A left join on a key that is unique on the right keeps every
    left column cell for cell and adds the right columns, a label that both
    tables carry taking [_x] on the left and [_y] on the right.  Row by
    row, an added cell is the cell of the right row with the same key, or
    the missing value when no right row has this key. *)
Theorem merge_left_unique_keys (left right : DataFrame) (on : string)
    (lkeys rkeys : Series) :
  wf_frame left → wf_frame right →
  getitem left on = Ok lkeys → getitem right on = Ok rkeys →
  forallb join_key lkeys = true → forallb join_key rkeys = true →
  NoDup rkeys →
  NoDup (merge_labels (columns left) (columns right) on) →
  ∃ out, merge_left left right on = Ok out
    ∧ columns out = merge_labels (columns left) (columns right) on
    ∧ (∀ c s, getitem left c = Ok s →
         getitem out (suffixed (overlap (columns left) (columns right) on) "_x" c) = Ok s)
    ∧ (∀ c s, c ≠ on → getitem right c = Ok s →
         ∃ s', getitem out (suffixed (overlap (columns left) (columns right) on) "_y" c)
               = Ok s'
           ∧ length s' = df_len left
           ∧ ∀ i k, lkeys !! i = Some k →
               ((k ∉ rkeys) ∧ s' !! i = Some VNaN)
               ∨ (∃ j, rkeys !! j = Some k ∧ s' !! i = s !! j)).
Proof.
  intros Hwl Hwr Hl Hr Hlk Hrk Hnd Hlabels.
  destruct (merge_left_unique left right on lkeys rkeys _ _ Hwl Hwr Hl Hr Hlk Hrk Hnd
              eq_refl eq_refl Hlabels)
    as (out & Hout & _ & _ & Hcols & Hleft & Hright).
  exists out. do 3 (split; [done|]).
  intros c s Hc Hs. exists (joined lkeys rkeys s). split; [by apply Hright|].
  split; [rewrite length_joined; by eapply getitem_length|].
  apply joined_rows; [done|].
  rewrite (getitem_length _ _ _ Hwr Hs). symmetry. by eapply getitem_length.
Qed.

(** What the dashboard data hold for the sales. *)
Lemma prepare_dashboard_data_sales (dd pd cd sd sf pf : DataFrame) :
  star_schema_tables dd pd cd sd sf pf →
  ∃ sales perf stamps,
    prepare_dashboard_data dd pd cd sd sf pf = Ok (sales, perf)
    ∧ getitem sales "date" = Ok stamps
    ∧ Forall2 (λ v t, to_datetime_cell v = Ok t)
        (joined (column sf "date_key") (column dd "date_key") (column dd "date")) stamps
    ∧ (∀ c s, getitem sf c = Ok s → getitem sales c = Ok s)
    ∧ (∀ key dim sfx c s, (key, dim, sfx) ∈ dashboard_joins dd pd cd sd →
         c ≠ key → c ≠ "date" → getitem dim c = Ok s →
         getitem sales (suffixed ["country"] sfx c)
         = Ok (joined (column sf key) (column dim key) s)).
Proof.
  intros Hstar.
  destruct (sales_joins _ _ _ _ _ _ Hstar)
    as (s1 & s2 & s3 & s4 & H1 & H2 & H3 & H4 & Ws & Ls & Cs & Lsf & Rdd & Rpd & Rcd & Rsd).
  destruct (performance_joins _ _ _ _ _ _ Hstar)
    as (p1 & p2 & H5 & H6 & Wp & Lp & Cp & _ & Rdd' & _).
  destruct (star_schema_dates _ _ _ _ _ _ (column sf "date_key") Hstar) as [Hdate Hs].
  destruct (star_schema_dates _ _ _ _ _ _ (column pf "date_key") Hstar) as [_ Hp].
  destruct (convert_date_column s4 _ Ws (Rdd "date" _ ltac:(done) Hdate) Hs)
    as (sstamps & sales & Hs1 & Hs2 & Ws' & Ls' & Cs' & Gdate & Gother & Hcells).
  destruct (convert_date_column p2 _ Wp (Rdd' "date" _ ltac:(done) Hdate) Hp)
    as (pstamps & perf & Hp1 & Hp2 & _).
  destruct Hstar as (_ & Hdd & Hpd & Hcd & Hsd & Hsf & _).
  exists sales, perf, sstamps. split.
  { exact (prepare_dashboard_data_steps dd pd cd sd sf pf s1 s2 s3 s4 p1 p2 sales perf
             _ sstamps _ pstamps H1 H2 H3 H4 H5 H6
             (Rdd "date" _ ltac:(done) Hdate) Hs1 Hs2
             (Rdd' "date" _ ltac:(done) Hdate) Hp1 Hp2). }
  do 2 (split; [done|]). split.
  - intros c s Hs'. rewrite Gother; [by apply Lsf|].
    intros ->. apply getitem_Ok_elem_of in Hs'. rewrite Hsf in Hs'.
    revert Hs'. decide_closed.
  - assert (∀ df cols sfx c s, columns df = cols →
              Forall (λ c, suffixed ["country"] sfx c ≠ "date" ∨ c = "date") cols →
              c ≠ "date" → getitem df c = Ok s →
              suffixed ["country"] sfx c ≠ "date") as Hlabel.
    { intros df cols sfx c s Hcols Hall Hc Hs'. rewrite Forall_forall in Hall.
      destruct (Hall c); [|done|done]. rewrite <- Hcols. by eapply getitem_Ok_elem_of. }
    assert (∀ df cols c s, columns df = cols → "country" ∉ cols → getitem df c = Ok s →
              suffixed ["country"] "_x" c = c) as Hplain.
    { intros df cols c s Hcols Hnot Hs'. apply suffixed_other.
      intros ->%list_elem_of_singleton. apply Hnot. rewrite <- Hcols.
      by eapply getitem_Ok_elem_of. }
    intros key dim sfx c s Hjoin Hkey Hc Hs'. unfold dashboard_joins in Hjoin.
    rewrite !elem_of_cons, elem_of_nil in Hjoin.
    destruct Hjoin as [[= -> -> ->]|[[= -> -> ->]|[[= -> -> ->]|[[= -> -> ->]|[]]]]].
    + rewrite Gother; [|apply (Hlabel dd _ _ c s Hdd); [decide_closed|done|done]].
      rewrite (Hplain dd _ c s Hdd); [by apply Rdd|decide_closed|done].
    + rewrite Gother; [|apply (Hlabel pd _ _ c s Hpd); [decide_closed|done|done]].
      rewrite (Hplain pd _ c s Hpd); [by apply Rpd|decide_closed|done].
    + rewrite Gother; [|apply (Hlabel cd _ _ c s Hcd); [decide_closed|done|done]].
      by apply Rcd.
    + rewrite Gother; [|apply (Hlabel sd _ _ c s Hsd); [decide_closed|done|done]].
      by apply Rsd.
Qed.

Lemma dashboard_join_tables (dd pd cd sd sf pf : DataFrame) key dim sfx :
  star_schema_tables dd pd cd sd sf pf →
  (key, dim, sfx) ∈ dashboard_joins dd pd cd sd →
  wf_frame dim ∧ NoDup (column dim key) ∧ key ∈ columns dim
  ∧ wf_frame sf ∧ key ∈ columns sf.
Proof.
  intros (Hwf & Hdd & Hpd & Hcd & Hsd & Hsf & _ & _ & Huniq & _) Hjoin.
  rewrite !Forall_cons in Hwf. rewrite !Forall_cons in Huniq. cbn [fst snd] in Huniq.
  destruct Hwf as (Wdd & Wpd & Wcd & Wsd & Wsf & _).
  destruct Huniq as (Udd & Upd & Ucd & Usd & _).
  unfold dashboard_joins in Hjoin. rewrite !elem_of_cons, elem_of_nil in Hjoin.
  destruct Hjoin as [[= -> -> ->]|[[= -> -> ->]|[[= -> -> ->]|[[= -> -> ->]|[]]]]];
    (do 2 (split; [done|])); rewrite Hsf.
  - rewrite Hdd. split; [decide_closed|]. split; [done|]. decide_closed.
  - rewrite Hpd. split; [decide_closed|]. split; [done|]. decide_closed.
  - rewrite Hcd. split; [decide_closed|]. split; [done|]. decide_closed.
  - rewrite Hsd. split; [decide_closed|]. split; [done|]. decide_closed.
Qed.

(** X13.  In the sales data of the dashboard the columns of the sales
    fact are unchanged, and every attribute of a dimension is, row by row,
    the attribute of the dimension row whose key is the key of the sale, or
    the missing value when the sale's key is missing or in no dimension
    row. *)
Theorem dashboard_sales_attributes (dd pd cd sd sf pf : DataFrame) :
  star_schema_tables dd pd cd sd sf pf →
  ∃ sales perf,
    prepare_dashboard_data dd pd cd sd sf pf = Ok (sales, perf)
    ∧ (∀ c, c ∈ columns sf → getitem sales c = getitem sf c)
    ∧ ∀ key dim sfx c,
        (key, dim, sfx) ∈ dashboard_joins dd pd cd sd →
        c ∈ columns dim → c ≠ key → c ≠ "date" →
        ∃ s', getitem sales (suffixed ["country"] sfx c) = Ok s'
          ∧ length s' = df_len sf
          ∧ ∀ i k, column sf key !! i = Some k →
              ((k ∉ column dim key) ∧ s' !! i = Some VNaN)
              ∨ (∃ j, column dim key !! j = Some k ∧ s' !! i = column dim c !! j).
Proof.
  intros Hstar.
  destruct (prepare_dashboard_data_sales _ _ _ _ _ _ Hstar)
    as (sales & perf & stamps & Hrun & _ & _ & Hfact & Hattr).
  exists sales, perf. split; [done|]. split.
  - intros c Hc%getitem_column. rewrite Hc. by apply Hfact.
  - intros key dim sfx c Hjoin Hc Hkey Hdate.
    destruct (dashboard_join_tables _ _ _ _ _ _ key dim sfx Hstar Hjoin)
      as (Wdim & Hnd & Kdim & Wsf & Ksf).
    apply getitem_column in Hc, Kdim, Ksf.
    exists (joined (column sf key) (column dim key) (column dim c)).
    split; [by apply (Hattr key dim)|].
    split; [rewrite length_joined; by eapply getitem_length|].
    apply joined_rows; [done|].
    rewrite (getitem_length _ _ _ Wdim Hc). symmetry. by eapply getitem_length.
Qed.

(** X14.  The [date] column of the sales data: a sale whose [date_key] is
    in the date dimension gets the day of that row as a timestamp, a sale
    whose [date_key] is in no row of the date dimension gets the missing
    timestamp. *)
Theorem dashboard_sales_dates (dd pd cd sd sf pf : DataFrame) :
  star_schema_tables dd pd cd sd sf pf →
  ∃ sales perf stamps,
    prepare_dashboard_data dd pd cd sd sf pf = Ok (sales, perf)
    ∧ getitem sales "date" = Ok stamps
    ∧ length stamps = df_len sf
    ∧ ∀ i k, column sf "date_key" !! i = Some k →
        ((k ∉ column dd "date_key") ∧ stamps !! i = Some VNaN)
        ∨ (∃ j v d, column dd "date_key" !! j = Some k
                    ∧ column dd "date" !! j = Some v
                    ∧ cell_date v = Some d
                    ∧ stamps !! i = Some (VTimestamp d)).
Proof.
  intros Hstar.
  destruct (prepare_dashboard_data_sales _ _ _ _ _ _ Hstar)
    as (sales & perf & stamps & Hrun & Hdate & Hcells & _).
  destruct (dashboard_join_tables _ _ _ _ _ _ "date_key" dd "_x" Hstar)
    as (Wdd & Hnd & Kdd & Wsf & Ksf); [by left|].
  pose proof Hstar as (_ & Hdd & _ & _ & _ & _ & _ & _ & _ & Hdays).
  assert (getitem dd "date" = Ok (column dd "date")) as Gdate
    by (apply getitem_column; rewrite Hdd; decide_closed).
  apply getitem_column in Kdd, Ksf.
  assert (length (column dd "date") = length (column dd "date_key")) as Hlen.
  { rewrite (getitem_length _ _ _ Wdd Gdate). symmetry. by eapply getitem_length. }
  exists sales, perf, stamps. do 2 (split; [done|]). split.
  { rewrite <- (Forall2_length _ _ _ Hcells), length_joined. by eapply getitem_length. }
  intros i k Hi.
  destruct (joined_rows (column sf "date_key") (column dd "date_key") (column dd "date")
              Hnd Hlen i k Hi) as [[Hnot Hcell]|(j & Hj & Hcell)].
  - left. split; [done|].
    destruct (Forall2_lookup_l _ _ _ _ _ Hcells Hcell) as (t & Ht & Hconv).
    cbn in Hconv. congruence.
  - right. destruct (column dd "date" !! j) as [v|] eqn:Hv.
    2:{ apply lookup_ge_None in Hv. apply lookup_lt_Some in Hj. lia. }
    rewrite Forall_forall in Hdays.
    destruct (Hdays v) as [d Hd]; [by eapply list_elem_of_lookup_2|].
    exists j, v, d. do 3 (split; [done|]).
    destruct (Forall2_lookup_l _ _ _ _ _ Hcells Hcell) as (t & Ht & Hconv).
    apply cell_date_Some in Hd as (Hd & _). congruence.
Qed.

Lemma merge_left_row_count_witness :
  ∃ lkeys rkeys,
    getitem sample_sales_fact "product_key" = Ok lkeys
    ∧ getitem sample_product_dim_twice "product_key" = Ok rkeys
    ∧ (df_len sample_sales_fact
       ≤ df_len (built (merge_left sample_sales_fact sample_product_dim_twice
                          "product_key")))%nat
    ∧ (NoDup rkeys →
       df_len (built (merge_left sample_sales_fact sample_product_dim_twice "product_key"))
       = df_len sample_sales_fact)
    ∧ (∀ i j1 j2 k, lkeys !! i = Some k → rkeys !! j1 = Some k → rkeys !! j2 = Some k →
         j1 ≠ j2 →
         (df_len sample_sales_fact
          < df_len (built (merge_left sample_sales_fact sample_product_dim_twice
                             "product_key")))%nat).
Proof.
  apply (merge_left_row_count sample_sales_fact sample_product_dim_twice
           (built (merge_left sample_sales_fact sample_product_dim_twice "product_key"))
           "product_key").
  - decide_closed.
  - vm_compute; reflexivity.
Defined.

Lemma merge_left_unique_keys_witness :
  ∃ out, merge_left sample_sales_fact sample_product_dim "product_key" = Ok out
    ∧ columns out
      = merge_labels (columns sample_sales_fact) (columns sample_product_dim) "product_key"
    ∧ (∀ c s, getitem sample_sales_fact c = Ok s →
         getitem out
           (suffixed (overlap (columns sample_sales_fact) (columns sample_product_dim)
                        "product_key") "_x" c) = Ok s)
    ∧ (∀ c s, c ≠ "product_key" → getitem sample_product_dim c = Ok s →
         ∃ s', getitem out
                 (suffixed (overlap (columns sample_sales_fact)
                              (columns sample_product_dim) "product_key") "_y" c)
               = Ok s'
           ∧ length s' = df_len sample_sales_fact
           ∧ ∀ i k, [VInt 2; VNaN; VInt 1] !! i = Some k →
               ((k ∉ [VInt 1; VInt 2; VInt 3]) ∧ s' !! i = Some VNaN)
               ∨ (∃ j, [VInt 1; VInt 2; VInt 3] !! j = Some k ∧ s' !! i = s !! j)).
Proof.
  apply (merge_left_unique_keys sample_sales_fact sample_product_dim "product_key"
           [VInt 2; VNaN; VInt 1] [VInt 1; VInt 2; VInt 3]).
  - decide_closed.
  - decide_closed.
  - reflexivity.
  - reflexivity.
  - reflexivity.
  - reflexivity.
  - decide_closed.
  - decide_closed.
Defined.


Lemma prepare_dashboard_data_shape_witness :
  ∃ sales perf,
    prepare_dashboard_data sample_date_dim sample_product_dim sample_customer_dim
      sample_store_dim sample_sales_fact sample_performance_fact = Ok (sales, perf)
    ∧ wf_frame sales ∧ df_len sales = df_len sample_sales_fact
    ∧ columns sales = sales_data_columns
    ∧ wf_frame perf ∧ df_len perf = df_len sample_performance_fact
    ∧ columns perf = performance_data_columns.
Proof.
  apply (prepare_dashboard_data_shape sample_date_dim sample_product_dim
           sample_customer_dim sample_store_dim sample_sales_fact
           sample_performance_fact).
  decide_closed.
Defined.

Lemma dashboard_sales_attributes_witness :
  ∃ sales perf,
    prepare_dashboard_data sample_date_dim sample_product_dim sample_customer_dim
      sample_store_dim sample_sales_fact sample_performance_fact = Ok (sales, perf)
    ∧ (∀ c, c ∈ columns sample_sales_fact → getitem sales c = getitem sample_sales_fact c)
    ∧ ∀ key dim sfx c,
        (key, dim, sfx) ∈ dashboard_joins sample_date_dim sample_product_dim
                            sample_customer_dim sample_store_dim →
        c ∈ columns dim → c ≠ key → c ≠ "date" →
        ∃ s', getitem sales (suffixed ["country"] sfx c) = Ok s'
          ∧ length s' = df_len sample_sales_fact
          ∧ ∀ i k, column sample_sales_fact key !! i = Some k →
              ((k ∉ column dim key) ∧ s' !! i = Some VNaN)
              ∨ (∃ j, column dim key !! j = Some k ∧ s' !! i = column dim c !! j).
Proof.
  apply (dashboard_sales_attributes sample_date_dim sample_product_dim
           sample_customer_dim sample_store_dim sample_sales_fact
           sample_performance_fact).
  decide_closed.
Defined.

Lemma dashboard_sales_dates_witness :
  ∃ sales perf stamps,
    prepare_dashboard_data sample_date_dim sample_product_dim sample_customer_dim
      sample_store_dim sample_sales_fact sample_performance_fact = Ok (sales, perf)
    ∧ getitem sales "date" = Ok stamps
    ∧ length stamps = df_len sample_sales_fact
    ∧ ∀ i k, column sample_sales_fact "date_key" !! i = Some k →
        ((k ∉ column sample_date_dim "date_key") ∧ stamps !! i = Some VNaN)
        ∨ (∃ j v d, column sample_date_dim "date_key" !! j = Some k
                    ∧ column sample_date_dim "date" !! j = Some v
                    ∧ cell_date v = Some d
                    ∧ stamps !! i = Some (VTimestamp d)).
Proof.
  apply (dashboard_sales_dates sample_date_dim sample_product_dim
           sample_customer_dim sample_store_dim sample_sales_fact
           sample_performance_fact).
  decide_closed.
Defined.

(* ===================================================================== *)
(** ** The dashboard before a build                                       *)
(* ===================================================================== *)

(** X15.  [load_star_schema_data] reads the six files of the star schema in
    a fixed order, the dimensions first, and stops at the first that
    [read_csv] cannot read, with the error of that read: a dashboard that
    is started before [main] has written its files gets the
    [FileNotFoundError] of the first file that is not there. *)
Theorem load_star_schema_data_first_unreadable `{codec : CellCodec}
    (dir : string) (fs : filesystem) (pre post : list string) (p : string) (e : error) :
  star_schema_files dir = pre ++ p :: post →
  Forall (λ q, is_Ok (read_csv q fs) = true) pre →
  read_csv p fs = Raise e →
  load_star_schema_data dir fs = Raise e
  ∧ (fs !! p = None → e = FileNotFoundError p).
Proof.
  intros Hfiles Hpre Hp. split.
  - unfold load_star_schema_data.
    unfold star_schema_files in Hfiles. rewrite !fmap_cons in Hfiles.
    repeat
      (destruct pre as [|q pre];
       [ injection Hfiles as <- _; by rewrite Hp
       | injection Hfiles as <- Hfiles;
         apply Forall_cons in Hpre as [[? Hq]%is_Ok_true Hpre];
         rewrite Hq, bind_Ok_l; clear Hq ]).
    destruct pre; discriminate.
  - intros Hnone. unfold read_csv in Hp. rewrite Hnone in Hp. congruence.
Qed.

Lemma load_star_schema_data_first_unreadable_witness :
  load_star_schema_data (codec := sample_codec) DATA_DIR sample_files
  = Raise (FileNotFoundError "src/models/star_schema/dim_date.csv")
  ∧ (sample_files !! "src/models/star_schema/dim_date.csv" = None →
     FileNotFoundError "src/models/star_schema/dim_date.csv"
     = FileNotFoundError "src/models/star_schema/dim_date.csv").
Proof.
  apply (load_star_schema_data_first_unreadable (codec := sample_codec) DATA_DIR
           sample_files []
           ["src/models/star_schema/dim_product.csv";
            "src/models/star_schema/dim_customer.csv";
            "src/models/star_schema/dim_store.csv";
            "src/models/star_schema/fact_sales.csv";
            "src/models/star_schema/fact_performance.csv"]).
  - reflexivity.
  - constructor.
  - vm_compute; reflexivity.
Defined.
